(** * FeeClub payment reconciliation: a shallow embedding

    The development follows the three sources that make up the payment
    reconciliation engine:

    - the migration that adds the webhook secret support
      ([encrypt_config_value], [decrypt_config_value], [get_school_config],
      the unique index on [payments.transaction_id], the [webhook_logs] table);
    - the migration that adds [process_payment_webhook];
    - the edge function [razorpay-verify/index.ts]
      ([verifyWebhookSignature], [handleWebhook], [handleDirectVerification]).

    TEXT values are [string]s holding their UTF-8 bytes, [bytea] values and
    [Uint8Array]s are [list byte], UUIDs are natural numbers, and a
    NUMERIC(10,2) value is the integer number of hundredths it denotes.
    Timestamps are left out of the rows.  The [schools] table is kept as
    the list of its ids, for the foreign key of the audit log.  The
    JavaScript numbers of the conversion of the captured amount are the
    primitive binary64 floats with their specification.

    A stored procedure is a computation in a small transaction monad whose
    state keeps, next to the database the transaction sees, the database
    without its own writes; a session records the role of the caller, the
    failures of the store and the commits of other transactions during a
    lock wait.  The edge function is written over its runtime (the JSON
    parser, [crypto.subtle], JavaScript numbers) as section variables, and
    returns its response together with the database it leaves and the calls
    it made to the vault and to the verifier.

    The definitions come first, then example data, then the properties. *)

From Stdlib Require Import ZArith NArith List String Ascii Bool Lia.
From Stdlib.Strings Require Import Byte.
From Stdlib Require Floats Uint63 Reals Lra.
Import ListNotations.

Local Open Scope string_scope.

(** ** Results of SQL functions *)

(** A PL/pgSQL function either returns a value or raises an exception that
    carries its message (SQLERRM). *)
Inductive sql_result (A : Type) : Type :=
| Returned (a : A)
| Raised (sqlerrm : string).
Arguments Returned {A} a.
Arguments Raised {A} sqlerrm.

Definition TEXT := string.
Definition bytea := list byte.
Definition UUID := nat.

(** ** PostgreSQL built-ins used by the configuration envelope *)

Module Pg.

Definition textout (t : TEXT) : list byte := list_byte_of_string t.

Definition is_space (c : byte) : bool :=
  match c with
  | x20 | x09 | x0a | x0d => true
  | _ => false
  end.

Definition backslash : byte := x5c.

Definition get_hex (c : byte) : option N :=
  let n := Byte.to_N c in
  if ((48 <=? n) && (n <=? 57))%N then Some (n - 48)%N
  else if ((97 <=? n) && (n <=? 102))%N then Some (n - 87)%N
  else if ((65 <=? n) && (n <=? 70))%N then Some (n - 55)%N
  else None.

Definition byte_of (n : N) : byte :=
  match Byte.of_N (n mod 256) with
  | Some b => b
  | None => x00
  end.

(** [hex_decode] of encode.c: white space is skipped between bytes, the
    two digits of a byte are adjacent. *)
Fixpoint hex_decode (s : list byte) : option bytea :=
  match s with
  | [] => Some []
  | c :: rest =>
      if is_space c then hex_decode rest
      else match get_hex c, rest with
           | Some v1, d :: rest' =>
               match get_hex d with
               | Some v2 => option_map (cons (byte_of (v1 * 16 + v2))) (hex_decode rest')
               | None => None
               end
           | _, _ => None
           end
  end.

Definition octal_digit (lo hi : N) (c : byte) : option N :=
  let n := Byte.to_N c in
  if ((48 + lo <=? n) && (n <=? 48 + hi))%N then Some (n - 48)%N else None.

(** The traditional escape format of [byteain]: a backslash introduces
    either three octal digits or a second backslash; anything else after
    a backslash is a syntax error. *)
Fixpoint escape_decode (s : list byte) : option bytea :=
  match s with
  | [] => Some []
  | c :: rest =>
      if Byte.eqb c backslash then
        match rest with
        | [] => None
        | d1 :: rest1 =>
            let octal :=
              match rest1 with
              | d2 :: d3 :: rest3 =>
                  match octal_digit 0 3 d1, octal_digit 0 7 d2, octal_digit 0 7 d3 with
                  | Some o1, Some o2, Some o3 =>
                      Some (option_map (cons (byte_of (o1 * 64 + o2 * 8 + o3)))
                                       (escape_decode rest3))
                  | _, _, _ => None
                  end
              | _ => None
              end in
            match octal with
            | Some r => r
            | None =>
                if Byte.eqb d1 backslash
                then option_map (cons backslash) (escape_decode rest1)
                else None
            end
        end
      else option_map (cons c) (escape_decode rest)
  end.

(** [byteain]: the input function of [bytea]. *)
Definition byteain (s : list byte) : option bytea :=
  match s with
  | c :: d :: rest =>
      if Byte.eqb c backslash && Byte.eqb d x78
      then hex_decode rest
      else escape_decode s
  | _ => escape_decode s
  end.

(** [t::bytea] for a TEXT [t].  There is no cast entry from text to bytea,
    so the explicit cast goes through the text output and the bytea input
    functions; [None] is "invalid input syntax for type bytea". *)
Definition text_to_bytea (t : TEXT) : option bytea := byteain (textout t).

Definition base64_alphabet : list byte :=
  list_byte_of_string
    "ABCDEFGHIJKLMNOPQRSTUVWXYZabcdefghijklmnopqrstuvwxyz0123456789+/".

Definition b64_char (n : N) : byte := nth (N.to_nat (n mod 64)) base64_alphabet x00.

Definition b64_lookup (c : byte) : option N :=
  let n := Byte.to_N c in
  if ((65 <=? n) && (n <=? 90))%N then Some (n - 65)%N
  else if ((97 <=? n) && (n <=? 122))%N then Some (n - 71)%N
  else if ((48 <=? n) && (n <=? 57))%N then Some (n + 4)%N
  else if (n =? 43)%N then Some 62%N
  else if (n =? 47)%N then Some 63%N
  else None.

Definition pad : byte := x3d.
Definition newline : byte := x0a.

(** [pg_base64_encode]: three bytes give four symbols, a line feed follows
    every 76 symbols, the last group is padded with [=]. [col] is the number
    of symbols already on the current line. *)
Fixpoint base64_encode_from (col : nat) (s : bytea) : list byte :=
  match s with
  | [] => []
  | [a] =>
      let buf := (Byte.to_N a * 65536)%N in
      [b64_char (buf / 262144); b64_char (buf / 4096); pad; pad]
  | [a; b] =>
      let buf := (Byte.to_N a * 65536 + Byte.to_N b * 256)%N in
      [b64_char (buf / 262144); b64_char (buf / 4096); b64_char (buf / 64); pad]
  | a :: b :: c :: rest =>
      let buf := (Byte.to_N a * 65536 + Byte.to_N b * 256 + Byte.to_N c)%N in
      b64_char (buf / 262144) :: b64_char (buf / 4096)
        :: b64_char (buf / 64) :: b64_char buf
        :: (if (76 <=? col + 4)%nat
            then newline :: base64_encode_from 0 rest
            else base64_encode_from (col + 4) rest)
  end.

Definition base64_encode (s : bytea) : list byte := base64_encode_from 0 s.

(** [pg_base64_decode]: white space is skipped; [buf] collects four
    symbols, [pos] counts them, [fin] remembers where the padding began. *)
Fixpoint base64_decode_from (buf : N) (pos fin : nat) (s : list byte)
  : option bytea :=
  match s with
  | [] => if (pos =? 0)%nat then Some [] else None
  | c :: rest =>
      if is_space c then base64_decode_from buf pos fin rest
      else
        let step (b : N) (fin' : nat) :=
          let buf' := (buf * 64 + b)%N in
          if (pos =? 3)%nat then
            let out1 := [byte_of (buf' / 65536)] in
            let out2 := if ((fin' =? 0) || (1 <? fin'))%nat
                        then [byte_of (buf' / 256)] else [] in
            let out3 := if ((fin' =? 0) || (2 <? fin'))%nat
                        then [byte_of buf'] else [] in
            option_map (app (out1 ++ out2 ++ out3))
                       (base64_decode_from 0 0 fin' rest)
          else base64_decode_from buf' (S pos) fin' rest in
        if Byte.eqb c pad then
          if (fin =? 0)%nat then
            if (pos =? 2)%nat then step 0%N 1%nat
            else if (pos =? 3)%nat then step 0%N 2%nat
            else None
          else step 0%N fin
        else
          match b64_lookup c with
          | Some b => step b fin
          | None => None
          end
  end.

Definition base64_decode (s : list byte) : option bytea :=
  base64_decode_from 0 0 0 s.

Definition in_range (lo hi : N) (c : byte) : bool :=
  ((lo <=? Byte.to_N c) && (Byte.to_N c <=? hi))%N.

(** [pg_verify_mbstr] for UTF8: no zero byte, shortest-form sequences
    only, no surrogates, nothing above U+10FFFF. *)
Fixpoint utf8_valid (s : bytea) : bool :=
  match s with
  | [] => true
  | c :: rest =>
      if in_range 1 127 c then utf8_valid rest
      else if in_range 194 223 c then
        match rest with
        | c1 :: rest1 => in_range 128 191 c1 && utf8_valid rest1
        | _ => false
        end
      else if in_range 224 239 c then
        match rest with
        | c1 :: c2 :: rest2 =>
            (if Byte.eqb c xe0 then in_range 160 191 c1
             else if Byte.eqb c xed then in_range 128 159 c1
             else in_range 128 191 c1)
            && in_range 128 191 c2 && utf8_valid rest2
        | _ => false
        end
      else if in_range 240 244 c then
        match rest with
        | c1 :: c2 :: c3 :: rest3 =>
            (if Byte.eqb c xf0 then in_range 144 191 c1
             else if Byte.eqb c xf4 then in_range 128 143 c1
             else in_range 128 191 c1)
            && in_range 128 191 c2 && in_range 128 191 c3 && utf8_valid rest3
        | _ => false
        end
      else false
  end.

(** [convert_from(b, 'UTF8')]. *)
Definition convert_from_utf8 (b : bytea) : option TEXT :=
  if utf8_valid b then Some (string_of_list_byte b) else None.

(** [t LIKE 'p%'] for a pattern [p] without wildcards. *)
Definition like_prefix (p t : TEXT) : bool := String.prefix p t.

(** [substring(t from n)], counted in bytes; the callers use it behind a
    prefix of single-byte characters. *)
Definition substring_from (n : nat) (t : TEXT) : TEXT :=
  String.substring (n - 1) (String.length t - (n - 1)) t.

(** The 64 symbols: none is white space or padding, and the lookup table
    inverts the alphabet. *)
Definition symbol_ok (n : N) : bool :=
  negb (is_space (b64_char n)) && negb (Byte.eqb (b64_char n) pad)
  && match b64_lookup (b64_char n) with
     | Some m => N.eqb m n
     | None => false
     end.

End Pg.

(** ** The configuration envelope (webhook secret migration) *)

(** [RETURN 'ENCRYPTED:' || encode(config_value::bytea, 'base64')] *)
Definition encrypt_config_value (config_value : TEXT) : sql_result TEXT :=
  match Pg.text_to_bytea config_value with
  | Some b => Returned ("ENCRYPTED:" ++ string_of_list_byte (Pg.base64_encode b))
  | None => Raised "invalid input syntax for type bytea"
  end.

(** [IF encrypted_value LIKE 'ENCRYPTED:%' THEN
       RETURN convert_from(decode(substring(encrypted_value from 11), 'base64'), 'UTF8');
     ELSE RETURN encrypted_value;] *)
Definition decrypt_config_value (encrypted_value : TEXT) : sql_result TEXT :=
  if Pg.like_prefix "ENCRYPTED:" encrypted_value then
    match Pg.base64_decode (Pg.textout (Pg.substring_from 11 encrypted_value)) with
    | Some b =>
        match Pg.convert_from_utf8 b with
        | Some t => Returned t
        | None => Raised "invalid byte sequence for encoding UTF8"
        end
    | None => Raised "invalid base64 sequence"
    end
  else Returned encrypted_value.


(** ** The notification (index.ts, the interfaces)

    Only the fields the handlers read are kept.  [amount] is the captured
    amount in the gateway's minor unit; [order_id] is absent ([None]) when
    the entity carries no order reference. *)
Record RazorpayPayment := mk_payment_entity {
  id : TEXT;
  amount : Z;
  order_id : option TEXT;
  method : TEXT
}.

(** [notification_payload] is [None] when the notification has no [payload]
    member, [Some None] when [payload.payment?.entity] is missing. *)
Record RazorpayWebhookPayload := mk_notification {
  event : TEXT;
  notification_payload : option (option RazorpayPayment)
}.

(** ** The tables *)

(** [student_fees.status], [payment_intents.status] and
    [webhook_logs.processing_status] are TEXT columns that only ever receive
    the literals listed in the schema comments. *)
Inductive fee_status := unpaid | partially_paid | paid.
Inductive intent_status := created | intent_paid | intent_failed | cancelled.
Inductive processing_status := received | processed | failed.

(** NUMERIC(10,2): the number of hundredths, fewer than ten digits in all. *)
Definition NUMERIC := Z.
Bind Scope Z_scope with NUMERIC.

Definition numeric_10_2 (v : Z) : option NUMERIC :=
  if (Z.abs v <? 10000000000)%Z then Some v else None.

Record school_configuration := mk_config {
  sc_id : UUID;
  sc_school_id : UUID;
  config_key : TEXT;
  config_value : TEXT
}.

Record payment_intent := mk_intent {
  pi_id : UUID;
  razorpay_order_id : TEXT;
  pi_student_fee_id : UUID;
  pi_school_id : UUID;
  pi_amount : NUMERIC;
  currency : TEXT;
  pi_status : intent_status;
  receipt : TEXT;
  razorpay_payment_id : option TEXT;
  webhook_verified : bool
}.

Record student_fee := mk_fee {
  sf_id : UUID;
  student_id : UUID;
  sf_school_id : UUID;
  structure_id : UUID;
  total_due : NUMERIC;
  amount_paid : option NUMERIC;
  sf_status : fee_status
}.

Record payment := mk_payment {
  p_id : UUID;
  p_student_fee_id : UUID;
  p_school_id : UUID;
  transaction_id : option TEXT;
  p_razorpay_order_id : option TEXT;
  p_amount : NUMERIC;
  payment_method : TEXT;
  is_webhook_verified : bool
}.

(** What the engine stores in [webhook_logs.payload]: the parsed
    notification (edge function) or one of the two objects built by
    [process_payment_webhook]. *)
Inductive log_payload :=
| NotificationBody (b : RazorpayWebhookPayload)
| ProcessedPayment (payment_id : TEXT) (paid : NUMERIC) (fee : UUID)
| FailedPayment (payment_id : TEXT) (paid : NUMERIC) (error : TEXT).

Record webhook_log := mk_log {
  wl_id : UUID;
  wl_school_id : option UUID;
  webhook_event : TEXT;
  razorpay_signature : option TEXT;
  payload : log_payload;
  signature_valid : option bool;
  wl_status : processing_status;
  error_message : option TEXT
}.

Record DB := mk_db {
  school_configurations : list school_configuration;
  payment_intents : list payment_intent;
  student_fees : list student_fee;
  payments : list payment;
  webhook_logs : list webhook_log;
  schools : list UUID
}.

(** Of a school only the id is kept.  The tables above refer to
    [schools(id)] by foreign keys that hold in every state of the store
    (ON DELETE CASCADE), so a school has a row when [schools] lists it or
    when a row of one of these tables carries its id. *)
Definition has_school (db : DB) (school : UUID) : bool :=
  existsb (Nat.eqb school) (schools db)
  || existsb (fun c => Nat.eqb (sc_school_id c) school) (school_configurations db)
  || existsb (fun i => Nat.eqb (pi_school_id i) school) (payment_intents db)
  || existsb (fun f => Nat.eqb (sf_school_id f) school) (student_fees db)
  || existsb (fun p => Nat.eqb (p_school_id p) school) (payments db)
  || existsb (fun l => match wl_school_id l with
                       | Some s => Nat.eqb s school
                       | None => false
                       end) (webhook_logs db).

(** [gen_random_uuid()] as a column default: an id no row of the table has. *)
Definition gen_random_uuid (used : list UUID) : UUID := S (list_max used).

Definition has_transaction (t : TEXT) (p : payment) : bool :=
  match transaction_id p with
  | Some t' => String.eqb t' t
  | None => false
  end.

Definition with_payments (db : DB) (l : list payment) : DB :=
  mk_db (school_configurations db) (payment_intents db) (student_fees db) l
        (webhook_logs db) (schools db).

Definition with_student_fees (db : DB) (l : list student_fee) : DB :=
  mk_db (school_configurations db) (payment_intents db) l (payments db)
        (webhook_logs db) (schools db).

Definition with_payment_intents (db : DB) (l : list payment_intent)
  : DB :=
  mk_db (school_configurations db) l (student_fees db) (payments db)
        (webhook_logs db) (schools db).

Definition with_webhook_logs (db : DB) (l : list webhook_log)
  : DB :=
  mk_db (school_configurations db) (payment_intents db) (student_fees db)
        (payments db) l (schools db).

(** [UPDATE t SET ... WHERE c] *)
Definition update_where {A} (c : A -> bool) (set : A -> A) (rows : list A) : list A :=
  map (fun r => if c r then set r else r) rows.

(** The statements of [process_payment_webhook], as labels for the points at
    which the backing store may fail. *)
Inductive statement :=
| SelectIntent | SelectPayment | LockFee | InsertPayment
| UpdateFee | UpdateIntent | InsertLog | InsertFailureLog.

(** The conditions a database call runs under: the role of the caller
    ([auth.role()], NULL when the request carries no role claim), the
    transient failures of the store (lock timeout, storage unavailable) and
    what other transactions commit while this one waits for the row lock of
    [FOR UPDATE]. *)
Record session := mk_session {
  auth_role : option TEXT;
  fault : statement -> option TEXT;
  lock_wait : DB -> DB
}.

(** [auth.role() != 'service_role'] as the condition of an IF: a
    comparison with NULL is NULL, and IF takes NULL as not true. *)
Definition not_service_role (role : option TEXT) : bool :=
  match role with
  | Some r => negb (String.eqb r "service_role")
  | None => false
  end.

(** The service-role client of the edge function, alone on a healthy store. *)
Definition service_session : session :=
  mk_session (Some "service_role") (fun _ => None) (fun db => db).

(** The double quote PostgreSQL puts around the names in its messages. *)
Definition dquote : TEXT := String "034"%char "".

(** The messages of the two constraints a statement below can violate. *)
Definition unique_violation : TEXT :=
  "duplicate key value violates unique constraint "
    ++ dquote ++ "idx_payments_razorpay_payment_id" ++ dquote.

Definition foreign_key_violation : TEXT :=
  "insert or update on table " ++ dquote ++ "webhook_logs" ++ dquote
    ++ " violates foreign key constraint "
    ++ dquote ++ "webhook_logs_school_id_fkey" ++ dquote.

(** ** A transaction monad for PL/pgSQL bodies

    [cur] is the database as the transaction sees it, [others] the database
    without the writes of this transaction: what a rollback restores. *)
Record txn_state := mk_txn {
  cur : DB;
  others : DB
}.

Definition SQL (A : Type) := txn_state -> sql_result A * txn_state.

Definition ret {A} (a : A) : SQL A := fun st => (Returned a, st).

Definition bind {A B} (m : SQL A) (k : A -> SQL B) : SQL B :=
  fun st =>
    match m st with
    | (Returned a, st') => k a st'
    | (Raised e, st') => (Raised e, st')
    end.

Definition raise {A} (e : TEXT) : SQL A := fun st => (Raised e, st).

Definition query {A} (f : DB -> A) : SQL A :=
  fun st => (Returned (f (cur st)), st).

Definition write (f : DB -> DB) : SQL unit :=
  fun st => (Returned tt, mk_txn (f (cur st)) (others st)).

(** Commits of other transactions become visible. *)
Definition visible (f : DB -> DB) : SQL unit :=
  fun st => (Returned tt, mk_txn (f (cur st)) (f (others st))).

(** A statement first meets the store, which may fail it. *)
Definition run {A} (s : session) (l : statement) (m : SQL A)
  : SQL A :=
  match fault s l with
  | Some e => raise e
  | None => m
  end.

(** [BEGIN body EXCEPTION WHEN OTHERS THEN handler END]: the block is a
    subtransaction; when it raises, its writes are undone before the handler
    runs with SQLERRM. *)
Definition begin_exception {A} (block : SQL A)
           (handler : TEXT -> SQL A) : SQL A :=
  fun st =>
    match block st with
    | (Returned a, st') => (Returned a, st')
    | (Raised e, st') => handler e (mk_txn (others st') (others st'))
    end.

(** One remote procedure call is one transaction: it commits when the
    function returns and rolls back when it raises. *)
Definition rpc {A} (m : SQL A) (db : DB) : sql_result A * DB :=
  match m (mk_txn db db) with
  | (Returned a, st) => (Returned a, cur st)
  | (Raised e, st) => (Raised e, others st)
  end.

Declare Scope sql_scope.
Delimit Scope sql_scope with sql.
Notation "x <- m ;; k" := (bind m (fun x => k))
  (at level 61, m at next level, right associativity) : sql_scope.
Notation "m ;; k" := (bind m (fun _ => k))
  (at level 61, right associativity) : sql_scope.

Local Open Scope sql_scope.

(** ** [get_school_config] (webhook secret migration) *)

Definition sensitive_key (k : TEXT) : bool :=
  String.eqb k "razorpay_key_secret" || String.eqb k "razorpay_webhook_secret".

Definition lift {A} (r : sql_result A) : SQL A := fun st => (r, st).

(** [SELECT CASE WHEN sc.config_key IN (...) THEN decrypt_config_value(sc.config_value)
            ELSE sc.config_value END
     INTO config_value FROM school_configurations sc
     WHERE sc.school_id = target_school_id AND sc.config_key = config_key_name;]
    [SELECT ... INTO] keeps the first row and yields NULL when there is none. *)
Definition get_school_config (s : session) (target_school_id : UUID)
           (config_key_name : TEXT) : SQL (option TEXT) :=
  if not_service_role (auth_role s)
  then raise "Access denied: Service role required"
  else
    row <- query (fun db =>
             find (fun sc => Nat.eqb (sc_school_id sc) target_school_id
                             && String.eqb (config_key sc) config_key_name)
                  (school_configurations db)) ;;
    match row with
    | None => ret None
    | Some sc =>
        if sensitive_key (config_key sc)
        then v <- lift (decrypt_config_value (config_value sc)) ;; ret (Some v)
        else ret (Some (config_value sc))
    end.

(** ** [process_payment_webhook] (payment processing migration) *)

Definition new_status (v_new_amount_paid v_total_due : NUMERIC) : fee_status :=
  if (v_total_due <=? v_new_amount_paid)%Z then paid
  else if (0 <? v_new_amount_paid)%Z then partially_paid
  else unpaid.

(** [INSERT INTO payments (...) VALUES (...) RETURNING id]: the amount must
    fit the column, the transaction id must be new to the unique index
    [idx_payments_razorpay_payment_id]. *)
Definition insert_payment (v_student_fee_id p_school_id : UUID)
           (p_razorpay_payment_id : TEXT) (order : option TEXT)
           (p_amount_paid : NUMERIC) (verified : bool) : SQL UUID :=
  match numeric_10_2 p_amount_paid with
  | None => raise "numeric field overflow"
  | Some a =>
      dup <- query (fun db => existsb (has_transaction p_razorpay_payment_id) (payments db)) ;;
      if (dup : bool)
      then raise unique_violation
      else
        new_id <- query (fun db => gen_random_uuid (map p_id (payments db))) ;;
        write (fun db =>
                 with_payments db
                   (payments db ++
                      [mk_payment new_id v_student_fee_id p_school_id
                                  (Some p_razorpay_payment_id) order a "Online" verified])) ;;
        ret new_id
  end.

(** [INSERT INTO webhook_logs (...) VALUES (...)]: the id is the column
    default, and [school_id] must be the id of a school
    ([webhook_logs_school_id_fkey]). *)
Definition insert_log (l : UUID -> webhook_log) : SQL unit :=
  row <- query (fun db => l (gen_random_uuid (map wl_id (webhook_logs db)))) ;;
  known <- query (fun db => match wl_school_id row with
                            | Some school => has_school db school
                            | None => true
                            end) ;;
  if (known : bool)
  then write (fun db => with_webhook_logs db (webhook_logs db ++ [row]))
  else raise foreign_key_violation.

Definition process_payment_webhook (s : session) (p_payment_intent_id : UUID)
           (p_razorpay_payment_id : TEXT) (p_amount_paid : NUMERIC)
           (p_school_id : UUID) : SQL UUID :=
  begin_exception
    (if not_service_role (auth_role s)
     then raise "Access denied: Service role required"
     else
       (* Get payment intent details *)
       v_student_fee_id <-
         run s SelectIntent
           (query (fun db =>
              option_map pi_student_fee_id
                (find (fun i => Nat.eqb (pi_id i) p_payment_intent_id
                                && Nat.eqb (pi_school_id i) p_school_id)
                      (payment_intents db)))) ;;
       match v_student_fee_id with
       | None => raise "Payment intent not found or access denied"
       | Some v_student_fee_id =>
           (* Check for duplicate payment (idempotency) *)
           v_payment_id <-
             run s SelectPayment
               (query (fun db =>
                  option_map p_id
                    (find (has_transaction p_razorpay_payment_id) (payments db)))) ;;
           match v_payment_id with
           | Some _ => raise ("Payment already processed: " ++ p_razorpay_payment_id)
           | None =>
               (* Get current student fee details with row lock *)
               fee <-
                 run s LockFee
                   (visible (lock_wait s) ;;
                    query (fun db =>
                      find (fun f => Nat.eqb (sf_id f) v_student_fee_id
                                     && Nat.eqb (sf_school_id f) p_school_id)
                           (student_fees db))) ;;
               match fee with
               | None => raise "Student fee not found or access denied"
               | Some fee =>
                   match amount_paid fee with
                   | None => raise "Student fee not found or access denied"
                   | Some v_current_amount_paid =>
                       let v_total_due := total_due fee in
                       (* Calculate new amounts and status *)
                       match numeric_10_2 (v_current_amount_paid + p_amount_paid) with
                       | None => raise "numeric field overflow"
                       | Some v_new_amount_paid =>
                           let v_new_status := new_status v_new_amount_paid v_total_due in
                           (* Create payment record *)
                           order <- query (fun db =>
                                      option_map razorpay_order_id
                                        (find (fun i => Nat.eqb (pi_id i) p_payment_intent_id)
                                              (payment_intents db))) ;;
                           v_payment_id <-
                             run s InsertPayment
                               (insert_payment v_student_fee_id p_school_id
                                  p_razorpay_payment_id order p_amount_paid true) ;;
                           (* Update student fee record *)
                           run s UpdateFee
                             (write (fun db =>
                                with_student_fees db
                                  (update_where
                                     (fun f => Nat.eqb (sf_id f) v_student_fee_id)
                                     (fun f => mk_fee (sf_id f) (student_id f) (sf_school_id f)
                                                 (structure_id f) (total_due f)
                                                 (Some v_new_amount_paid) v_new_status)
                                     (student_fees db)))) ;;
                           (* Update payment intent *)
                           run s UpdateIntent
                             (write (fun db =>
                                with_payment_intents db
                                  (update_where
                                     (fun i => Nat.eqb (pi_id i) p_payment_intent_id)
                                     (fun i => mk_intent (pi_id i) (razorpay_order_id i)
                                                 (pi_student_fee_id i) (pi_school_id i)
                                                 (pi_amount i) (currency i) intent_paid
                                                 (receipt i) (Some p_razorpay_payment_id) true)
                                     (payment_intents db)))) ;;
                           (* Log successful processing *)
                           run s InsertLog
                             (insert_log (fun new_id =>
                                mk_log new_id (Some p_school_id) "payment.captured" None
                                  (ProcessedPayment p_razorpay_payment_id p_amount_paid
                                                    v_student_fee_id)
                                  (Some true) processed None)) ;;
                           ret v_payment_id
                       end
                   end
               end
           end
       end)
    (fun sqlerrm =>
       (* Log error, then re-raise the exception *)
       run s InsertFailureLog
         (insert_log (fun new_id =>
            mk_log new_id (Some p_school_id) "payment.captured" None
              (FailedPayment p_razorpay_payment_id p_amount_paid sqlerrm)
              (Some true) failed (Some sqlerrm))) ;;
       raise sqlerrm).

(** ** [verify_razorpay_payment_signature] (payment processing migration) *)

(** [SELECT decrypt_config_value(config_value) INTO v_webhook_secret
     FROM school_configurations
     WHERE school_id = p_school_id AND config_key = 'razorpay_webhook_secret';
     IF v_webhook_secret IS NULL THEN RAISE EXCEPTION ...; END IF;
     RETURN TRUE;] *)
Definition verify_razorpay_payment_signature (s : session)
           (p_order_id p_payment_id p_signature : TEXT) (p_school_id : UUID)
  : SQL bool :=
  if not_service_role (auth_role s)
  then raise "Access denied: Service role required"
  else
    row <- query (fun db =>
             find (fun sc => Nat.eqb (sc_school_id sc) p_school_id
                             && String.eqb (config_key sc) "razorpay_webhook_secret")
                  (school_configurations db)) ;;
    v_webhook_secret <-
      match row with
      | None => ret None
      | Some sc => v <- lift (decrypt_config_value (config_value sc)) ;; ret (Some v)
      end ;;
    match v_webhook_secret : option TEXT with
    | None => raise "Webhook secret not found for school"
    | Some _ => ret true
    end.

(** ** The unique index [idx_payments_razorpay_payment_id]

    [CREATE UNIQUE INDEX ... ON payments(transaction_id)
     WHERE transaction_id IS NOT NULL]: what it keeps true of the table. *)
Definition recorded_transactions (ps : list payment) : list TEXT :=
  flat_map (fun p => match transaction_id p with
                     | Some t => [t]
                     | None => []
                     end) ps.

Definition unique_transactions (db : DB) : Prop :=
  NoDup (recorded_transactions (payments db)).

(** ** The edge function (razorpay-verify/index.ts) *)

(** *** Responses (_shared/cors.ts) *)

Inductive payment_ref := RecordId (u : UUID) | GatewayRef (t : option TEXT).

Record response_data := mk_data {
  message : TEXT;
  paymentId : option payment_ref;
  transactionId : option TEXT
}.

Inductive response_body :=
| Preflight
| Failure (error : TEXT)
| Success (data : response_data).

Record Response := mk_response {
  status : nat;
  body : response_body
}.

Definition errorResponse (message : TEXT) (status : nat) : Response :=
  mk_response status (Failure message).

Definition successResponse (data : response_data) : Response :=
  mk_response 200 (Success data).

(** *** Requests *)

Record Request := mk_request {
  http_method : TEXT;
  content_type : option TEXT;
  x_razorpay_event_id : option TEXT;
  x_razorpay_signature : option TEXT;
  text : TEXT
}.

(** The direct verification request; a missing member is [None]. *)
Record VerifyPaymentRequest := mk_verify_request {
  razorpayOrderId : option TEXT;
  razorpayPaymentId : option TEXT;
  razorpaySignature : option TEXT
}.

(** What [JSON.parse] gives: a syntax error, [null], or a value read at the
    expected interface. *)
Inductive parsed (A : Type) :=
| SyntaxError (msg : TEXT)
| JsonNull
| JsonValue (a : A).
Arguments SyntaxError {A} msg.
Arguments JsonNull {A}.
Arguments JsonValue {A} a.

(** JavaScript truthiness of a string that may be absent. *)
Definition truthy (o : option TEXT) : bool :=
  match o with
  | Some s => negb (String.eqb s "")
  | None => false
  end.

(** [.single()]: the row when the filter keeps exactly one. *)
Definition single {A} (rows : list A) : option A :=
  match rows with
  | [r] => Some r
  | _ => None
  end.

(** What a handler asks of the credential vault and of the signature
    verifier, in order. *)
Inductive call :=
| VaultGet (school : UUID) (key : TEXT)
| Verify (payload signature secret : TEXT)
| VerifyPayment (order payment signature secret : TEXT).

Record outcome := mk_outcome {
  response : Response;
  final : DB;
  calls : list call
}.

(** [b.toString(16).padStart(2, '0')] *)
Definition hex_digit (n : N) : ascii :=
  match n with
  | 0 => "0" | 1 => "1" | 2 => "2" | 3 => "3" | 4 => "4" | 5 => "5"
  | 6 => "6" | 7 => "7" | 8 => "8" | 9 => "9" | 10 => "a" | 11 => "b"
  | 12 => "c" | 13 => "d" | 14 => "e" | _ => "f"
  end%N%char.

Definition hex_byte (b : byte) : TEXT :=
  String (hex_digit (Byte.to_N b / 16)) (String (hex_digit (Byte.to_N b mod 16)) "").

(** [Array.from(bytes).map(...).join('')] *)
Definition hex_encode (bytes : list byte) : TEXT :=
  String.concat "" (map hex_byte bytes).

(** [{ name: 'HMAC', hash: 'SHA-256' }] *)
Record algorithm := mk_algorithm {
  name : TEXT;
  hash : TEXT
}.

(** [new TextEncoder().encode(s)] *)
Definition TextEncoder_encode (s : TEXT) : list byte := list_byte_of_string s.

(** *** What the verifier is asked to compute

    The reading of a text as a digest in lower-case hexadecimal, two digits
    to the byte and the high digit first.  It is written from the
    description of the verification ("hex-encodes the digest"), not from
    [hex_encode], which is compared with it below. *)
Definition hexadecimal_value (c : ascii) : option N :=
  let n := N_of_ascii c in
  if (48 <=? n)%N && (n <=? 57)%N then Some (n - 48)%N
  else if (97 <=? n)%N && (n <=? 102)%N then Some (n - 87)%N
  else None.

Fixpoint digest_of_lowercase_hex (t : TEXT) : option (list byte) :=
  match t with
  | EmptyString => Some []
  | String high (String low rest) =>
      match hexadecimal_value high, hexadecimal_value low,
            digest_of_lowercase_hex rest with
      | Some h, Some l, Some digest =>
          match Byte.of_N (h * 16 + l) with
          | Some b => Some (b :: digest)
          | None => None
          end
      | _, _, _ => None
      end
  | String _ EmptyString => None
  end.

(** [INSERT INTO webhook_logs] with the id chosen by the caller: a row
    whose id is taken is refused (the handler does not look at the error).
    The school of the row is the school of the intent the handler has just
    read, so the foreign key to [schools] holds. *)
Definition insert_webhook_log (l : webhook_log) (db : DB) : DB :=
  if existsb (fun r => Nat.eqb (wl_id r) (wl_id l)) (webhook_logs db)
  then db
  else with_webhook_logs db (webhook_logs db ++ [l]).

(** [.from('webhook_logs').update({...}).eq('id', webhookLogId)] *)
Definition update_webhook_log (webhookLogId : UUID) (st : processing_status)
           (err : option TEXT) (db : DB) : DB :=
  with_webhook_logs db
    (update_where
       (fun r => Nat.eqb (wl_id r) webhookLogId)
       (fun r => mk_log (wl_id r) (wl_school_id r) (webhook_event r)
                   (razorpay_signature r) (payload r) (signature_valid r) st
                   (match err with Some e => Some e | None => error_message r end))
       (webhook_logs db)).

(** The order reference of a notification:
    [if (event === 'payment.captured' && payload.payment?.entity) orderId = entity.order_id],
    then [if (!orderId)].  Reading [payload.payment] throws when the
    notification has no [payload]. *)
Inductive extracted :=
| Thrown (msg : TEXT)
| NoOrder
| Order (payment : RazorpayPayment) (orderId : TEXT).

Definition extract_order (webhookPayload : RazorpayWebhookPayload) : extracted :=
  if String.eqb (event webhookPayload) "payment.captured"
  then match notification_payload webhookPayload with
       | None => Thrown "Cannot read properties of undefined (reading 'payment')"
       | Some None => NoOrder
       | Some (Some payment) =>
           match order_id payment with
           | Some orderId => if String.eqb orderId "" then NoOrder else Order payment orderId
           | None => NoOrder
           end
       end
  else NoOrder.

(** [rpc('get_school_config', {target_school_id, config_key_name:
    'razorpay_webhook_secret'})] followed by [if (secretError || !webhookSecret)]:
    the secret when the call succeeds with a non-empty text. *)
Definition webhook_secret (s : session) (schoolId : UUID) (db : DB) : option TEXT :=
  match rpc (get_school_config s schoolId "razorpay_webhook_secret") db with
  | (Returned v, _) => if truthy v then v else None
  | (Raised _, _) => None
  end.

Section EdgeFunction.

(** The runtime the handlers call into. *)

(** [JSON.parse] on the body of a notification. *)
Variable JSON_parse : TEXT -> parsed RazorpayWebhookPayload.

(** [crypto.subtle.importKey(format, keyData, algorithm, false, ['sign'])]
    and [crypto.subtle.sign(name, key, data)]: [None] is a rejected
    promise. *)
Variable CryptoKey : Type.
Variable importKey : TEXT -> list byte -> algorithm -> option CryptoKey.
Variable sign : TEXT -> CryptoKey -> list byte -> option (list byte).

(** [payment.amount / 100] as the NUMERIC the stored procedure receives,
    in hundredths. *)
Variable rupees : Z -> NUMERIC.

(** The body of the [try] of [verifyWebhookSignature]; [None] when one of
    the awaited promises rejects. *)
Definition verifyWebhookSignature_try (payload signature secret : TEXT)
  : option bool :=
  match importKey "raw" (TextEncoder_encode secret) (mk_algorithm "HMAC" "SHA-256") with
  | None => None
  | Some key =>
      match sign "HMAC" key (TextEncoder_encode payload) with
      | None => None
      | Some signatureBuffer =>
          let computedSignature := hex_encode signatureBuffer in
          Some (String.eqb computedSignature signature)
      end
  end.

(** [try { ... } catch (error) { return false }] *)
Definition verifyWebhookSignature (payload signature secret : TEXT) : bool :=
  match verifyWebhookSignature_try payload signature secret with
  | Some b => b
  | None => false
  end.

(** [catch (error) { return errorResponse(`Webhook processing failed: ...`, 500) }] *)
Definition webhook_thrown (msg : TEXT) (db : DB) (cs : list call) : outcome :=
  mk_outcome (errorResponse ("Webhook processing failed: " ++ msg) 500) db cs.

(** The second half of [handleWebhook]: the idempotency check and the
    atomic update, once the signature has been verified and the
    notification logged under [webhookLogId]. *)
Definition reconcile (s : session) (webhookLogId schoolId : UUID)
           (payment : RazorpayPayment) (db : DB) (cs : list call) : outcome :=
  (* IDEMPOTENCY CHECK: Prevent duplicate processing *)
  match single (filter (has_transaction (id payment)) (payments db)) with
  | Some existingPayment =>
      mk_outcome
        (successResponse (mk_data "Payment already processed" None None))
        (update_webhook_log webhookLogId processed None db) cs
  | None =>
      (* Find the payment intent using order_id *)
      match order_id payment with
      | None =>
          mk_outcome (errorResponse "Payment intent not found" 400)
            (update_webhook_log webhookLogId failed
               (Some "Payment intent not found") db) cs
      | Some o =>
          match single (filter (fun i => String.eqb (razorpay_order_id i) o)
                               (payment_intents db)) with
          | None =>
              mk_outcome (errorResponse "Payment intent not found" 400)
                (update_webhook_log webhookLogId failed
                   (Some "Payment intent not found") db) cs
          | Some fullIntentData =>
              (* Start database transaction for atomic updates *)
              match rpc (process_payment_webhook s (pi_id fullIntentData)
                           (id payment) (rupees (amount payment)) schoolId) db with
              | (Raised transactionError, db') =>
                  mk_outcome (errorResponse "Payment processing failed" 500)
                    (update_webhook_log webhookLogId failed
                       (Some ("Transaction failed: " ++ transactionError)) db') cs
              | (Returned transactionResult, db') =>
                  mk_outcome
                    (successResponse
                       (mk_data "Payment processed successfully"
                                (Some (RecordId transactionResult)) None))
                    (update_webhook_log webhookLogId processed None db') cs
              end
          end
      end
  end.

(** [handleWebhook], with [webhookLogId] the value of
    [crypto.randomUUID()].  An order reference is only read from a
    [payment.captured] event, so the branch for other events behind the
    verification ([Webhook received]) is never reached and has no case
    here. *)
Definition handleWebhook (s : session) (webhookLogId : UUID) (req : Request)
           (db : DB) : outcome :=
  let rawPayload := text req in
  match JSON_parse rawPayload with
  | SyntaxError msg => webhook_thrown msg db []
  | parsed_body =>
      let signature := x_razorpay_signature req in
      if negb (truthy signature)
      then mk_outcome (errorResponse "Missing webhook signature" 400) db []
      else
        let signature := match signature with Some g => g | None => "" end in
        match parsed_body with
        | JsonValue webhookPayload =>
            (* Extract order_id to find the school *)
            match extract_order webhookPayload with
            | Thrown msg => webhook_thrown msg db []
            | NoOrder => mk_outcome (errorResponse "Invalid webhook payload" 400) db []
            | Order payment orderId =>
                (* Find the payment intent to get school_id *)
                match single (filter (fun i => String.eqb (razorpay_order_id i) orderId)
                                     (payment_intents db)) with
                | None =>
                    mk_outcome (errorResponse "Payment intent not found" 400) db []
                | Some intentData =>
                    let schoolId := pi_school_id intentData in
                    (* Get school's webhook secret for verification *)
                    let cs := [VaultGet schoolId "razorpay_webhook_secret"] in
                    match webhook_secret s schoolId db with
                    | None =>
                        mk_outcome
                          (errorResponse "Webhook secret configuration error" 500)
                          (with_webhook_logs db
                             (webhook_logs db ++
                                [mk_log (gen_random_uuid (map wl_id (webhook_logs db)))
                                        (Some schoolId) (event webhookPayload)
                                        (Some signature)
                                        (NotificationBody webhookPayload)
                                        (Some false) failed
                                        (Some "Webhook secret not found")]))
                          cs
                    | Some webhookSecret =>
                        (* CRITICAL: Verify webhook signature *)
                        let isValidSignature :=
                          verifyWebhookSignature rawPayload signature webhookSecret in
                        let cs := (cs ++ [Verify rawPayload signature webhookSecret])%list in
                        (* Log webhook attempt *)
                        let db :=
                          insert_webhook_log
                            (mk_log webhookLogId (Some schoolId)
                                    (event webhookPayload) (Some signature)
                                    (NotificationBody webhookPayload)
                                    (Some isValidSignature) received None) db in
                        if negb isValidSignature
                        then
                          mk_outcome (errorResponse "Invalid webhook signature" 400)
                            (update_webhook_log webhookLogId failed
                               (Some "Invalid webhook signature") db) cs
                        else reconcile s webhookLogId schoolId payment db cs
                    end
                end
            end
        | _ =>
            webhook_thrown "Cannot read properties of null (reading 'event')" db []
        end
  end.

(** *** Stages and sequences of the webhook handler *)

(** A notification that reaches the reconciliation: it parses, carries a
    signature and an order reference, the order resolves to one intent,
    the school of the intent has a webhook secret, and the signature
    verifies under that secret. *)
Record verified := mk_verified {
  v_payload : RazorpayWebhookPayload;
  v_payment : RazorpayPayment;
  v_school : UUID;
  v_signature : TEXT;
  v_secret : TEXT
}.

Definition verified_capture (s : session) (req : Request) (db : DB)
  : option verified :=
  match JSON_parse (text req), x_razorpay_signature req with
  | JsonValue webhookPayload, Some signature =>
      if String.eqb signature "" then None
      else
        match extract_order webhookPayload with
        | Order payment orderId =>
            match single (filter (fun i => String.eqb (razorpay_order_id i) orderId)
                                 (payment_intents db)) with
            | Some intentData =>
                match webhook_secret s (pi_school_id intentData) db with
                | Some webhookSecret =>
                    if verifyWebhookSignature (text req) signature webhookSecret
                    then Some (mk_verified webhookPayload payment
                                 (pi_school_id intentData) signature webhookSecret)
                    else None
                | None => None
                end
            | None => None
            end
        | _ => None
        end
  | _, _ => None
  end.

(** The entry the handler writes before it looks at the outcome of the
    verification. *)
Definition received_entry (wl : UUID) (v : verified) : webhook_log :=
  mk_log wl (Some (v_school v)) (event (v_payload v)) (Some (v_signature v))
         (NotificationBody (v_payload v)) (Some true) received None.

(** Notifications handled one after another, each under the log id the
    handler drew for it. *)
Fixpoint deliver_all (s : session) (ds : list (UUID * Request)) (db : DB)
  : list Response * DB :=
  match ds with
  | [] => ([], db)
  | d :: ds' =>
      let out := handleWebhook s (fst d) (snd d) db in
      let rest := deliver_all s ds' (final out) in
      (response out :: fst rest, snd rest)
  end.

Definition already_processed : Response :=
  successResponse (mk_data "Payment already processed" None None).

(** Everything but the audit log. *)
Definition ledger (db : DB) :=
  (school_configurations db, payment_intents db, student_fees db, payments db).

(** *** Direct verification *)

(** [await req.json()] *)
Variable JSON_parse_request : TEXT -> parsed VerifyPaymentRequest.

(** [verifyRazorpaySignature] is called by [handleDirectVerification] but
    neither defined nor imported in index.ts; [None] is a thrown error. *)
Variable verifyRazorpaySignature : TEXT -> TEXT -> TEXT -> TEXT -> option bool.

(** JavaScript numbers: a NUMERIC column read through the REST layer
    ([of_numeric]), [+], [>=], [> 0], and the way back into a
    NUMERIC(10,2) column ([to_numeric], [None] when the store refuses the
    value). *)
Variable number : Type.
Variable of_numeric : NUMERIC -> number.
Variable js_add : number -> number -> number.
Variable js_ge : number -> number -> bool.
Variable js_gt0 : number -> bool.
Variable to_numeric : number -> option NUMERIC.

(** [catch (error) { return errorResponse(`Payment verification failed: ...`, 500) }] *)
Definition verification_thrown (msg : TEXT) (db : DB) (cs : list call) : outcome :=
  mk_outcome (errorResponse ("Payment verification failed: " ++ msg) 500) db cs.

(** [requiredFields.filter(field => !requestData[field])] *)
Definition missingFields (requestData : VerifyPaymentRequest) : list TEXT :=
  ((if truthy (razorpayOrderId requestData) then [] else ["razorpayOrderId"])
     ++ (if truthy (razorpayPaymentId requestData) then [] else ["razorpayPaymentId"])
     ++ (if truthy (razorpaySignature requestData) then [] else ["razorpaySignature"]))%list.

(** The three writes of the direct path, one statement each.  [fee] is
    the [student_fees] row embedded in the intent when it was read; the
    foreign key of [payments.student_fee_id] refuses a payment for a fee
    that does not exist. *)
Definition record_directly (intentData : payment_intent)
           (paymentId : TEXT) (db : DB) (cs : list call) : outcome :=
  let fee := find (fun f => Nat.eqb (sf_id f) (pi_student_fee_id intentData))
                  (student_fees db) in
  (* Update payment intent *)
  let db :=
    with_payment_intents db
      (update_where
         (fun i => Nat.eqb (pi_id i) (pi_id intentData))
         (fun i => mk_intent (pi_id i) (razorpay_order_id i) (pi_student_fee_id i)
                     (pi_school_id i) (pi_amount i) (currency i) intent_paid
                     (receipt i) (Some paymentId) (webhook_verified i))
         (payment_intents db)) in
  (* Create payment record *)
  let inserted :=
    match fee, to_numeric (of_numeric (pi_amount intentData)) with
    | None, _ =>
        (Raised "insert or update on table payments violates foreign key constraint", db)
    | _, None => (Raised "invalid input syntax for type numeric", db)
    | Some _, Some a =>
        rpc (insert_payment (pi_student_fee_id intentData) (pi_school_id intentData)
               paymentId None a false) db
    end in
  match inserted, fee with
  | (Returned paymentRecord, db), Some fee =>
      (* Update student fee record *)
      let newAmountPaid :=
        js_add (of_numeric (match amount_paid fee with Some a => a | None => 0%Z end))
               (of_numeric (pi_amount intentData)) in
      let totalDue := of_numeric (total_due fee) in
      let newStatus :=
        if js_ge newAmountPaid totalDue then paid
        else if js_gt0 newAmountPaid then partially_paid
        else unpaid in
      let db :=
        match to_numeric newAmountPaid with
        | None => db
        | Some a =>
            with_student_fees db
              (update_where
                 (fun f => Nat.eqb (sf_id f) (pi_student_fee_id intentData))
                 (fun f => mk_fee (sf_id f) (student_id f) (sf_school_id f)
                             (structure_id f) (total_due f) (Some a) newStatus)
                 (student_fees db))
        end in
      mk_outcome
        (successResponse
           (mk_data "Payment verified and recorded successfully"
                    (Some (RecordId paymentRecord)) (Some paymentId)))
        db cs
  | (_, db), _ =>
      mk_outcome (errorResponse "Failed to record payment" 400) db cs
  end.

Definition handleDirectVerification (req : Request) (db : DB) : outcome :=
  match JSON_parse_request (text req) with
  | SyntaxError msg => verification_thrown msg db []
  | JsonNull =>
      verification_thrown
        "Cannot read properties of null (reading 'razorpayOrderId')" db []
  | JsonValue requestData =>
      (* Validate required fields *)
      match razorpayOrderId requestData, razorpayPaymentId requestData,
            razorpaySignature requestData, missingFields requestData with
      | Some orderId, Some paymentId, Some signature, [] =>
          (* Find the payment intent *)
          match single (filter (fun i => String.eqb (razorpay_order_id i) orderId)
                               (payment_intents db)) with
          | None => mk_outcome (errorResponse "Payment intent not found" 400) db []
          | Some intentData =>
              (* Get Razorpay secret for signature verification *)
              let cs := [VaultGet (pi_school_id intentData) "razorpay_key_secret"] in
              match find (fun c => Nat.eqb (sc_school_id c) (pi_school_id intentData)
                                   && String.eqb (config_key c) "razorpay_key_secret")
                         (school_configurations db) with
              | None =>
                  mk_outcome (errorResponse "Razorpay configuration not found" 400) db cs
              | Some config =>
                  let razorpaySecret := config_value config in
                  (* Verify signature *)
                  let cs := (cs ++ [VerifyPayment orderId paymentId signature
                                                  razorpaySecret])%list in
                  match verifyRazorpaySignature orderId paymentId signature
                                                razorpaySecret with
                  | None =>
                      verification_thrown "verifyRazorpaySignature is not defined" db cs
                  | Some false =>
                      mk_outcome (errorResponse "Invalid payment signature" 400) db cs
                  | Some true =>
                      (* Check if payment is already processed *)
                      match pi_status intentData with
                      | intent_paid =>
                          mk_outcome
                            (successResponse
                               (mk_data "Payment already processed"
                                  (Some (GatewayRef (razorpay_payment_id intentData)))
                                  None))
                            db cs
                      | _ => record_directly intentData paymentId db cs
                      end
                  end
              end
          end
      | _, _, _, missing =>
          mk_outcome
            (errorResponse ("Missing required fields: " ++ String.concat ", " missing) 400)
            db []
      end
  end.

(** *** The entry point *)

(** [contentType.includes('application/json')] *)
Fixpoint includes (needle hay : TEXT) : bool :=
  String.prefix needle hay
  || match hay with
     | EmptyString => false
     | String _ rest => includes needle rest
     end.

Definition serve (s : session) (webhookLogId : UUID) (req : Request) (db : DB)
  : outcome :=
  if String.eqb (http_method req) "OPTIONS"
  then mk_outcome (mk_response 200 Preflight) db []
  else if negb (String.eqb (http_method req) "POST")
  then mk_outcome (errorResponse "Method not allowed" 405) db []
  else
    let contentType := match content_type req with Some c => c | None => "" end in
    let isWebhook := includes "application/json" contentType
                     && truthy (x_razorpay_event_id req) in
    if isWebhook
    then handleWebhook s webhookLogId req db
    else handleDirectVerification req db.

End EdgeFunction.

(** ** What the atomic update commits *)

(** The database [process_payment_webhook] commits: the four writes on top
    of [db1], the database the transaction saw once it held the row lock. *)
Definition committed (db1 : DB) (fee_id school intent : UUID) (t : TEXT)
           (a v : NUMERIC) (due : NUMERIC) : DB :=
  mk_db
    (school_configurations db1)
    (update_where
       (fun i => Nat.eqb (pi_id i) intent)
       (fun i => mk_intent (pi_id i) (razorpay_order_id i) (pi_student_fee_id i)
                   (pi_school_id i) (pi_amount i) (currency i) intent_paid
                   (receipt i) (Some t) true)
       (payment_intents db1))
    (update_where
       (fun f => Nat.eqb (sf_id f) fee_id)
       (fun f => mk_fee (sf_id f) (student_id f) (sf_school_id f) (structure_id f)
                   (total_due f) (Some v) (new_status v due))
       (student_fees db1))
    (payments db1 ++
       [mk_payment (gen_random_uuid (map p_id (payments db1))) fee_id school (Some t)
          (option_map razorpay_order_id
             (find (fun i => Nat.eqb (pi_id i) intent) (payment_intents db1)))
          a "Online" true])
    (webhook_logs db1 ++
       [mk_log (gen_random_uuid (map wl_id (webhook_logs db1))) (Some school)
          "payment.captured" None (ProcessedPayment t a fee_id) (Some true)
          processed None])
    (schools db1).

(** The intent as the direct path marks it: paid, with the payment id, the
    webhook flag as it was. *)
Definition marked_paid (p : TEXT) (i : payment_intent) : payment_intent :=
  mk_intent (pi_id i) (razorpay_order_id i) (pi_student_fee_id i) (pi_school_id i)
            (pi_amount i) (currency i) intent_paid (receipt i) (Some p)
            (webhook_verified i).

(** The secret the direct path hands to the verifier: the text of a
    [razorpay_key_secret] row, as stored. *)
Definition stored_key_secret (db : DB) (secret : TEXT) : Prop :=
  exists config, In config (school_configurations db)
                 /\ config_key config = "razorpay_key_secret"
                 /\ secret = config_value config.

(** ['whsec_' || encode(gen_random_bytes(32), 'hex')]: the webhook secret
    the migration stores, through [encrypt_config_value], for every school.
    [encode(_, 'hex')] writes each byte as two lower-case hexadecimal
    digits, as [hex_encode] does. *)
Definition generated_webhook_secret (random : bytea) : TEXT :=
  "whsec_" ++ hex_encode random.

(** The store gives up on the intent update, after the payment record and
    the fee update of the same transaction. *)
Definition lock_timeout (l : statement) : option TEXT :=
  match l with
  | UpdateIntent => Some "canceling statement due to lock timeout"
  | _ => None
  end.

(** ** The amount in rupees ([handleWebhook], [payment.amount / 100])

    The amount of the notification is a JavaScript number, a binary64
    float, and so is its quotient by one hundred.  The quotient travels to
    the stored procedure as the decimal text of a JSON number, which the
    store reads as a NUMERIC and rounds to hundredths when it writes it to
    a NUMERIC(10,2) column.

    Floats are the primitive floats of the kernel, specified by
    [SpecFloat] as IEEE 754 binary64 with rounding to nearest even. *)

(** The number an integer of the notification parses to. *)
Definition js_integer (n : Z) : PrimFloat.float :=
  PrimFloat.of_uint63 (Uint63.of_Z n).

(** [payment.amount / 100  // Convert from paise to rupees] *)
Definition paise_to_rupees (paise : PrimFloat.float) : PrimFloat.float :=
  PrimFloat.div paise (js_integer 100).

(** The text of a number: [coefficient] times ten to the [exponent]. *)
Record decimal := mk_decimal { coefficient : Z; exponent : Z }.

Definition numerator (q : decimal) : Z :=
  (Z.abs (coefficient q) * 10 ^ Z.max (exponent q) 0)%Z.
Definition denominator (q : decimal) : Z :=
  (10 ^ Z.max (- exponent q) 0)%Z.

(** The double a text reads as: its numerator over its denominator, rounded
    to nearest even by the division of the specification, which takes any
    two positive integers as mantissas. *)
Definition double_of_decimal (q : decimal) : SpecFloat.spec_float :=
  match numerator q, denominator q with
  | Zpos n, Zpos d =>
      SpecFloat.SFdiv FloatOps.prec FloatOps.emax
        (SpecFloat.S754_finite (coefficient q <? 0)%Z n 0)
        (SpecFloat.S754_finite false d 0)
  | _, _ => SpecFloat.S754_zero (coefficient q <? 0)%Z
  end.







(** Values of the binary64 format as real numbers. *)
Module Binary64.

Import Reals SpecFloat FloatOps.
Local Open Scope R_scope.

Definition bpow (e : Z) : R := powerRZ 2 e.




End Binary64.

(** * Example data *)

(** ** A school, a fee of 82000.00 and an order for 40000.00 *)

Module Demo.

Definition school : UUID := 1.

Definition webhook_secret_text : TEXT := "whsec_0123456789abcdef".

Definition configurations : list school_configuration :=
  [ mk_config 1 school "razorpay_key_id" "rzp_test_placeholder_key";
    mk_config 2 school "razorpay_key_secret" "ENCRYPTED_SECRET_VALUE";
    mk_config 3 school "razorpay_webhook_secret"
              "ENCRYPTED:d2hzZWNfMDEyMzQ1Njc4OWFiY2RlZg==" ].

Definition fee : student_fee := mk_fee 10 5 school 7 8200000 (Some 0%Z) unpaid.

Definition intent : payment_intent :=
  mk_intent 20 "order_DEF456UVW" 10 school 4000000 "INR" created "rcpt_1" None false.

Definition db : DB := mk_db configurations [intent] [fee] [] [] [school].

(** The capture of 40000.00 for the order, and a later capture of
    42000.00 under another transaction id. *)
Definition capture : RazorpayPayment :=
  mk_payment_entity "pay_ABC123XYZ" 4000000 (Some "order_DEF456UVW") "upi".

Definition second_capture : RazorpayPayment :=
  mk_payment_entity "pay_GHI789RST" 4200000 (Some "order_DEF456UVW") "upi".

End Demo.

(** ** A runtime for the examples *)

Module DemoRuntime.

(** The bodies the example gateway sends, and how they parse. *)
Definition capture_body : TEXT :=
  "{event:payment.captured,payment:{id:pay_ABC123XYZ,order_id:order_DEF456UVW,amount:4000000}}".

Definition no_order_body : TEXT :=
  "{event:payment.captured,payment:{id:pay_ABC123XYZ,amount:4000000}}".

Definition unknown_order_body : TEXT :=
  "{event:payment.captured,payment:{id:pay_ABC123XYZ,order_id:order_UNKNOWN,amount:4000000}}".

Definition capture_notification : RazorpayWebhookPayload :=
  mk_notification "payment.captured" (Some (Some Demo.capture)).

Definition JSON_parse (body : TEXT) : parsed RazorpayWebhookPayload :=
  if String.eqb body capture_body then JsonValue capture_notification
  else if String.eqb body no_order_body then
    JsonValue (mk_notification "payment.captured"
                 (Some (Some (mk_payment_entity "pay_ABC123XYZ" 4000000 None "upi"))))
  else if String.eqb body unknown_order_body then
    JsonValue (mk_notification "payment.captured"
                 (Some (Some (mk_payment_entity "pay_ABC123XYZ" 4000000
                                                (Some "order_UNKNOWN") "upi"))))
  else if String.eqb body "null" then JsonNull
  else SyntaxError "Unexpected token".

(** A keyed checksum in the place of the runtime's HMAC: the key bytes
    and the data bytes are folded into two bytes.  An empty key is
    refused, as [importKey] refuses it. *)
Definition CryptoKey := list byte.

Definition importKey (_ : TEXT) (keyData : list byte) (_ : algorithm)
  : option CryptoKey :=
  match keyData with
  | [] => None
  | _ => Some keyData
  end.

Definition fold_bytes (l : list byte) : N :=
  fold_left (fun acc b => (acc * 31 + Byte.to_N b) mod 65536)%N l 7%N.

Definition sign (_ : TEXT) (key : CryptoKey) (data : list byte)
  : option (list byte) :=
  let n := fold_bytes (key ++ data) in
  Some [Pg.byte_of (n / 256); Pg.byte_of n].

(** Whole minor units over one hundred, in hundredths of the major unit. *)
Definition rupees (paise : Z) : NUMERIC := paise.

Definition capture_signature : TEXT :=
  Eval vm_compute in
    match sign "HMAC" (TextEncoder_encode Demo.webhook_secret_text)
               (TextEncoder_encode capture_body) with
    | Some d => hex_encode d
    | None => ""
    end.

Definition delivery (body signature : TEXT) : Request :=
  mk_request "POST" (Some "application/json") (Some "evt_123456789")
             (Some signature) body.

Definition handle := handleWebhook JSON_parse CryptoKey importKey sign rupees.

End DemoRuntime.

(** ** A notification that loses the race *)

Module Race.

(** The competing delivery of the same capture commits while this one
    waits for the row lock. *)
Definition competitor (db : DB) : DB :=
  snd (rpc (process_payment_webhook service_session 20 "pay_ABC123XYZ" 4000000
              Demo.school) db).

Definition racing : session :=
  mk_session (Some "service_role") (fun _ => None) competitor.

Definition delivery : Request :=
  DemoRuntime.delivery DemoRuntime.capture_body DemoRuntime.capture_signature.

(** The entry of the notification, and the database once the handler has
    logged it. *)
Definition received_entry : webhook_log :=
  mk_log 100 (Some Demo.school) "payment.captured"
         (Some DemoRuntime.capture_signature)
         (NotificationBody DemoRuntime.capture_notification)
         (Some true) received None.

Definition logged : DB := insert_webhook_log received_entry Demo.db.

End Race.

(** ** The two entry points side by side *)

Module DemoDirect.

(** The client-side confirmations of the two captures. *)
Definition first_body : TEXT :=
  "{razorpayOrderId:order_DEF456UVW,razorpayPaymentId:pay_ABC123XYZ,razorpaySignature:1a87}".

Definition second_body : TEXT :=
  "{razorpayOrderId:order_DEF456UVW,razorpayPaymentId:pay_GHI789RST,razorpaySignature:6901}".

Definition JSON_parse_request (body : TEXT) : parsed VerifyPaymentRequest :=
  if String.eqb body first_body then
    JsonValue (mk_verify_request (Some "order_DEF456UVW") (Some "pay_ABC123XYZ")
                                 (Some "1a87"))
  else if String.eqb body second_body then
    JsonValue (mk_verify_request (Some "order_DEF456UVW") (Some "pay_GHI789RST")
                                 (Some "6901"))
  else SyntaxError "Unexpected token".

(** A verifier in the place of the missing one: the keyed checksum of
    [order|payment] under the configured secret. *)
Definition verifyRazorpaySignature (order payment signature secret : TEXT)
  : option bool :=
  match DemoRuntime.sign "HMAC" (TextEncoder_encode secret)
          (TextEncoder_encode (order ++ "|" ++ payment)) with
  | Some d => Some (String.eqb (hex_encode d) signature)
  | None => None
  end.

(** Numbers that are exact on hundredths. *)
Definition number := Z.
Definition of_numeric (v : NUMERIC) : number := v.
Definition js_ge (a b : number) : bool := (b <=? a)%Z.
Definition js_gt0 (a : number) : bool := (0 <? a)%Z.

Definition handle : Request -> DB -> outcome :=
  handleDirectVerification JSON_parse_request verifyRazorpaySignature number
    of_numeric Z.add js_ge js_gt0 numeric_10_2.

(** The same entry point with the verifier as index.ts has it: the call
    throws, since nothing of that name is defined. *)
Definition handle_as_written : Request -> DB -> outcome :=
  handleDirectVerification JSON_parse_request (fun _ _ _ _ => None) number
    of_numeric Z.add js_ge js_gt0 numeric_10_2.

Definition confirmation (body : TEXT) : Request :=
  mk_request "POST" (Some "application/json") None None body.

(** The second capture as the gateway notifies it. *)
Definition second_capture_body : TEXT :=
  "{event:payment.captured,payment:{id:pay_GHI789RST,order_id:order_DEF456UVW,amount:4200000}}".

Definition JSON_parse (body : TEXT) : parsed RazorpayWebhookPayload :=
  if String.eqb body second_capture_body
  then JsonValue (mk_notification "payment.captured" (Some (Some Demo.second_capture)))
  else DemoRuntime.JSON_parse body.

Definition second_capture_signature : TEXT :=
  Eval vm_compute in
    match DemoRuntime.sign "HMAC" (TextEncoder_encode Demo.webhook_secret_text)
            (TextEncoder_encode second_capture_body) with
    | Some d => hex_encode d
    | None => ""
    end.

Definition notify : session -> UUID -> Request -> DB -> outcome :=
  handleWebhook JSON_parse DemoRuntime.CryptoKey DemoRuntime.importKey
    DemoRuntime.sign DemoRuntime.rupees.

End DemoDirect.

(** ** A secret with backslashes *)

(** A school whose webhook secret was stored through
    [encrypt_config_value] from the plaintext [a\\b]. *)
Definition escaped_secret_db : DB :=
  mk_db [mk_config 1 Demo.school "razorpay_webhook_secret" "ENCRYPTED:YVxi"] [] [] [] []
        [Demo.school].

(** * Properties *)

(** ** Tables: lookups and updates *)

Lemma gen_random_uuid_fresh (used : list UUID) : ~ In (gen_random_uuid used) used.
Proof.
  unfold gen_random_uuid; intros Hin.
  assert (Hle : forall x, In x used -> x <= list_max used).
  { clear Hin. induction used as [|y ys IH]; simpl; intros x Hx; [contradiction|].
    destruct Hx as [->|Hx]; [apply Nat.le_max_l|].
    specialize (IH x Hx). pose proof (Nat.le_max_r y (list_max ys)). lia. }
  apply Hle in Hin; lia.
Qed.

Lemma find_update_where {A} (c k : A -> bool) (set : A -> A) (rows : list A) (r : A) :
  (forall x, c (set x) = c x) ->
  (forall x, c x = true -> k x = true) ->
  find c rows = Some r ->
  find c (update_where k set rows) = Some (set r).
Proof.
  intros Hset Hk; induction rows as [|x xs IH]; simpl; [discriminate|].
  destruct (c x) eqn:Hc.
  - intros [= <-]. rewrite (Hk _ Hc), Hset, Hc. reflexivity.
  - intros Hf. destruct (k x); rewrite ?Hset, Hc; auto.
Qed.

Lemma filter_update_where {A} (c k : A -> bool) (set : A -> A) (rows : list A) :
  (forall x, c (set x) = c x) ->
  filter c (update_where k set rows) = update_where k set (filter c rows).
Proof.
  intros Hset; induction rows as [|x xs IH]; simpl; [reflexivity|].
  destruct (k x) eqn:Hk.
  - rewrite Hset. destruct (c x); simpl; rewrite ?Hk, IH; reflexivity.
  - destruct (c x); simpl; rewrite ?Hk, IH; reflexivity.
Qed.

Lemma single_update_where {A} (k : A -> bool) (set : A -> A) (rows : list A) :
  single (update_where k set rows)
  = option_map (fun r => if k r then set r else r) (single rows).
Proof. destruct rows as [|x [|y ys]]; reflexivity. Qed.

Lemma single_filter_update_where {A B} (c k : A -> bool) (set : A -> A)
      (key : A -> B) (rows : list A) :
  (forall x, c (set x) = c x) ->
  (forall x, key (set x) = key x) ->
  option_map key (single (filter c (update_where k set rows)))
  = option_map key (single (filter c rows)).
Proof.
  intros Hc Hkey. rewrite (filter_update_where _ _ _ _ Hc), single_update_where.
  destruct (single (filter c rows)) as [r|]; simpl; [|reflexivity].
  destruct (k r); rewrite ?Hkey; reflexivity.
Qed.

Lemma existsb_false_filter {A} (c : A -> bool) (l : list A) :
  existsb c l = false -> filter c l = [].
Proof.
  induction l as [|x xs IH]; simpl; [reflexivity|].
  destruct (c x); [discriminate | exact IH].
Qed.

(** A school that a payment record names has a row. *)
Lemma has_school_payment db school :
  existsb (fun p => Nat.eqb (p_school_id p) school) (payments db) = true ->
  has_school db school = true.
Proof.
  intros H. unfold has_school. rewrite H.
  rewrite ?orb_true_r. reflexivity.
Qed.

Lemma has_school_intent db school i :
  In i (payment_intents db) -> pi_school_id i = school -> has_school db school = true.
Proof.
  intros Hin Hs. unfold has_school.
  assert (H : existsb (fun i => Nat.eqb (pi_school_id i) school) (payment_intents db) = true)
    by (apply existsb_exists; exists i; split; [exact Hin | apply Nat.eqb_eq; exact Hs]).
  rewrite H. rewrite ?orb_true_r. reflexivity.
Qed.

(** ** The atomic update *)

Ltac break_match :=
  match goal with
  | H : context [match ?x with _ => _ end] |- _ =>
      lazymatch x with
      | context [match _ with _ => _ end] => fail
      | _ => destruct x eqn:?
      end
  | |- context [match ?x with _ => _ end] =>
      lazymatch x with
      | context [match _ with _ => _ end] => fail
      | _ => destruct x eqn:?
      end
  end.

Ltac unfold_sql :=
  unfold rpc, process_payment_webhook, begin_exception, insert_payment, insert_log,
    run, bind, raise, ret, query, write, visible, lift in *;
  simpl in *.

Lemma numeric_10_2_Some (v w : Z) : numeric_10_2 v = Some w -> w = v.
Proof. unfold numeric_10_2; destruct (_ <? _)%Z; congruence. Qed.

Lemma process_payment_webhook_returned s intent t a school db pid db' :
  rpc (process_payment_webhook s intent t a school) db = (Returned pid, db') ->
  exists i fee cur,
    find (fun i => Nat.eqb (pi_id i) intent && Nat.eqb (pi_school_id i) school)
         (payment_intents db) = Some i
    /\ find (has_transaction t) (payments db) = None
    /\ find (fun f => Nat.eqb (sf_id f) (pi_student_fee_id i)
                      && Nat.eqb (sf_school_id f) school)
            (student_fees (lock_wait s db)) = Some fee
    /\ amount_paid fee = Some cur
    /\ numeric_10_2 (cur + a) = Some (cur + a)%Z
    /\ numeric_10_2 a = Some a
    /\ existsb (has_transaction t) (payments (lock_wait s db)) = false
    /\ pid = gen_random_uuid (map p_id (payments (lock_wait s db)))
    /\ db' = committed (lock_wait s db) (pi_student_fee_id i) school intent t a
                       (cur + a) (total_due fee).
Proof.
  intros H. unfold_sql.
  repeat (break_match; simpl in *; try discriminate);
    repeat match goal with
           | H : (_, _) = (_, _) |- _ => inversion H; clear H; subst; simpl in *
           | H : Returned _ = Returned _ |- _ => inversion H; clear H; subst; simpl in *
           | H : Some _ = Some _ |- _ => inversion H; clear H; subst; simpl in *
           end;
    try discriminate.
  destruct (find _ (payment_intents db)) as [i|] eqn:Hi; [|discriminate].
  destruct (find _ (payments db)) eqn:Hp; [discriminate|].
  simpl in *.
  match goal with H : Some _ = Some ?u |- _ => injection H as <- end.
  repeat match goal with
         | H : numeric_10_2 _ = Some ?w |- _ =>
             is_var w; pose proof (numeric_10_2_Some _ _ H); subst w
         end.
  exists i, s0, n. repeat split; auto.
Qed.

(** Alone on a healthy store, the procedure applies a payment whenever its
    own checks pass. *)
Lemma process_payment_webhook_applies intent t a school db i fee cur :
  find (fun i => Nat.eqb (pi_id i) intent && Nat.eqb (pi_school_id i) school)
       (payment_intents db) = Some i ->
  existsb (has_transaction t) (payments db) = false ->
  find (fun f => Nat.eqb (sf_id f) (pi_student_fee_id i)
                 && Nat.eqb (sf_school_id f) school)
       (student_fees db) = Some fee ->
  amount_paid fee = Some cur ->
  (Z.abs (cur + a) < 10000000000)%Z ->
  (Z.abs a < 10000000000)%Z ->
  rpc (process_payment_webhook service_session intent t a school) db
  = (Returned (gen_random_uuid (map p_id (payments db))),
     committed db (pi_student_fee_id i) school intent t a (cur + a) (total_due fee)).
Proof.
  intros Hi Hdup Hfee Hcur Hsum Ha.
  assert (Hp : find (has_transaction t) (payments db) = None).
  { destruct (find (has_transaction t) (payments db)) eqn:Hf; [|reflexivity].
    apply find_some in Hf. destruct Hf as [Hin Ht].
    assert (existsb (has_transaction t) (payments db) = true)
      by (apply existsb_exists; eauto).
    congruence. }
  apply Z.ltb_lt in Hsum, Ha.
  unfold_sql. rewrite Hi; simpl. rewrite Hp; simpl. rewrite Hfee, Hcur.
  unfold numeric_10_2. rewrite Hsum; simpl. rewrite Ha; simpl.
  rewrite Hdup; simpl.
  match goal with
  | |- context [has_school ?d ?x] => replace (has_school d x) with true
  end; [reflexivity|].
  symmetry. apply has_school_payment. simpl.
  rewrite existsb_app. simpl. rewrite Nat.eqb_refl. apply orb_true_r.
Qed.

(** When the procedure raises, nothing it wrote remains: the database is
    the one it started from, with at most what other transactions committed
    while it waited for the row lock. *)
Lemma process_payment_webhook_raised s intent t a school db m db' :
  rpc (process_payment_webhook s intent t a school) db = (Raised m, db') ->
  db' = db \/ db' = lock_wait s db.
Proof.
  intros H. unfold_sql.
  repeat (break_match; simpl in *; try discriminate);
    repeat match goal with
           | H : (_, _) = (_, _) |- _ => inversion H; clear H; subst; simpl in *
           end;
    auto.
Qed.

(** ** The status written at the boundary *)

Lemma find_fee_committed db1 fee_id school intent t a v due fee :
  find (fun f => Nat.eqb (sf_id f) fee_id && Nat.eqb (sf_school_id f) school)
       (student_fees db1) = Some fee ->
  find (fun f => Nat.eqb (sf_id f) fee_id && Nat.eqb (sf_school_id f) school)
       (student_fees (committed db1 fee_id school intent t a v due))
  = Some (mk_fee (sf_id fee) (student_id fee) (sf_school_id fee) (structure_id fee)
                 (total_due fee) (Some v) (new_status v due)).
Proof.
  intros Hfee. unfold committed; simpl.
  refine (find_update_where _ _ _ _ fee _ _ Hfee); [reflexivity|].
  intros x Hx. apply andb_prop in Hx. tauto.
Qed.

(** C6. A captured amount [a] with [0 < a <= total_due - amount_paid],
    applied once by [process_payment_webhook], is recorded: the fee record
    then holds [amount_paid + a], with status [paid] when this equals
    [total_due] and [partially_paid] when it lies strictly between zero and
    [total_due]. *)
Theorem status_written_matches_invariant intent t a school db i fee cur :
  find (fun i => Nat.eqb (pi_id i) intent && Nat.eqb (pi_school_id i) school)
       (payment_intents db) = Some i ->
  existsb (has_transaction t) (payments db) = false ->
  find (fun f => Nat.eqb (sf_id f) (pi_student_fee_id i)
                 && Nat.eqb (sf_school_id f) school)
       (student_fees db) = Some fee ->
  amount_paid fee = Some cur ->
  (0 <= cur)%Z ->
  (total_due fee < 10000000000)%Z ->
  (0 < a <= total_due fee - cur)%Z ->
  exists pid db' fee',
    rpc (process_payment_webhook service_session intent t a school) db
    = (Returned pid, db')
    /\ find (fun f => Nat.eqb (sf_id f) (pi_student_fee_id i)
                      && Nat.eqb (sf_school_id f) school)
            (student_fees db') = Some fee'
    /\ total_due fee' = total_due fee
    /\ amount_paid fee' = Some (cur + a)%Z
    /\ ((cur + a = total_due fee)%Z -> sf_status fee' = paid)
    /\ ((0 < cur + a < total_due fee)%Z -> sf_status fee' = partially_paid).
Proof.
  intros Hi Hdup Hfee Hcur Hpos Hdue Ha.
  eexists _, _, _. split.
  - apply (process_payment_webhook_applies _ _ _ _ _ _ _ _ Hi Hdup Hfee Hcur); lia.
  - split; [apply find_fee_committed; exact Hfee|]. simpl.
    repeat split.
    + intros Heq. unfold new_status.
      destruct (Z.leb_spec (total_due fee) (cur + a)); [reflexivity | lia].
    + intros Hlt. unfold new_status.
      destruct (Z.leb_spec (total_due fee) (cur + a)); [lia|].
      destruct (Z.ltb_spec 0 (cur + a)); [reflexivity | lia].
Qed.

Lemma status_written_matches_invariant_witness :
  exists pid db' fee',
    rpc (process_payment_webhook service_session 20 "pay_ABC123XYZ" 4000000 Demo.school)
        Demo.db = (Returned pid, db')
    /\ find (fun f => Nat.eqb (sf_id f) 10 && Nat.eqb (sf_school_id f) Demo.school)
            (student_fees db') = Some fee'
    /\ total_due fee' = 8200000%Z
    /\ amount_paid fee' = Some 4000000%Z
    /\ ((0 + 4000000 = 8200000)%Z -> sf_status fee' = paid)
    /\ ((0 < 0 + 4000000 < 8200000)%Z -> sf_status fee' = partially_paid).
Proof.
  apply (status_written_matches_invariant 20 "pay_ABC123XYZ" 4000000 Demo.school
           Demo.db Demo.intent Demo.fee 0);
    try reflexivity; simpl; lia.
Defined.

(** ** The handler around the atomic update *)

Section Reconcile.

Variable rupees : Z -> NUMERIC.

Lemma reconcile_raised s wl school payment db cs o intent m db' :
  single (filter (has_transaction (id payment)) (payments db)) = None ->
  order_id payment = Some o ->
  single (filter (fun i => String.eqb (razorpay_order_id i) o) (payment_intents db))
  = Some intent ->
  rpc (process_payment_webhook s (pi_id intent) (id payment)
         (rupees (amount payment)) school) db = (Raised m, db') ->
  reconcile rupees s wl school payment db cs
  = mk_outcome (errorResponse "Payment processing failed" 500)
      (update_webhook_log wl failed (Some ("Transaction failed: " ++ m)) db') cs.
Proof.
  intros Hmiss Ho Hi Hrpc. unfold reconcile. rewrite Hmiss, Ho, Hi, Hrpc. reflexivity.
Qed.

Lemma reconcile_returned s wl school payment db cs o intent pid db' :
  single (filter (has_transaction (id payment)) (payments db)) = None ->
  order_id payment = Some o ->
  single (filter (fun i => String.eqb (razorpay_order_id i) o) (payment_intents db))
  = Some intent ->
  rpc (process_payment_webhook s (pi_id intent) (id payment)
         (rupees (amount payment)) school) db = (Returned pid, db') ->
  reconcile rupees s wl school payment db cs
  = mk_outcome
      (successResponse
         (mk_data "Payment processed successfully" (Some (RecordId pid)) None))
      (update_webhook_log wl processed None db') cs.
Proof.
  intros Hmiss Ho Hi Hrpc. unfold reconcile. rewrite Hmiss, Ho, Hi, Hrpc. reflexivity.
Qed.

(** The handler's own log entry after [update_webhook_log]. *)
Lemma update_webhook_log_marks wl st e db :
  In wl (map wl_id (webhook_logs db)) ->
  exists l, In l (webhook_logs (update_webhook_log wl st (Some e) db))
            /\ wl_id l = wl /\ wl_status l = st /\ error_message l = Some e.
Proof.
  unfold update_webhook_log, update_where; simpl.
  induction (webhook_logs db) as [|r rs IH]; simpl; [contradiction|].
  intros [Hr|Hin].
  - subst wl. rewrite Nat.eqb_refl. eexists; split; [left; reflexivity|]. auto.
  - destruct (IH Hin) as (l & Hl & H). exists l. split; [right; exact Hl | exact H].
Qed.

Lemma update_webhook_log_ledger wl st e db :
  payments (update_webhook_log wl st e db) = payments db
  /\ student_fees (update_webhook_log wl st e db) = student_fees db
  /\ payment_intents (update_webhook_log wl st e db) = payment_intents db
  /\ school_configurations (update_webhook_log wl st e db) = school_configurations db
  /\ List.length (webhook_logs (update_webhook_log wl st e db)) = List.length (webhook_logs db).
Proof.
  unfold update_webhook_log, update_where; simpl.
  repeat split; apply length_map.
Qed.

Lemma insert_webhook_log_logged l db :
  In (wl_id l) (map wl_id (webhook_logs (insert_webhook_log l db))).
Proof.
  unfold insert_webhook_log.
  destruct (existsb _ (webhook_logs db)) eqn:E.
  - apply existsb_exists in E. destruct E as (r & Hin & Heq).
    apply Nat.eqb_eq in Heq. rewrite <- Heq. apply in_map. exact Hin.
  - simpl. rewrite map_app. apply in_or_app. right. left. reflexivity.
Qed.

(** C4. Once the handler has logged the notification, and under any failure
    of the store at any statement of the procedure, whatever the role of the
    caller, the atomic step either commits the payment record, the fee
    update, the intent transition and the processed log entry together, or
    leaves none of them: then the payments, fees and intents are those from
    before the call, the failure entry the procedure wrote before re-raising
    is gone with the rest, and the handler marks its own log entry failed
    with the error detail in a statement of its own. *)
Theorem atomic_step_all_or_nothing role faults entry before school payment cs o intent :
  let s := mk_session role faults (fun d => d) in
  let wl := wl_id entry in
  let db := insert_webhook_log entry before in
  let out := reconcile rupees s wl school payment db cs in
  let t := id payment in
  let a := rupees (amount payment) in
  single (filter (has_transaction t) (payments db)) = None ->
  order_id payment = Some o ->
  single (filter (fun i => String.eqb (razorpay_order_id i) o) (payment_intents db))
  = Some intent ->
  (exists pid i fee cur,
      find (fun i => Nat.eqb (pi_id i) (pi_id intent) && Nat.eqb (pi_school_id i) school)
           (payment_intents db) = Some i
      /\ find (fun f => Nat.eqb (sf_id f) (pi_student_fee_id i)
                        && Nat.eqb (sf_school_id f) school)
              (student_fees db) = Some fee
      /\ amount_paid fee = Some cur
      /\ response out
         = successResponse
             (mk_data "Payment processed successfully" (Some (RecordId pid)) None)
      /\ final out
         = update_webhook_log wl processed None
             (committed db (pi_student_fee_id i) school (pi_id intent) t a
                        (cur + a) (total_due fee)))
  \/
  (exists m,
      fst (rpc (process_payment_webhook s (pi_id intent) t a school) db) = Raised m
      /\ response out = errorResponse "Payment processing failed" 500
      /\ payments (final out) = payments db
      /\ student_fees (final out) = student_fees db
      /\ payment_intents (final out) = payment_intents db
      /\ List.length (webhook_logs (final out)) = List.length (webhook_logs db)
      /\ exists l, In l (webhook_logs (final out))
                   /\ wl_id l = wl /\ wl_status l = failed
                   /\ error_message l = Some ("Transaction failed: " ++ m)).
Proof.
  intros s wl db out t a Hmiss Ho Hi.
  destruct (rpc (process_payment_webhook s (pi_id intent) t a school) db)
    as [[pid|m] db'] eqn:Hrpc.
  - left. subst out.
    rewrite (reconcile_returned _ _ _ _ _ _ _ _ _ _ Hmiss Ho Hi Hrpc).
    cbn [response final].
    destruct (process_payment_webhook_returned _ _ _ _ _ _ _ _ Hrpc)
      as (i & fee & cur & Hfi & _ & Hff & Hc & _ & _ & _ & _ & ->).
    exists pid, i, fee, cur. repeat split; assumption || reflexivity.
  - right. exists m. subst out.
    rewrite (reconcile_raised _ _ _ _ _ _ _ _ _ _ Hmiss Ho Hi Hrpc).
    cbn [response final fst].
    assert (db' = db)
      by (destruct (process_payment_webhook_raised _ _ _ _ _ _ _ _ Hrpc); assumption).
    subst db'.
    destruct (update_webhook_log_ledger wl failed
                (Some ("Transaction failed: " ++ m)) db) as (-> & -> & -> & _ & ->).
    repeat split; try reflexivity.
    apply update_webhook_log_marks. apply insert_webhook_log_logged.
Qed.

End Reconcile.

(** C2, as stated, fails: the lookup of step 5 misses, the competing
    notification commits, the insert violates the unique index, and the
    handler answers with the error of a failed transaction, not with a
    success. *)
Lemma racing_duplicate_not_answered_duplicate :
  let out := DemoRuntime.handle Race.racing 100 Race.delivery Demo.db in
  single (filter (has_transaction "pay_ABC123XYZ") (payments Demo.db)) = None
  /\ fst (rpc (process_payment_webhook Race.racing 20 "pay_ABC123XYZ" 4000000
                 Demo.school) Race.logged)
     = Raised unique_violation
  /\ response out = errorResponse "Payment processing failed" 500
  /\ ~ (exists d, response out = successResponse d).
Proof.
  cbv zeta. repeat split; try (vm_compute; reflexivity).
  intros [d Hd]. vm_compute in Hd. discriminate Hd.
Qed.

(** The gateway then delivers the notification again, and this time the
    lookup of step 5 finds the payment of the competitor. *)
Lemma racing_duplicate_redelivered :
  let lost := DemoRuntime.handle Race.racing 100 Race.delivery Demo.db in
  let again := DemoRuntime.handle service_session 103 Race.delivery (final lost) in
  response again = already_processed
  /\ ledger (final again) = ledger (final lost)
  /\ map amount_paid (student_fees (final again)) = [Some 4000000%Z].
Proof. cbv zeta. repeat split; vm_compute; reflexivity. Qed.

Lemma has_school_fee db school f :
  In f (student_fees db) -> sf_school_id f = school -> has_school db school = true.
Proof.
  intros Hin Hs. unfold has_school.
  assert (H : existsb (fun f => Nat.eqb (sf_school_id f) school) (student_fees db) = true)
    by (apply existsb_exists; exists f; split; [exact Hin | apply Nat.eqb_eq; exact Hs]).
  rewrite H. rewrite ?orb_true_r. reflexivity.
Qed.

(** C2, amended. For the service role on a healthy store: when the lookup
    of step 5 misses, in the handler and in the procedure, and the
    competing notification commits its payment record while the procedure
    waits for the row lock, the insert of the payment record violates the
    unique index on the transaction id and the atomic unit rolls back.  The
    procedure raises the violation, the handler marks its log entry failed
    with the violation as error detail and answers with the error "Payment
    processing failed" (500), never with a success; configurations,
    intents, fees and payments are the ones the competing notification
    committed. *)
Theorem racing_duplicate_rolls_back_and_fails
        (rupees : Z -> NUMERIC) s wl school payment db cs o intent i fee cur :
  let out := reconcile rupees s wl school payment db cs in
  let t := id payment in
  let a := rupees (amount payment) in
  let committed_by_competitor := lock_wait s db in
  auth_role s = Some "service_role" ->
  (forall l, fault s l = None) ->
  existsb (has_transaction t) (payments db) = false ->
  order_id payment = Some o ->
  single (filter (fun i => String.eqb (razorpay_order_id i) o) (payment_intents db))
  = Some intent ->
  find (fun i => Nat.eqb (pi_id i) (pi_id intent) && Nat.eqb (pi_school_id i) school)
       (payment_intents db) = Some i ->
  existsb (has_transaction t) (payments committed_by_competitor) = true ->
  find (fun f => Nat.eqb (sf_id f) (pi_student_fee_id i)
                 && Nat.eqb (sf_school_id f) school)
       (student_fees committed_by_competitor) = Some fee ->
  amount_paid fee = Some cur ->
  (Z.abs (cur + a) < 10000000000)%Z ->
  (Z.abs a < 10000000000)%Z ->
  rpc (process_payment_webhook s (pi_id intent) t a school) db
  = (Raised unique_violation, committed_by_competitor)
  /\ response out = errorResponse "Payment processing failed" 500
  /\ (forall d, response out <> successResponse d)
  /\ final out
     = update_webhook_log wl failed
         (Some ("Transaction failed: " ++ unique_violation)) committed_by_competitor
  /\ ledger (final out) = ledger committed_by_competitor.
Proof.
  intros out t a committed_by_competitor Hrole Hfault Hmiss Ho Hint Hi Hdup Hfee Hcur
         Hsum Ha.
  subst out.
  assert (Hp : find (has_transaction t) (payments db) = None).
  { destruct (find (has_transaction t) (payments db)) eqn:Hf; [|reflexivity].
    apply find_some in Hf. destruct Hf as [Hin Ht].
    assert (existsb (has_transaction t) (payments db) = true)
      by (apply existsb_exists; eauto).
    congruence. }
  assert (Hschool : has_school committed_by_competitor school = true).
  { pose proof (find_some _ _ Hfee) as [Hin Hc].
    apply andb_prop in Hc. destruct Hc as [_ Hs]. apply Nat.eqb_eq in Hs.
    exact (has_school_fee _ school fee Hin Hs). }
  assert (Hrpc : rpc (process_payment_webhook s (pi_id intent) t a school) db
                 = (Raised unique_violation, committed_by_competitor)).
  { apply Z.ltb_lt in Hsum, Ha.
    unfold_sql. rewrite Hrole, ?Hfault. simpl. rewrite ?Hfault.
    rewrite Hi. simpl. rewrite ?Hfault. rewrite Hp. simpl. rewrite ?Hfault. simpl.
    fold committed_by_competitor. rewrite Hfee, Hcur.
    unfold numeric_10_2. rewrite Hsum. simpl. rewrite ?Hfault. simpl.
    rewrite Ha. simpl. fold committed_by_competitor. rewrite Hdup. simpl.
    rewrite ?Hfault. simpl. fold committed_by_competitor. rewrite Hschool. reflexivity. }
  split; [exact Hrpc|].
  assert (Hsingle : single (filter (has_transaction (id payment)) (payments db)) = None)
    by (fold t; rewrite (existsb_false_filter _ _ Hmiss); reflexivity).
  rewrite (reconcile_raised rupees _ _ _ _ _ _ _ _ _ _ Hsingle Ho Hint Hrpc).
  repeat split. intros d Hd. discriminate Hd.
Qed.

Lemma racing_duplicate_rolls_back_and_fails_witness :
  let out := reconcile DemoRuntime.rupees Race.racing 100 Demo.school Demo.capture
                       Race.logged [] in
  rpc (process_payment_webhook Race.racing 20 "pay_ABC123XYZ" 4000000 Demo.school)
      Race.logged
  = (Raised unique_violation, lock_wait Race.racing Race.logged)
  /\ response out = errorResponse "Payment processing failed" 500
  /\ (forall d, response out <> successResponse d)
  /\ final out
     = update_webhook_log 100 failed
         (Some ("Transaction failed: " ++ unique_violation))
         (lock_wait Race.racing Race.logged)
  /\ ledger (final out) = ledger (lock_wait Race.racing Race.logged).
Proof.
  apply (racing_duplicate_rolls_back_and_fails DemoRuntime.rupees Race.racing 100
           Demo.school Demo.capture Race.logged [] "order_DEF456UVW" Demo.intent
           Demo.intent
           (mk_fee 10 5 Demo.school 7 8200000 (Some 4000000%Z) partially_paid) 4000000);
    try reflexivity; try (vm_compute; reflexivity).
Defined.

(** ** The webhook handler, stage by stage *)

Section Webhook.

Variable JSON_parse : TEXT -> parsed RazorpayWebhookPayload.
Variable CryptoKey : Type.
Variable importKey : TEXT -> list byte -> algorithm -> option CryptoKey.
Variable sign : TEXT -> CryptoKey -> list byte -> option (list byte).
Variable rupees : Z -> NUMERIC.

Let verify := verifyWebhookSignature CryptoKey importKey sign.
Let handle := handleWebhook JSON_parse CryptoKey importKey sign rupees.
Let verified_by := verified_capture JSON_parse CryptoKey importKey sign.

Lemma handleWebhook_verified s wl req db v :
  verified_by s req db = Some v ->
  handle s wl req db
  = reconcile rupees s wl (v_school v) (v_payment v)
      (insert_webhook_log (received_entry wl v) db)
      [VaultGet (v_school v) "razorpay_webhook_secret";
       Verify (text req) (v_signature v) (v_secret v)].
Proof.
  unfold verified_by, verified_capture, handle, handleWebhook, received_entry.
  destruct (JSON_parse (text req)) as [msg| |payload]; try discriminate.
  destruct (x_razorpay_signature req) as [g|]; [|discriminate]. simpl.
  destruct (String.eqb g ""); [discriminate|]. simpl.
  destruct (extract_order payload) as [msg| |payment o]; try discriminate.
  destruct (single _) as [intent|]; [|discriminate].
  destruct (webhook_secret s (pi_school_id intent) db) as [secret|]; [|discriminate].
  fold verify. destruct (verify (text req) g secret) eqn:Hv; [|discriminate].
  intros [= <-]. reflexivity.
Qed.

Lemma reconcile_calls s wl school payment db cs :
  calls (reconcile rupees s wl school payment db cs) = cs.
Proof.
  unfold reconcile. repeat (break_match; simpl; try reflexivity).
Qed.

(** The secret the vault returns for a school is decrypted from a
    configuration row of that school. *)
Lemma webhook_secret_of_school s school db secret :
  webhook_secret s school db = Some secret ->
  exists sc, In sc (school_configurations db)
             /\ sc_school_id sc = school
             /\ config_key sc = "razorpay_webhook_secret"
             /\ decrypt_config_value (config_value sc) = Returned secret.
Proof.
  unfold webhook_secret, rpc, get_school_config, bind, query, ret, raise, lift.
  destruct (not_service_role _); simpl; [discriminate|].
  destruct (find _ _) as [sc|] eqn:Hf; simpl; [|discriminate].
  apply find_some in Hf. destruct Hf as [Hin Hc].
  apply andb_prop in Hc. destruct Hc as [Hs Hk].
  apply Nat.eqb_eq in Hs. apply String.eqb_eq in Hk.
  rewrite Hk. simpl.
  destruct (decrypt_config_value (config_value sc)) as [v|e] eqn:Hd; simpl;
    [|discriminate].
  destruct (String.eqb v ""); simpl; [discriminate|].
  intros [= <-]. exists sc. auto.
Qed.

(** What the handler asks of the vault and of the verifier, case by case. *)
Lemma handleWebhook_calls s wl req db :
  calls (handle s wl req db) = []
  \/ exists payload payment orderId intent,
      JSON_parse (text req) = JsonValue payload
      /\ extract_order payload = Order payment orderId
      /\ single (filter (fun i => String.eqb (razorpay_order_id i) orderId)
                        (payment_intents db)) = Some intent
      /\ (calls (handle s wl req db)
          = [VaultGet (pi_school_id intent) "razorpay_webhook_secret"]
          \/ exists signature secret,
              x_razorpay_signature req = Some signature
              /\ webhook_secret s (pi_school_id intent) db = Some secret
              /\ calls (handle s wl req db)
                 = [VaultGet (pi_school_id intent) "razorpay_webhook_secret";
                    Verify (text req) signature secret]).
Proof.
  unfold handle, handleWebhook.
  destruct (JSON_parse (text req)) as [msg| |payload] eqn:Hp; simpl; auto.
  - destruct (negb _); simpl; auto.
  - destruct (x_razorpay_signature req) as [g|] eqn:Hg; simpl; auto.
    destruct (negb (negb (String.eqb g ""))); simpl; auto.
    destruct (extract_order payload) as [msg| |payment o] eqn:He; simpl; auto.
    destruct (single _) as [intent|] eqn:Hi; simpl; auto.
    right. exists payload, payment, o, intent. repeat split; auto.
    destruct (webhook_secret s (pi_school_id intent) db) as [secret|] eqn:Hs;
      simpl; auto.
    right. exists g, secret. repeat split; auto.
    destruct (negb _); simpl; auto using reconcile_calls.
Qed.

(** C7. The vault is asked only for the school of the intent that the
    order reference of the body resolves to, and only after that
    resolution; a notification whose order reference resolves to no intent
    reaches neither the vault nor the verifier; and the verifier runs only
    with a secret decrypted from a configuration row of that same school. *)
Theorem secret_lookup_follows_tenant_resolution s wl req db :
  let out := handle s wl req db in
  (forall payload payment orderId,
      JSON_parse (text req) = JsonValue payload ->
      extract_order payload = Order payment orderId ->
      single (filter (fun i => String.eqb (razorpay_order_id i) orderId)
                     (payment_intents db)) = None ->
      calls out = [])
  /\ (forall c, In c (calls out) ->
        exists payload payment orderId intent,
          JSON_parse (text req) = JsonValue payload
          /\ extract_order payload = Order payment orderId
          /\ single (filter (fun i => String.eqb (razorpay_order_id i) orderId)
                            (payment_intents db)) = Some intent
          /\ (c = VaultGet (pi_school_id intent) "razorpay_webhook_secret"
              \/ exists signature secret sc,
                  c = Verify (text req) signature secret
                  /\ In sc (school_configurations db)
                  /\ sc_school_id sc = pi_school_id intent
                  /\ config_key sc = "razorpay_webhook_secret"
                  /\ decrypt_config_value (config_value sc) = Returned secret))
  /\ (forall payload signature secret before after,
        calls out = before ++ Verify payload signature secret :: after ->
        exists school, before = [VaultGet school "razorpay_webhook_secret"])%list.
Proof.
  intros out. subst out.
  destruct (handleWebhook_calls s wl req db)
    as [Hnil | (payload & payment & o & intent & Hp & He & Hi & Hc)].
  - rewrite Hnil. repeat split.
    + intros c [].
    + intros ? ? ? before after H. destruct before; discriminate H.
  - repeat split.
    + intros payload' payment' o' Hp' He' Hi'.
      rewrite Hp in Hp'. injection Hp' as <-.
      rewrite He in He'. injection He' as <- <-. congruence.
    + intros c Hin. exists payload, payment, o, intent. repeat split; auto.
      destruct Hc as [Hc | (g & secret & Hg & Hs & Hc)]; rewrite Hc in Hin.
      * destruct Hin as [<-|[]]. left; reflexivity.
      * destruct Hin as [<-|[<-|[]]]; [left; reflexivity|].
        right. destruct (webhook_secret_of_school _ _ _ _ Hs) as (sc & H).
        exists g, secret, sc. tauto.
    + intros p g k before after H.
      destruct Hc as [Hc | (g' & secret & Hg & Hs & Hc)]; rewrite Hc in H.
      * destruct before as [|? [|? ?]]; discriminate H.
      * destruct before as [|c1 [|c2 before]]; try discriminate H.
        -- inversion H; subst. eauto.
        -- inversion H as [[H1 H2 H3]]. destruct before; discriminate H3.
Qed.

End Webhook.

(** ** Failures that leave no trace *)

(** C5, at two inputs.  A capture without an order reference and a capture
    whose order reference matches no intent are both answered with an error
    while [webhook_logs] stays empty. *)
Theorem unresolved_notifications_are_not_logged :
  let no_order :=
    DemoRuntime.handle service_session 100
      (DemoRuntime.delivery DemoRuntime.no_order_body DemoRuntime.capture_signature)
      Demo.db in
  let unknown_order :=
    DemoRuntime.handle service_session 100
      (DemoRuntime.delivery DemoRuntime.unknown_order_body DemoRuntime.capture_signature)
      Demo.db in
  response no_order = errorResponse "Invalid webhook payload" 400
  /\ webhook_logs (final no_order) = []
  /\ response unknown_order = errorResponse "Payment intent not found" 400
  /\ webhook_logs (final unknown_order) = [].
Proof. repeat split; vm_compute; reflexivity. Qed.

Lemma atomic_step_all_or_nothing_witness :
  let s := mk_session (Some "service_role") lock_timeout (fun d => d) in
  let out := reconcile DemoRuntime.rupees s 100 Demo.school Demo.capture Race.logged [] in
  (exists pid i fee cur,
      find (fun i => Nat.eqb (pi_id i) 20 && Nat.eqb (pi_school_id i) Demo.school)
           (payment_intents Race.logged) = Some i
      /\ find (fun f => Nat.eqb (sf_id f) (pi_student_fee_id i)
                        && Nat.eqb (sf_school_id f) Demo.school)
              (student_fees Race.logged) = Some fee
      /\ amount_paid fee = Some cur
      /\ response out
         = successResponse
             (mk_data "Payment processed successfully" (Some (RecordId pid)) None)
      /\ final out
         = update_webhook_log 100 processed None
             (committed Race.logged (pi_student_fee_id i) Demo.school 20
                        "pay_ABC123XYZ" 4000000 (cur + 4000000) (total_due fee)))
  \/
  (exists m,
      fst (rpc (process_payment_webhook s 20 "pay_ABC123XYZ" 4000000 Demo.school)
               Race.logged) = Raised m
      /\ response out = errorResponse "Payment processing failed" 500
      /\ payments (final out) = payments Race.logged
      /\ student_fees (final out) = student_fees Race.logged
      /\ payment_intents (final out) = payment_intents Race.logged
      /\ List.length (webhook_logs (final out)) = List.length (webhook_logs Race.logged)
      /\ exists l, In l (webhook_logs (final out))
                   /\ wl_id l = 100 /\ wl_status l = failed
                   /\ error_message l = Some ("Transaction failed: " ++ m)).
Proof.
  apply (atomic_step_all_or_nothing DemoRuntime.rupees (Some "service_role") lock_timeout
           Race.received_entry Demo.db Demo.school Demo.capture []
           "order_DEF456UVW" Demo.intent);
    reflexivity.
Defined.

(** ** Redelivery *)

Section Redelivery.

Variable JSON_parse : TEXT -> parsed RazorpayWebhookPayload.
Variable CryptoKey : Type.
Variable importKey : TEXT -> list byte -> algorithm -> option CryptoKey.
Variable sign : TEXT -> CryptoKey -> list byte -> option (list byte).
Variable rupees : Z -> NUMERIC.

Let handle := handleWebhook JSON_parse CryptoKey importKey sign rupees.
Let verified_by := verified_capture JSON_parse CryptoKey importKey sign.
Let deliver := deliver_all JSON_parse CryptoKey importKey sign rupees.

Lemma reconcile_duplicate s wl school payment db cs existing :
  single (filter (has_transaction (id payment)) (payments db)) = Some existing ->
  reconcile rupees s wl school payment db cs
  = mk_outcome already_processed (update_webhook_log wl processed None db) cs.
Proof. intros H. unfold reconcile. rewrite H. reflexivity. Qed.

Lemma webhook_secret_ext s school db db' :
  school_configurations db' = school_configurations db ->
  webhook_secret s school db' = webhook_secret s school db.
Proof.
  intros H. unfold webhook_secret, rpc, get_school_config, bind, query, ret, raise, lift.
  destruct (not_service_role _); simpl; [reflexivity|]. rewrite H.
  destruct (find _ _) as [sc|]; simpl; [|reflexivity].
  destruct (sensitive_key _); simpl; [|reflexivity].
  destruct (decrypt_config_value _); reflexivity.
Qed.

(** The verification stage reads the configurations and, of the intents,
    the order reference and the school. *)
Lemma verified_capture_ext s req db db' :
  school_configurations db' = school_configurations db ->
  (forall o, option_map pi_school_id
               (single (filter (fun i => String.eqb (razorpay_order_id i) o)
                               (payment_intents db')))
             = option_map pi_school_id
                 (single (filter (fun i => String.eqb (razorpay_order_id i) o)
                                 (payment_intents db)))) ->
  verified_by s req db' = verified_by s req db.
Proof.
  intros Hc Hi. unfold verified_by, verified_capture.
  destruct (JSON_parse (text req)) as [msg| |payload]; try reflexivity.
  destruct (x_razorpay_signature req) as [g|]; [|reflexivity].
  destruct (String.eqb g ""); [reflexivity|].
  destruct (extract_order payload) as [msg| |payment o]; try reflexivity.
  specialize (Hi o).
  destruct (single (filter _ (payment_intents db'))) as [i'|];
    destruct (single (filter _ (payment_intents db))) as [i|];
    simpl in Hi; try discriminate Hi; [|reflexivity].
  injection Hi as Hi. rewrite Hi, (webhook_secret_ext _ _ _ _ Hc). reflexivity.
Qed.

Lemma find_none_filter {A} (c : A -> bool) (l : list A) :
  find c l = None -> filter c l = [].
Proof.
  induction l as [|x xs IH]; simpl; [reflexivity|].
  destruct (c x); [discriminate | exact IH].
Qed.

(** A first delivery that is answered "processed" went through the stored
    procedure, which committed on top of the logged notification. *)
Lemma handle_applied wl req db v pid :
  verified_by service_session req db = Some v ->
  response (handle service_session wl req db)
  = successResponse (mk_data "Payment processed successfully" (Some (RecordId pid)) None) ->
  exists o intent i fee cur,
    order_id (v_payment v) = Some o
    /\ single (filter (fun i => String.eqb (razorpay_order_id i) o) (payment_intents db))
       = Some intent
    /\ find (fun i => Nat.eqb (pi_id i) (pi_id intent)
                      && Nat.eqb (pi_school_id i) (v_school v))
            (payment_intents db) = Some i
    /\ find (has_transaction (id (v_payment v))) (payments db) = None
    /\ find (fun f => Nat.eqb (sf_id f) (pi_student_fee_id i)
                      && Nat.eqb (sf_school_id f) (v_school v))
            (student_fees db) = Some fee
    /\ amount_paid fee = Some cur
    /\ final (handle service_session wl req db)
       = update_webhook_log wl processed None
           (committed (insert_webhook_log (received_entry wl v) db)
              (pi_student_fee_id i) (v_school v) (pi_id intent) (id (v_payment v))
              (rupees (amount (v_payment v)))
              (cur + rupees (amount (v_payment v))) (total_due fee)).
Proof.
  intros Hv. unfold handle, verified_by in *.
  rewrite (handleWebhook_verified _ _ _ _ rupees _ wl _ _ _ Hv).
  set (db0 := insert_webhook_log (received_entry wl v) db).
  assert (Hsame : payment_intents db0 = payment_intents db
                  /\ payments db0 = payments db
                  /\ student_fees db0 = student_fees db).
  { unfold db0, insert_webhook_log. destruct (existsb _ _); auto. }
  destruct Hsame as (Hi0 & Hp0 & Hf0).
  unfold reconcile.
  destruct (single (filter _ (payments db0))); [discriminate|].
  destruct (order_id (v_payment v)) as [o|]; [|discriminate].
  destruct (single (filter _ (payment_intents db0))) as [intent|] eqn:Hint;
    [|discriminate].
  destruct (rpc _ db0) as [[pid'|m] db'] eqn:Hrpc; [|discriminate].
  simpl. intros _.
  destruct (process_payment_webhook_returned _ _ _ _ _ _ _ _ Hrpc)
    as (i & fee & cur & Hfi & Hfp & Hff & Hc & _ & _ & _ & _ & ->).
  simpl in Hff. rewrite Hi0 in *. rewrite Hp0 in *. rewrite Hf0 in *.
  exists o, intent, i, fee, cur. repeat split; auto.
Qed.

Lemma ledger_insert_webhook_log l db : ledger (insert_webhook_log l db) = ledger db.
Proof. unfold insert_webhook_log. destruct (existsb _ _); reflexivity. Qed.

Lemma ledger_update_webhook_log wl st e db :
  ledger (update_webhook_log wl st e db) = ledger db.
Proof. reflexivity. Qed.

(** A verified notification whose transaction id is recorded once is
    answered "already processed", and only the log changes. *)
Lemma handle_duplicate wl req db v existing :
  verified_by service_session req db = Some v ->
  filter (has_transaction (id (v_payment v))) (payments db) = [existing] ->
  response (handle service_session wl req db) = already_processed
  /\ ledger (final (handle service_session wl req db)) = ledger db.
Proof.
  intros Hv Hone. unfold handle, verified_by in *.
  rewrite (handleWebhook_verified _ _ _ _ rupees _ wl _ _ _ Hv).
  set (db0 := insert_webhook_log (received_entry wl v) db).
  assert (Hl : ledger db0 = ledger db) by apply ledger_insert_webhook_log.
  assert (Hp : payments db0 = payments db) by (injection Hl; auto).
  rewrite (reconcile_duplicate _ _ _ _ _ _ existing) by (rewrite Hp, Hone; reflexivity).
  simpl. split; [reflexivity|].
  rewrite ledger_update_webhook_log. exact Hl.
Qed.

Lemma deliver_all_duplicates t ds : forall db existing,
  filter (has_transaction t) (payments db) = [existing] ->
  Forall (fun d => exists v, verified_by service_session (snd d) db = Some v
                             /\ id (v_payment v) = t) ds ->
  Forall (eq already_processed) (fst (deliver service_session ds db))
  /\ List.length (fst (deliver service_session ds db)) = List.length ds
  /\ ledger (snd (deliver service_session ds db)) = ledger db.
Proof.
  induction ds as [|d ds IH]; intros db existing Hone Hall;
    unfold deliver in *; cbn [deliver_all fst snd List.length].
  - repeat split; constructor.
  - inversion Hall as [|? ? (v & Hv & Ht) Hrest]; subst.
    destruct (handle_duplicate (fst d) (snd d) db v existing Hv Hone) as (Hr & Hl).
    fold handle.
    set (db' := final (handle service_session (fst d) (snd d) db)) in *.
    assert (Hl' := Hl). unfold ledger in Hl'. injection Hl' as Hc Hi Hf Hp.
    destruct (IH db' existing) as (IHr & IHn & IHl).
    + rewrite Hp. exact Hone.
    + eapply Forall_impl; [|exact Hrest].
      intros d' (v' & Hv' & Ht'). exists v'. split; [|exact Ht'].
      unfold verified_by in *. rewrite <- Hv'.
      apply verified_capture_ext; [exact Hc | intros o; rewrite Hi; reflexivity].
    + repeat split.
      * constructor; [symmetry; exact Hr | exact IHr].
      * rewrite IHn. reflexivity.
      * rewrite IHl. exact Hl.
Qed.

(** C1. A verified capture that is applied, followed by any number of
    verified deliveries carrying the same transaction id, handled one after
    another: each later delivery is answered with the success "Payment
    already processed" and leaves configurations, intents, fees and payments
    untouched; afterwards exactly one payment record carries the transaction
    id, and the fee record it points to holds the amount it held before the
    first delivery plus the captured amount, once. *)
Theorem duplicate_deliveries_apply_once first rest db v pid :
  let t := id (v_payment v) in
  let a := rupees (amount (v_payment v)) in
  let db1 := final (handle service_session (fst first) (snd first) db) in
  let after := deliver service_session rest db1 in
  verified_by service_session (snd first) db = Some v ->
  response (handle service_session (fst first) (snd first) db)
  = successResponse
      (mk_data "Payment processed successfully" (Some (RecordId pid)) None) ->
  Forall (fun d => exists v', verified_by service_session (snd d) db = Some v'
                              /\ id (v_payment v') = t) rest ->
  Forall (eq already_processed) (fst after)
  /\ List.length (fst after) = List.length rest
  /\ ledger (snd after) = ledger db1
  /\ exists p fee cur fee',
      filter (has_transaction t) (payments (snd after)) = [p]
      /\ p_amount p = a
      /\ find (fun f => Nat.eqb (sf_id f) (p_student_fee_id p)
                        && Nat.eqb (sf_school_id f) (p_school_id p))
              (student_fees db) = Some fee
      /\ amount_paid fee = Some cur
      /\ find (fun f => Nat.eqb (sf_id f) (p_student_fee_id p)
                        && Nat.eqb (sf_school_id f) (p_school_id p))
              (student_fees (snd after)) = Some fee'
      /\ amount_paid fee' = Some (cur + a)%Z.
Proof.
  intros t a db1 after Hv Hresp Hrest.
  destruct (handle_applied _ _ _ _ _ Hv Hresp)
    as (o & intent & i & fee & cur & Ho & Hint & Hfi & Hfp & Hff & Hc & Hfinal).
  fold db1 in Hfinal.
  set (db0 := insert_webhook_log (received_entry (fst first) v) db) in *.
  assert (Hl0 : ledger db0 = ledger db) by apply ledger_insert_webhook_log.
  unfold ledger in Hl0. injection Hl0 as Hc0 Hi0 Hf0 Hp0.
  set (row := mk_payment (gen_random_uuid (map p_id (payments db)))
                (pi_student_fee_id i) (v_school v) (Some t)
                (option_map razorpay_order_id
                   (find (fun i => Nat.eqb (pi_id i) (pi_id intent)) (payment_intents db)))
                a "Online" true).
  assert (Hpay : payments db1 = (payments db ++ [row])%list).
  { rewrite Hfinal. simpl. rewrite Hp0, Hi0. reflexivity. }
  assert (Hone : filter (has_transaction t) (payments db1) = [row]).
  { rewrite Hpay, filter_app, (find_none_filter (has_transaction t) _ Hfp). simpl.
    unfold has_transaction; simpl. rewrite String.eqb_refl. reflexivity. }
  assert (Hconf : school_configurations db1 = school_configurations db).
  { rewrite Hfinal. simpl. exact Hc0. }
  assert (Hints : forall o',
             option_map pi_school_id
               (single (filter (fun i => String.eqb (razorpay_order_id i) o')
                               (payment_intents db1)))
             = option_map pi_school_id
                 (single (filter (fun i => String.eqb (razorpay_order_id i) o')
                                 (payment_intents db)))).
  { intros o'. rewrite Hfinal. simpl. rewrite Hi0.
    apply single_filter_update_where; reflexivity. }
  destruct (deliver_all_duplicates t rest db1 row Hone) as (Hr & Hn & Hl).
  { eapply Forall_impl; [|exact Hrest].
    intros d (v' & Hv' & Ht'). exists v'. split; [|exact Ht'].
    unfold verified_by in *. rewrite <- Hv'.
    apply verified_capture_ext; assumption. }
  fold after in Hr, Hn, Hl.
  repeat split; try assumption.
  assert (Hl' := Hl). unfold ledger in Hl'. injection Hl' as _ _ Hfees Hpays.
  exists row, fee, cur.
  eexists. rewrite Hpays, Hfees. split; [exact Hone|]. split; [reflexivity|].
  simpl. split; [exact Hff|]. split; [exact Hc|].
  rewrite Hfinal. split.
  - apply (find_fee_committed db0). rewrite Hf0. exact Hff.
  - reflexivity.
Qed.

End Redelivery.

Lemma duplicate_deliveries_apply_once_witness :
  let after :=
    deliver_all DemoRuntime.JSON_parse DemoRuntime.CryptoKey DemoRuntime.importKey
      DemoRuntime.sign DemoRuntime.rupees service_session
      [(102, Race.delivery); (103, Race.delivery)]
      (final (DemoRuntime.handle service_session 100 Race.delivery Demo.db)) in
  Forall (eq already_processed) (fst after)
  /\ List.length (fst after) = 2
  /\ ledger (snd after)
     = ledger (final (DemoRuntime.handle service_session 100 Race.delivery Demo.db))
  /\ exists p fee cur fee',
      filter (has_transaction "pay_ABC123XYZ") (payments (snd after)) = [p]
      /\ p_amount p = 4000000%Z
      /\ find (fun f => Nat.eqb (sf_id f) (p_student_fee_id p)
                        && Nat.eqb (sf_school_id f) (p_school_id p))
              (student_fees Demo.db) = Some fee
      /\ amount_paid fee = Some cur
      /\ find (fun f => Nat.eqb (sf_id f) (p_student_fee_id p)
                        && Nat.eqb (sf_school_id f) (p_school_id p))
              (student_fees (snd after)) = Some fee'
      /\ amount_paid fee' = Some (cur + 4000000)%Z.
Proof.
  apply (duplicate_deliveries_apply_once DemoRuntime.JSON_parse DemoRuntime.CryptoKey
           DemoRuntime.importKey DemoRuntime.sign DemoRuntime.rupees
           (100, Race.delivery) [(102, Race.delivery); (103, Race.delivery)] Demo.db
           (mk_verified DemoRuntime.capture_notification Demo.capture Demo.school
                        DemoRuntime.capture_signature Demo.webhook_secret_text) 1).
  - vm_compute. reflexivity.
  - vm_compute. reflexivity.
  - repeat constructor;
      (eexists; split; [vm_compute; reflexivity | reflexivity]).
Defined.

(** C3, as stated, fails.  With the verifier as index.ts has it, the direct
    path throws and records nothing where the webhook path applies the
    capture.  With a verifier that accepts the confirmation, the two entry
    points still leave different payment records and intents after the same
    capture (the webhook path stores the order reference and the verified
    flags, the direct path does not); and a second capture for the same
    order under another transaction id is credited by the webhook path,
    while the direct path, which looks at the status of the intent, answers
    "already processed" and credits nothing. *)
Lemma direct_path_differs_from_webhook_path :
  let notified1 := DemoRuntime.handle service_session 100 Race.delivery Demo.db in
  let confirmed1 := DemoDirect.handle (DemoDirect.confirmation DemoDirect.first_body)
                                      Demo.db in
  let notified2 :=
    DemoDirect.notify service_session 102
      (DemoRuntime.delivery DemoDirect.second_capture_body
                            DemoDirect.second_capture_signature)
      (final notified1) in
  let confirmed2 := DemoDirect.handle (DemoDirect.confirmation DemoDirect.second_body)
                                      (final confirmed1) in
  let thrown := DemoDirect.handle_as_written
                  (DemoDirect.confirmation DemoDirect.first_body) Demo.db in
  status (response thrown) = 500 /\ final thrown = Demo.db
  /\ ledger (final thrown) <> ledger (final notified1)
  /\ status (response notified1) = 200 /\ status (response confirmed1) = 200
  /\ payments (final notified1) <> payments (final confirmed1)
  /\ payment_intents (final notified1) <> payment_intents (final confirmed1)
  /\ student_fees (final notified1) = student_fees (final confirmed1)
  /\ status (response notified2) = 200 /\ status (response confirmed2) = 200
  /\ map amount_paid (student_fees (final notified2)) = [Some 8200000%Z]
  /\ map sf_status (student_fees (final notified2)) = [paid]
  /\ map amount_paid (student_fees (final confirmed2)) = [Some 4000000%Z]
  /\ map sf_status (student_fees (final confirmed2)) = [partially_paid].
Proof.
  cbv zeta. repeat split; try (vm_compute; reflexivity);
    intros H; vm_compute in H; discriminate H.
Qed.

Section Direct.

Variable JSON_parse_request : TEXT -> parsed VerifyPaymentRequest.
Variable verifyRazorpaySignature : TEXT -> TEXT -> TEXT -> TEXT -> option bool.
Variable number : Type.
Variable of_numeric : NUMERIC -> number.
Variable js_add : number -> number -> number.
Variable js_ge : number -> number -> bool.
Variable js_gt0 : number -> bool.
Variable to_numeric : number -> option NUMERIC.

Let handle :=
  handleDirectVerification JSON_parse_request verifyRazorpaySignature number
    of_numeric js_add js_ge js_gt0 to_numeric.

(** C3, amended. The direct entry point verifies the signature first and
    touches nothing unless it is valid; it then looks at the status of the
    intent, not at the transaction id, and answers "already processed" for a
    paid intent; otherwise it marks the intent paid in a statement of its
    own, and then either the payment record is refused (the intent stays
    marked, payments and fees are untouched) or a payment record for the
    expected amount of the intent is inserted, without order reference and
    without the webhook-verified flag, and a separate statement updates the
    fee: it writes the JavaScript sum of the amount paid, as it was read
    together with the intent, and the expected amount of the intent, with
    the status that sum calls for; when the store refuses the value the
    update is lost and the answer is the same. *)
Theorem direct_verification_pipeline req db requestData o p g intent config :
  let out := handle req db in
  let verdict := verifyRazorpaySignature o p g (config_value config) in
  JSON_parse_request (text req) = JsonValue requestData ->
  razorpayOrderId requestData = Some o ->
  razorpayPaymentId requestData = Some p ->
  razorpaySignature requestData = Some g ->
  missingFields requestData = [] ->
  single (filter (fun i => String.eqb (razorpay_order_id i) o) (payment_intents db))
  = Some intent ->
  find (fun c => Nat.eqb (sc_school_id c) (pi_school_id intent)
                 && String.eqb (config_key c) "razorpay_key_secret")
       (school_configurations db) = Some config ->
  (verdict <> Some true ->
   final out = db /\ exists e code, response out = errorResponse e code)
  /\ (verdict = Some true -> pi_status intent = intent_paid ->
      final out = db
      /\ response out
         = successResponse
             (mk_data "Payment already processed"
                      (Some (GatewayRef (razorpay_payment_id intent))) None))
  /\ (verdict = Some true -> pi_status intent <> intent_paid ->
      payment_intents (final out)
      = update_where
          (fun i => Nat.eqb (pi_id i) (pi_id intent))
          (fun i => mk_intent (pi_id i) (razorpay_order_id i) (pi_student_fee_id i)
                      (pi_school_id i) (pi_amount i) (currency i) intent_paid
                      (receipt i) (Some p) (webhook_verified i))
          (payment_intents db)
      /\ school_configurations (final out) = school_configurations db
      /\ webhook_logs (final out) = webhook_logs db
      /\ ((response out = errorResponse "Failed to record payment" 400
           /\ payments (final out) = payments db
           /\ student_fees (final out) = student_fees db)
          \/ (exists a fee,
                to_numeric (of_numeric (pi_amount intent)) = Some a
                /\ existsb (has_transaction p) (payments db) = false
                /\ payments (final out)
                   = (payments db ++
                        [mk_payment (gen_random_uuid (map p_id (payments db)))
                           (pi_student_fee_id intent) (pi_school_id intent)
                           (Some p) None a "Online" false])%list
                /\ response out
                   = successResponse
                       (mk_data "Payment verified and recorded successfully"
                          (Some (RecordId (gen_random_uuid (map p_id (payments db)))))
                          (Some p))
                /\ find (fun f => Nat.eqb (sf_id f) (pi_student_fee_id intent))
                        (student_fees db) = Some fee
                /\ let newAmountPaid :=
                     js_add (of_numeric (match amount_paid fee with
                                         | Some before => before
                                         | None => 0%Z
                                         end))
                            (of_numeric (pi_amount intent)) in
                   let newStatus :=
                     if js_ge newAmountPaid (of_numeric (total_due fee)) then paid
                     else if js_gt0 newAmountPaid then partially_paid
                     else unpaid in
                   student_fees (final out)
                   = match to_numeric newAmountPaid with
                     | Some v =>
                         update_where
                           (fun f => Nat.eqb (sf_id f) (pi_student_fee_id intent))
                           (fun f => mk_fee (sf_id f) (student_id f) (sf_school_id f)
                                       (structure_id f) (total_due f) (Some v) newStatus)
                           (student_fees db)
                     | None => student_fees db
                     end))).
Proof.
  intros out verdict Hparse Ho Hp Hg Hmiss Hint Hconf.
  subst out verdict. unfold handle, handleDirectVerification.
  rewrite Hparse, Ho, Hp, Hg, Hmiss, Hint, Hconf.
  destruct (verifyRazorpaySignature o p g (config_value config)) as [[|]|] eqn:Hv.
  - split; [intros H; congruence|].
    split.
    + intros _ Hpaid. rewrite Hpaid. split; reflexivity.
    + intros _ Hnot.
      assert (Hrec : forall ws cs,
                 match pi_status intent with
                 | intent_paid => ws
                 | _ => record_directly number of_numeric js_add js_ge js_gt0
                          to_numeric intent p db cs
                 end
                 = record_directly number of_numeric js_add js_ge js_gt0
                     to_numeric intent p db cs)
        by (intros; destruct (pi_status intent); congruence).
      rewrite Hrec. clear Hrec. unfold record_directly.
      destruct (find _ (student_fees db)) as [fee|] eqn:Hfee; simpl;
        [|repeat split; left; repeat split].
      destruct (to_numeric (of_numeric (pi_amount intent))) as [a|] eqn:Ha; simpl;
        [|repeat split; left; repeat split].
      unfold rpc, insert_payment, bind, query, write, ret, raise; simpl.
      destruct (numeric_10_2 a) as [a'|] eqn:Hn; simpl;
        [|repeat split; left; repeat split].
      apply numeric_10_2_Some in Hn. subst a'.
      destruct (existsb (has_transaction p) (payments db)) eqn:Hdup; simpl;
        [repeat split; left; repeat split|].
      destruct (to_numeric (js_add _ _)) eqn:Hnew; simpl;
        (do 3 (split; [reflexivity|]); right; exists a, fee;
         do 5 (split; [reflexivity|]); cbv zeta; rewrite Hnew; reflexivity).
  - split; [intros _; split; [reflexivity | do 2 eexists; reflexivity]|].
    split; intros H; discriminate H.
  - split; [intros _; split; [reflexivity | do 2 eexists; reflexivity]|].
    split; intros H; discriminate H.
Qed.

End Direct.

Lemma direct_verification_pipeline_witness :
  let out := DemoDirect.handle (DemoDirect.confirmation DemoDirect.first_body) Demo.db in
  payment_intents (final out)
  = [mk_intent 20 "order_DEF456UVW" 10 Demo.school 4000000 "INR" intent_paid "rcpt_1"
               (Some "pay_ABC123XYZ") false]
  /\ payments (final out)
     = [mk_payment 1 10 Demo.school (Some "pay_ABC123XYZ") None 4000000 "Online" false]
  /\ student_fees (final out)
     = [mk_fee 10 5 Demo.school 7 8200000 (Some 4000000%Z) partially_paid].
Proof.
  pose proof (direct_verification_pipeline
                DemoDirect.JSON_parse_request DemoDirect.verifyRazorpaySignature
                DemoDirect.number DemoDirect.of_numeric Z.add DemoDirect.js_ge
                DemoDirect.js_gt0 numeric_10_2
                (DemoDirect.confirmation DemoDirect.first_body) Demo.db
                (mk_verify_request (Some "order_DEF456UVW") (Some "pay_ABC123XYZ")
                                   (Some "1a87"))
                "order_DEF456UVW" "pay_ABC123XYZ" "1a87" Demo.intent
                (mk_config 2 Demo.school "razorpay_key_secret" "ENCRYPTED_SECRET_VALUE")
                eq_refl eq_refl eq_refl eq_refl eq_refl eq_refl eq_refl) as H.
  destruct H as (_ & _ & H).
  destruct (H eq_refl)
    as (Hi & _ & _ & [(Hr & _) | (a & fee & Ha & _ & Hp & _ & Hfee & Hfees)]).
  - simpl. discriminate.
  - vm_compute in Hr. discriminate Hr.
  - injection Ha as <-. injection Hfee as <-.
    split; [exact Hi|]. split; [exact Hp | exact Hfees].
Defined.

(** ** The configuration envelope on a secret with backslashes *)

Lemma decrypt_config_value_verbatim (v : TEXT) :
  Pg.like_prefix "ENCRYPTED:" v = false -> decrypt_config_value v = Returned v.
Proof. intros H. unfold decrypt_config_value. rewrite H. reflexivity. Qed.

(** C10, at two inputs.  The cast to [bytea] reads a doubled backslash as
    one, so the plaintext [a\\b] comes back from the envelope, and from
    [get_school_config], as [a\b]; a plaintext with a single backslash is
    refused by the cast and cannot be stored at all. *)
Theorem envelope_alters_backslashes :
  encrypt_config_value "a\\b" = Returned "ENCRYPTED:YVxi"
  /\ decrypt_config_value "ENCRYPTED:YVxi" = Returned "a\b"
  /\ "a\b" <> "a\\b"
  /\ fst (rpc (get_school_config service_session Demo.school "razorpay_webhook_secret")
              escaped_secret_db) = Returned (Some "a\b")
  /\ encrypt_config_value "a\b" = Raised "invalid input syntax for type bytea".
Proof. repeat split; try (vm_compute; reflexivity). discriminate. Qed.

(** ** The envelope on texts without backslashes

    Apart from the backslash, the envelope does what its two functions were
    written for. *)

Module Envelope.

Import Pg.

Lemma byte_of_to_N (b : byte) : byte_of (Byte.to_N b) = b.
Proof.
  unfold byte_of. pose proof (Byte.to_N_bounded b).
  rewrite N.mod_small by lia. rewrite Byte.of_to_N. reflexivity.
Qed.

Lemma byte_of_mod (n : N) (b : byte) : (n mod 256 = Byte.to_N b)%N -> byte_of n = b.
Proof.
  intros H. unfold byte_of. rewrite H, Byte.of_to_N. reflexivity.
Qed.

Lemma eqb_backslash_false (c : byte) : c <> backslash -> Byte.eqb c backslash = false.
Proof.
  intros H. destruct (Byte.eqb c backslash) eqn:E; [|reflexivity].
  apply Byte.byte_dec_bl in E. contradiction.
Qed.

Lemma escape_decode_plain (s : list byte) :
  ~ In backslash s -> escape_decode s = Some s.
Proof.
  induction s as [|c rest IH]; intros Hno; [reflexivity|].
  cbn [escape_decode].
  rewrite eqb_backslash_false by (intros ->; apply Hno; left; reflexivity).
  rewrite IH by (intros H; apply Hno; right; exact H). reflexivity.
Qed.

Lemma byteain_plain (s : list byte) : ~ In backslash s -> byteain s = Some s.
Proof.
  intros Hno. unfold byteain.
  destruct s as [|c [|d rest]]; try (apply escape_decode_plain; exact Hno).
  rewrite eqb_backslash_false by (intros ->; apply Hno; left; reflexivity).
  apply escape_decode_plain; exact Hno.
Qed.

Lemma symbols_ok : forallb symbol_ok (map N.of_nat (seq 0 64)) = true.
Proof. vm_compute. reflexivity. Qed.

Lemma symbol (n : N) :
  (n < 64)%N ->
  is_space (b64_char n) = false
  /\ Byte.eqb (b64_char n) pad = false
  /\ b64_lookup (b64_char n) = Some n.
Proof.
  intros Hn.
  assert (Hin : In n (map N.of_nat (seq 0 64))).
  { apply in_map_iff. exists (N.to_nat n). split; [apply N2Nat.id|].
    apply in_seq. lia. }
  pose proof (proj1 (forallb_forall _ _) symbols_ok n Hin) as H.
  unfold symbol_ok in H.
  apply andb_prop in H. destruct H as [H H3].
  apply andb_prop in H. destruct H as [H1 H2].
  apply negb_true_iff in H1, H2.
  destruct (b64_lookup (b64_char n)) as [m|]; [|discriminate].
  apply N.eqb_eq in H3. subst m. auto.
Qed.

Lemma b64_char_mod (n : N) : b64_char n = b64_char (n mod 64).
Proof. unfold b64_char. rewrite N.Div0.mod_mod. reflexivity. Qed.

(** One step of the decoder on a symbol of the alphabet. *)
Lemma decode_symbol buf pos fin n rest :
  (pos < 3)%nat ->
  base64_decode_from buf pos fin (b64_char n :: rest)
  = base64_decode_from (buf * 64 + n mod 64) (S pos) fin rest.
Proof.
  intros Hpos. rewrite (b64_char_mod n).
  destruct (symbol (n mod 64)) as (Hs & Hp & Hl); [apply N.mod_lt; lia|].
  cbn [base64_decode_from]. rewrite Hs, Hp, Hl.
  destruct (Nat.eqb_spec pos 3); [lia | reflexivity].
Qed.

Lemma decode_last_symbol buf n rest :
  base64_decode_from buf 3 0 (b64_char n :: rest)
  = option_map (app [byte_of ((buf * 64 + n mod 64) / 65536);
                     byte_of ((buf * 64 + n mod 64) / 256);
                     byte_of (buf * 64 + n mod 64)])
               (base64_decode_from 0 0 0 rest).
Proof.
  rewrite (b64_char_mod n).
  destruct (symbol (n mod 64)) as (Hs & Hp & Hl); [apply N.mod_lt; lia|].
  cbn [base64_decode_from]. rewrite Hs, Hp, Hl. reflexivity.
Qed.

Lemma decode_newline rest : 
  base64_decode_from 0 0 0 (newline :: rest) = base64_decode_from 0 0 0 rest.
Proof. reflexivity. Qed.

Ltac euclid := zify; Z.to_euclidean_division_equations; lia.

Section Sextets.

Variables a b c : N.
Hypothesis Ha : (a <= 255)%N.
Hypothesis Hb : (b <= 255)%N.
Hypothesis Hc : (c <= 255)%N.

Let buf := (a * 65536 + b * 256 + c)%N.

Lemma sextet1 : ((buf / 262144) mod 64 = a / 4)%N.
Proof. subst buf. euclid. Qed.

Lemma sextet2 : ((buf / 4096) mod 64 = (a mod 4) * 16 + b / 16)%N.
Proof. subst buf. euclid. Qed.

Lemma sextet3 : ((buf / 64) mod 64 = (b mod 16) * 4 + c / 64)%N.
Proof. subst buf. euclid. Qed.

Lemma sextet4 : (buf mod 64 = c mod 64)%N.
Proof. subst buf. euclid. Qed.

Lemma sextets :
  ((((0 * 64 + (buf / 262144) mod 64) * 64 + (buf / 4096) mod 64) * 64
    + (buf / 64) mod 64) * 64 + buf mod 64 = buf)%N.
Proof.
  rewrite sextet1, sextet2, sextet3, sextet4. subst buf. euclid.
Qed.

Lemma octets :
  ((buf / 65536) mod 256 = a /\ (buf / 256) mod 256 = b /\ buf mod 256 = c)%N.
Proof. subst buf. euclid. Qed.

End Sextets.

Lemma decode_padding_1 buf :
  base64_decode_from buf 2 0 [pad; pad]
  = Some [byte_of (((buf * 64 + 0) * 64 + 0) / 65536)].
Proof. reflexivity. Qed.

Lemma decode_padding_2 buf :
  base64_decode_from buf 3 0 [pad]
  = Some [byte_of ((buf * 64 + 0) / 65536); byte_of ((buf * 64 + 0) / 256)].
Proof. reflexivity. Qed.

Lemma decode_group (x y z : byte) rest :
  let buf := (Byte.to_N x * 65536 + Byte.to_N y * 256 + Byte.to_N z)%N in
  base64_decode_from 0 0 0
    (b64_char (buf / 262144) :: b64_char (buf / 4096) :: b64_char (buf / 64)
       :: b64_char buf :: rest)
  = option_map (app [x; y; z]) (base64_decode_from 0 0 0 rest).
Proof.
  intros buf.
  pose proof (Byte.to_N_bounded x) as Hx.
  pose proof (Byte.to_N_bounded y) as Hy.
  pose proof (Byte.to_N_bounded z) as Hz.
  rewrite !decode_symbol by lia. rewrite decode_last_symbol.
  subst buf. rewrite (sextets _ _ _ Hx Hy Hz).
  destruct (octets _ _ _ Hx Hy Hz) as (H1 & H2 & H3).
  rewrite (byte_of_mod _ x H1), (byte_of_mod _ y H2), (byte_of_mod _ z H3).
  reflexivity.
Qed.

Lemma decode_tail_1 (x : byte) :
  let buf := (Byte.to_N x * 65536)%N in
  base64_decode_from 0 0 0 [b64_char (buf / 262144); b64_char (buf / 4096); pad; pad]
  = Some [x].
Proof.
  intros buf. pose proof (Byte.to_N_bounded x) as Hx.
  rewrite !decode_symbol by lia. rewrite decode_padding_1.
  f_equal. f_equal. apply byte_of_mod. subst buf. euclid.
Qed.

Lemma decode_tail_2 (x y : byte) :
  let buf := (Byte.to_N x * 65536 + Byte.to_N y * 256)%N in
  base64_decode_from 0 0 0
    [b64_char (buf / 262144); b64_char (buf / 4096); b64_char (buf / 64); pad]
  = Some [x; y].
Proof.
  intros buf.
  pose proof (Byte.to_N_bounded x) as Hx.
  pose proof (Byte.to_N_bounded y) as Hy.
  rewrite !decode_symbol by lia. rewrite decode_padding_2.
  assert (H1 : ((((((0 * 64 + (buf / 262144) mod 64) * 64 + (buf / 4096) mod 64) * 64
                   + (buf / 64) mod 64) * 64 + 0) / 65536) mod 256 = Byte.to_N x)%N)
    by (subst buf; euclid).
  assert (H2 : ((((((0 * 64 + (buf / 262144) mod 64) * 64 + (buf / 4096) mod 64) * 64
                   + (buf / 64) mod 64) * 64 + 0) / 256) mod 256 = Byte.to_N y)%N)
    by (subst buf; euclid).
  rewrite (byte_of_mod _ x H1), (byte_of_mod _ y H2). reflexivity.
Qed.

(** [decode(encode(b, 'base64'), 'base64') = b], line feeds included. *)
Lemma base64_decode_encode_from (n : nat) : forall (s : bytea) (col : nat),
  (List.length s <= n)%nat ->
  base64_decode_from 0 0 0 (base64_encode_from col s) = Some s.
Proof.
  induction n as [|n IH]; intros s col Hlen.
  - destruct s; [reflexivity | simpl in Hlen; lia].
  - destruct s as [|x [|y [|z rest]]].
    + reflexivity.
    + apply decode_tail_1.
    + apply decode_tail_2.
    + cbn [base64_encode_from]. rewrite decode_group.
      assert (Hrest : (List.length rest <= n)%nat) by (simpl in Hlen; lia).
      destruct (76 <=? col + 4)%nat.
      * rewrite decode_newline, (IH rest 0%nat Hrest). reflexivity.
      * rewrite (IH rest (col + 4)%nat Hrest). reflexivity.
Qed.

Theorem base64_decode_encode (s : bytea) : base64_decode (base64_encode s) = Some s.
Proof. exact (base64_decode_encode_from (List.length s) s 0 (le_n _)). Qed.

Lemma substring_all (x : TEXT) : String.substring 0 (String.length x) x = x.
Proof. induction x as [|c x IH]; simpl; [reflexivity | rewrite IH; reflexivity]. Qed.

Lemma prefix_empty (x : TEXT) : String.prefix "" x = true.
Proof. destruct x; reflexivity. Qed.

Lemma substring_after_prefix (x : TEXT) : substring_from 11 ("ENCRYPTED:" ++ x) = x.
Proof.
  unfold substring_from.
  change ("ENCRYPTED:" ++ x) with
    (String "E" (String "N" (String "C" (String "R" (String "Y" (String "P"
       (String "T" (String "E" (String "D" (String ":" x)))))))))).
  cbn [String.length Nat.sub String.substring]. rewrite Nat.sub_0_r.
  apply substring_all.
Qed.

(** X8. A text without backslash that is valid UTF-8 (every stored TEXT is)
    comes back from the envelope unchanged. *)
Theorem decrypt_encrypt_without_backslash (v : TEXT) :
  ~ In backslash (textout v) ->
  utf8_valid (textout v) = true ->
  exists e, encrypt_config_value v = Returned e
            /\ like_prefix "ENCRYPTED:" e = true
            /\ decrypt_config_value e = Returned v.
Proof.
  intros Hno Hutf.
  unfold encrypt_config_value, text_to_bytea. rewrite (byteain_plain _ Hno).
  eexists. split; [reflexivity|].
  split; [cbn; apply prefix_empty|].
  unfold decrypt_config_value.
  replace (like_prefix "ENCRYPTED:" _) with true by (cbn; symmetry; apply prefix_empty).
  rewrite substring_after_prefix.
  unfold textout at 1. rewrite list_byte_of_string_of_list_byte.
  rewrite base64_decode_encode. unfold convert_from_utf8. rewrite Hutf.
  unfold textout. rewrite string_of_list_byte_of_string. reflexivity.
Qed.

End Envelope.

(** * Further properties of the stored procedures *)

Lemma find_update_where_any {A} (c k : A -> bool) (set : A -> A) (rows : list A) :
  (forall x, c (set x) = c x) ->
  find c (update_where k set rows)
  = option_map (fun r => if k r then set r else r) (find c rows).
Proof.
  intros Hset. induction rows as [|x xs IH]; simpl; [reflexivity|].
  destruct (k x) eqn:Hk.
  - rewrite Hset. destruct (c x); simpl; [rewrite Hk; reflexivity | exact IH].
  - destruct (c x); simpl; [rewrite Hk; reflexivity | exact IH].
Qed.

Lemma existsb_find_some {A} (c : A -> bool) (l : list A) :
  existsb c l = true -> exists x, find c l = Some x.
Proof.
  induction l as [|y ys IH]; simpl; [discriminate|].
  destruct (c y); simpl; eauto.
Qed.

Lemma find_none_existsb {A} (c : A -> bool) (l : list A) :
  find c l = None -> existsb c l = false.
Proof.
  induction l as [|y ys IH]; simpl; [reflexivity|].
  destruct (c y); simpl; [discriminate | exact IH].
Qed.

(** X1. The three SECURITY DEFINER functions refuse every caller whose role
    is a role other than the service role, and the refusal leaves nothing
    behind: the failure entry that [process_payment_webhook] writes before
    re-raising is rolled back, and when that entry cannot be written (its
    school has no row) the error of the insert is the one the caller sees.
    A caller without a role is not refused: the comparison of the guard
    with NULL is not true, and the three functions do for it what they do
    for the service role. *)
Theorem other_roles_are_refused s :
  (forall role,
      auth_role s = Some role -> role <> "service_role" ->
      (forall school key db,
          rpc (get_school_config s school key) db
          = (Raised "Access denied: Service role required", db))
      /\ (forall o p g school db,
            rpc (verify_razorpay_payment_signature s o p g school) db
            = (Raised "Access denied: Service role required", db))
      /\ (forall intent t a school db,
            fault s InsertFailureLog = None ->
            rpc (process_payment_webhook s intent t a school) db
            = (Raised (if has_school db school
                       then "Access denied: Service role required"
                       else foreign_key_violation), db))
      /\ (forall intent t a school db e,
            fault s InsertFailureLog = Some e ->
            rpc (process_payment_webhook s intent t a school) db = (Raised e, db)))
  /\ (auth_role s = None ->
      let service := mk_session (Some "service_role") (fault s) (lock_wait s) in
      (forall school key db,
          rpc (get_school_config s school key) db
          = rpc (get_school_config service school key) db)
      /\ (forall o p g school db,
            rpc (verify_razorpay_payment_signature s o p g school) db
            = rpc (verify_razorpay_payment_signature service o p g school) db)
      /\ (forall intent t a school db,
            rpc (process_payment_webhook s intent t a school) db
            = rpc (process_payment_webhook service intent t a school) db)).
Proof.
  split.
  - intros role Hrole Hne. apply String.eqb_neq in Hne.
    assert (Hguard : not_service_role (auth_role s) = true)
      by (rewrite Hrole; simpl; rewrite Hne; reflexivity).
    repeat split.
    + intros. unfold rpc, get_school_config. rewrite Hguard. reflexivity.
    + intros. unfold rpc, verify_razorpay_payment_signature. rewrite Hguard. reflexivity.
    + intros intent t a school db Hfault.
      unfold_sql. rewrite Hguard. simpl. rewrite Hfault. simpl.
      destruct (has_school db school); reflexivity.
    + intros intent t a school db e Hfault.
      unfold_sql. rewrite Hguard. simpl. rewrite Hfault. reflexivity.
  - intros Hnone service. subst service.
    destruct s as [role faults wait]. simpl in Hnone. subst role.
    repeat split.
Qed.

Lemma other_roles_are_refused_at_example :
  rpc (process_payment_webhook
         (mk_session (Some "authenticated") (fun _ => None) (fun d => d))
         20 "pay_ABC123XYZ" 4000000 Demo.school) Demo.db
  = (Raised "Access denied: Service role required", Demo.db)
  /\ exists pid db',
      rpc (process_payment_webhook (mk_session None (fun _ => None) (fun d => d))
             20 "pay_ABC123XYZ" 4000000 Demo.school) Demo.db
      = (Returned pid, db')
      /\ map amount_paid (student_fees db') = [Some 4000000%Z].
Proof. split; [|eexists _, _; split]; vm_compute; reflexivity. Qed.

(** X2. A transaction id that is already recorded is refused by the procedure
    itself, before it waits for any lock, and the database stays as it was. *)
Theorem recorded_transaction_is_refused s intent t a school db i :
  auth_role s = Some "service_role" ->
  (forall l, fault s l = None) ->
  find (fun i => Nat.eqb (pi_id i) intent && Nat.eqb (pi_school_id i) school)
       (payment_intents db) = Some i ->
  existsb (has_transaction t) (payments db) = true ->
  rpc (process_payment_webhook s intent t a school) db
  = (Raised ("Payment already processed: " ++ t), db).
Proof.
  intros Hrole Hfault Hi Hdup.
  destruct (existsb_find_some _ _ Hdup) as [p Hp].
  assert (Hschool : has_school db school = true).
  { pose proof (find_some _ _ Hi) as [Hin Hc].
    apply andb_prop in Hc. destruct Hc as [_ Hs]. apply Nat.eqb_eq in Hs.
    exact (has_school_intent db school i Hin Hs). }
  unfold_sql. rewrite Hrole, ?Hfault. simpl. rewrite ?Hfault.
  rewrite Hi. simpl. rewrite Hp. simpl. rewrite ?Hfault. simpl.
  rewrite Hschool. reflexivity.
Qed.

Lemma recorded_transaction_is_refused_witness :
  let db1 := Race.competitor Demo.db in
  rpc (process_payment_webhook service_session 20 "pay_ABC123XYZ" 4000000 Demo.school) db1
  = (Raised ("Payment already processed: " ++ "pay_ABC123XYZ"), db1).
Proof.
  apply (recorded_transaction_is_refused service_session 20 "pay_ABC123XYZ" 4000000
           Demo.school (Race.competitor Demo.db)
           (mk_intent 20 "order_DEF456UVW" 10 Demo.school 4000000 "INR" intent_paid
                      "rcpt_1" (Some "pay_ABC123XYZ") true));
    reflexivity.
Defined.

(** X3. A call for a school that does not own the intent is refused and
    writes nothing: the intent is looked up by id and school.  The caller
    sees "Payment intent not found or access denied" when the school of the
    call has a row; for an id that is no school's, the failure entry of the
    EXCEPTION block cannot be written and the caller sees the violation of
    the foreign key of the log instead. *)
Theorem foreign_school_is_refused intent t a school db :
  (forall i, In i (payment_intents db) -> pi_id i = intent -> pi_school_id i <> school) ->
  rpc (process_payment_webhook service_session intent t a school) db
  = (Raised (if has_school db school
             then "Payment intent not found or access denied"
             else foreign_key_violation), db).
Proof.
  intros Hforeign.
  assert (Hi : find (fun i => Nat.eqb (pi_id i) intent && Nat.eqb (pi_school_id i) school)
                    (payment_intents db) = None).
  { destruct (find _ _) as [i|] eqn:Hf; [|reflexivity].
    apply find_some in Hf. destruct Hf as [Hin Hc].
    apply andb_prop in Hc. destruct Hc as [H1 H2].
    apply Nat.eqb_eq in H1, H2. exfalso. exact (Hforeign i Hin H1 H2). }
  unfold_sql. rewrite Hi. simpl.
  destruct (has_school db school); reflexivity.
Qed.

Lemma foreign_school_is_refused_witness :
  let db := mk_db Demo.configurations [Demo.intent] [Demo.fee] [] [] [Demo.school; 2] in
  rpc (process_payment_webhook service_session 20 "pay_ABC123XYZ" 4000000 2) db
  = (Raised "Payment intent not found or access denied", db).
Proof.
  apply (foreign_school_is_refused 20 "pay_ABC123XYZ" 4000000 2
           (mk_db Demo.configurations [Demo.intent] [Demo.fee] [] [] [Demo.school; 2])).
  simpl. intros i [<-|[]] _. simpl. discriminate.
Defined.

(** X4. The fee of another school is out of reach in the same way, even when
    the intent belongs to the caller's school. *)
Theorem foreign_fee_is_refused intent t a school db i :
  find (fun i => Nat.eqb (pi_id i) intent && Nat.eqb (pi_school_id i) school)
       (payment_intents db) = Some i ->
  existsb (has_transaction t) (payments db) = false ->
  (forall f, In f (student_fees db) -> sf_id f = pi_student_fee_id i ->
             sf_school_id f <> school) ->
  rpc (process_payment_webhook service_session intent t a school) db
  = (Raised "Student fee not found or access denied", db).
Proof.
  intros Hi Hdup Hforeign.
  assert (Hp : find (has_transaction t) (payments db) = None).
  { destruct (find (has_transaction t) (payments db)) eqn:Hf; [|reflexivity].
    apply find_some in Hf. destruct Hf as [Hin Ht].
    assert (existsb (has_transaction t) (payments db) = true)
      by (apply existsb_exists; eauto).
    congruence. }
  assert (Hf : find (fun f => Nat.eqb (sf_id f) (pi_student_fee_id i)
                              && Nat.eqb (sf_school_id f) school)
                    (student_fees db) = None).
  { destruct (find _ (student_fees db)) as [f|] eqn:Hf; [|reflexivity].
    apply find_some in Hf. destruct Hf as [Hin Hc].
    apply andb_prop in Hc. destruct Hc as [H1 H2].
    apply Nat.eqb_eq in H1, H2. exfalso. exact (Hforeign f Hin H1 H2). }
  assert (Hschool : has_school db school = true).
  { pose proof (find_some _ _ Hi) as [Hin Hc].
    apply andb_prop in Hc. destruct Hc as [_ Hs]. apply Nat.eqb_eq in Hs.
    exact (has_school_intent db school i Hin Hs). }
  unfold_sql. rewrite Hi. simpl. rewrite Hp. simpl. rewrite Hf. simpl.
  rewrite Hschool. reflexivity.
Qed.

Lemma foreign_fee_is_refused_witness :
  let db := mk_db Demo.configurations [Demo.intent]
                  [mk_fee 10 5 2 7 8200000 (Some 0%Z) unpaid] [] [] [Demo.school; 2] in
  rpc (process_payment_webhook service_session 20 "pay_ABC123XYZ" 4000000 Demo.school) db
  = (Raised "Student fee not found or access denied", db).
Proof.
  apply (foreign_fee_is_refused 20 "pay_ABC123XYZ" 4000000 Demo.school
           (mk_db Demo.configurations [Demo.intent]
                  [mk_fee 10 5 2 7 8200000 (Some 0%Z) unpaid] [] [] [Demo.school; 2])
           Demo.intent); try reflexivity.
  simpl. intros f [<-|[]] _. simpl. discriminate.
Defined.

(** X5. Whatever the amount, the procedure writes the sum without clamping it
    to the total due, and the status it writes is the one that sum calls
    for: paid from the total due upwards, partially paid strictly between
    zero and the total due, unpaid otherwise. *)
Theorem status_matches_amount_for_every_amount intent t a school db i fee cur :
  find (fun i => Nat.eqb (pi_id i) intent && Nat.eqb (pi_school_id i) school)
       (payment_intents db) = Some i ->
  existsb (has_transaction t) (payments db) = false ->
  find (fun f => Nat.eqb (sf_id f) (pi_student_fee_id i)
                 && Nat.eqb (sf_school_id f) school)
       (student_fees db) = Some fee ->
  amount_paid fee = Some cur ->
  (Z.abs (cur + a) < 10000000000)%Z ->
  (Z.abs a < 10000000000)%Z ->
  exists pid db' fee',
    rpc (process_payment_webhook service_session intent t a school) db
    = (Returned pid, db')
    /\ find (fun f => Nat.eqb (sf_id f) (pi_student_fee_id i)
                      && Nat.eqb (sf_school_id f) school)
            (student_fees db') = Some fee'
    /\ total_due fee' = total_due fee
    /\ amount_paid fee' = Some (cur + a)%Z
    /\ (sf_status fee' = paid <-> (total_due fee <= cur + a)%Z)
    /\ (sf_status fee' = partially_paid <-> (0 < cur + a < total_due fee)%Z)
    /\ (sf_status fee' = unpaid <-> (cur + a <= 0 /\ cur + a < total_due fee)%Z).
Proof.
  intros Hi Hdup Hfee Hcur Hsum Ha.
  eexists _, _, _. split.
  - exact (process_payment_webhook_applies _ _ _ _ _ _ _ _ Hi Hdup Hfee Hcur Hsum Ha).
  - split; [apply find_fee_committed; exact Hfee|]. simpl.
    unfold new_status.
    destruct (Z.leb_spec (total_due fee) (cur + a));
      [|destruct (Z.ltb_spec 0 (cur + a))];
      repeat split; intros; try discriminate; try reflexivity; lia.
Qed.

Lemma status_matches_amount_for_every_amount_witness :
  exists pid db' fee',
    rpc (process_payment_webhook service_session 20 "pay_ABC123XYZ" 9000000 Demo.school)
        Demo.db = (Returned pid, db')
    /\ find (fun f => Nat.eqb (sf_id f) 10 && Nat.eqb (sf_school_id f) Demo.school)
            (student_fees db') = Some fee'
    /\ total_due fee' = 8200000%Z
    /\ amount_paid fee' = Some (0 + 9000000)%Z
    /\ (sf_status fee' = paid <-> (8200000 <= 0 + 9000000)%Z)
    /\ (sf_status fee' = partially_paid <-> (0 < 0 + 9000000 < 8200000)%Z)
    /\ (sf_status fee' = unpaid <-> (0 + 9000000 <= 0 /\ 0 + 9000000 < 8200000)%Z).
Proof.
  apply (status_matches_amount_for_every_amount 20 "pay_ABC123XYZ" 9000000 Demo.school
           Demo.db Demo.intent Demo.fee 0);
    try reflexivity; simpl; lia.
Defined.

(** ** The unique index under the procedure *)

Lemma recorded_transactions_app (l l' : list payment) :
  recorded_transactions (l ++ l') = (recorded_transactions l ++ recorded_transactions l')%list.
Proof. unfold recorded_transactions. apply flat_map_app. Qed.

Lemma recorded_has_transaction (t : TEXT) (ps : list payment) :
  In t (recorded_transactions ps) <-> existsb (has_transaction t) ps = true.
Proof.
  unfold recorded_transactions. rewrite in_flat_map, existsb_exists.
  split; intros [p [Hin H]]; exists p; split; auto; unfold has_transaction in *;
    destruct (transaction_id p) as [t'|]; simpl in *; try tauto; try discriminate.
  - destruct H as [->|[]]. apply String.eqb_refl.
  - apply String.eqb_eq in H. auto.
Qed.

Lemma unique_transactions_insert (t : TEXT) (ps : list payment) (p : payment) :
  NoDup (recorded_transactions ps) ->
  existsb (has_transaction t) ps = false ->
  transaction_id p = Some t ->
  NoDup (recorded_transactions (ps ++ [p])).
Proof.
  intros Hu Hnew Ht. rewrite recorded_transactions_app.
  unfold recorded_transactions at 2. simpl. rewrite Ht. simpl.
  apply NoDup_app; [exact Hu | repeat constructor; auto | ].
  intros x Hx [<-|[]]. apply recorded_has_transaction in Hx. congruence.
Qed.

(** Whatever the role, the failures of the store and the commits of other
    transactions during the wait for the row lock, a call of the procedure
    leaves no two payment records with the same transaction id: the check
    of the procedure runs before the lock, the unique index refuses what
    the check let through. *)
Lemma process_payment_webhook_unique s intent t a school db :
  unique_transactions db ->
  unique_transactions (lock_wait s db) ->
  unique_transactions (snd (rpc (process_payment_webhook s intent t a school) db)).
Proof.
  intros Hdb Hwait.
  destruct (rpc (process_payment_webhook s intent t a school) db) as [[pid|m] db'] eqn:Hrpc.
  - apply process_payment_webhook_returned in Hrpc.
    destruct Hrpc as (i & fee & cur & _ & _ & _ & _ & _ & _ & Hnew & _ & ->).
    unfold unique_transactions, committed. simpl.
    apply (unique_transactions_insert t); auto.
  - apply process_payment_webhook_raised in Hrpc. simpl.
    destruct Hrpc as [->| ->]; assumption.
Qed.

(** ** Captures one after another *)

Lemma find_intent_committed db1 fee_id school intent t a v due i :
  find (fun i => Nat.eqb (pi_id i) intent && Nat.eqb (pi_school_id i) school)
       (payment_intents db1) = Some i ->
  find (fun i => Nat.eqb (pi_id i) intent && Nat.eqb (pi_school_id i) school)
       (payment_intents (committed db1 fee_id school intent t a v due))
  = Some (mk_intent (pi_id i) (razorpay_order_id i) (pi_student_fee_id i)
                    (pi_school_id i) (pi_amount i) (currency i) intent_paid
                    (receipt i) (Some t) true).
Proof.
  intros Hi. unfold committed; simpl.
  refine (find_update_where _ _ _ _ i _ _ Hi); [reflexivity|].
  intros x Hx. apply andb_prop in Hx. tauto.
Qed.

(** X6. The procedure does not look at the status of the intent: a second
    capture against the same intent, under another transaction id, is
    applied like the first, and the fee record then holds both amounts. *)
Theorem distinct_captures_add_up intent t1 t2 a1 a2 school db i fee cur :
  find (fun i => Nat.eqb (pi_id i) intent && Nat.eqb (pi_school_id i) school)
       (payment_intents db) = Some i ->
  existsb (has_transaction t1) (payments db) = false ->
  existsb (has_transaction t2) (payments db) = false ->
  t1 <> t2 ->
  find (fun f => Nat.eqb (sf_id f) (pi_student_fee_id i)
                 && Nat.eqb (sf_school_id f) school)
       (student_fees db) = Some fee ->
  amount_paid fee = Some cur ->
  (Z.abs a1 < 10000000000)%Z -> (Z.abs (cur + a1) < 10000000000)%Z ->
  (Z.abs a2 < 10000000000)%Z -> (Z.abs (cur + a1 + a2) < 10000000000)%Z ->
  let db1 := snd (rpc (process_payment_webhook service_session intent t1 a1 school) db) in
  exists pid2 db2 fee',
    rpc (process_payment_webhook service_session intent t2 a2 school) db1
    = (Returned pid2, db2)
    /\ find (fun f => Nat.eqb (sf_id f) (pi_student_fee_id i)
                      && Nat.eqb (sf_school_id f) school)
            (student_fees db2) = Some fee'
    /\ amount_paid fee' = Some (cur + a1 + a2)%Z
    /\ sf_status fee' = new_status (cur + a1 + a2) (total_due fee)
    /\ List.length (payments db2) = 2 + List.length (payments db)
    /\ List.length (filter (has_transaction t1) (payments db2)) = 1
    /\ List.length (filter (has_transaction t2) (payments db2)) = 1.
Proof.
  intros Hi Hn1 Hn2 Hne Hfee Hcur Ha1 Hs1 Ha2 Hs2 db1.
  pose proof (process_payment_webhook_applies _ _ _ _ _ _ _ _ Hi Hn1 Hfee Hcur Hs1 Ha1) as H1.
  subst db1. rewrite H1. simpl.
  pose proof (find_intent_committed db (pi_student_fee_id i) school intent t1 a1
                (cur + a1) (total_due fee) i Hi) as Hi1.
  pose proof (find_fee_committed db (pi_student_fee_id i) school intent t1 a1
                (cur + a1) (total_due fee) fee Hfee) as Hfee1.
  assert (Hne' : String.eqb t1 t2 = false) by (apply String.eqb_neq; exact Hne).
  assert (Hne'' : String.eqb t2 t1 = false) by (apply String.eqb_neq; congruence).
  assert (Hn21 : existsb (has_transaction t2)
                   (payments (committed db (pi_student_fee_id i) school intent t1 a1
                                (cur + a1) (total_due fee))) = false).
  { unfold committed; simpl. rewrite existsb_app, Hn2. simpl.
    unfold has_transaction; simpl. rewrite Hne'. reflexivity. }
  pose proof (process_payment_webhook_applies intent t2 a2 school _ _ _ (cur + a1)%Z
                Hi1 Hn21 Hfee1 eq_refl Hs2 Ha2) as H2.
  simpl in H2.
  eexists _, _, _. split; [exact H2|].
  split; [apply find_fee_committed; exact Hfee1|]. simpl.
  repeat split.
  - rewrite !length_app. simpl. lia.
  - rewrite !filter_app. simpl. unfold has_transaction at 2 3. simpl.
    rewrite String.eqb_refl, Hne''.
    rewrite (existsb_false_filter _ _ Hn1).
    reflexivity.
  - rewrite !filter_app. simpl. unfold has_transaction at 2 3. simpl.
    rewrite String.eqb_refl, Hne'.
    rewrite (existsb_false_filter _ _ Hn2).
    reflexivity.
Qed.

Lemma distinct_captures_add_up_witness :
  exists pid2 db2 fee',
    rpc (process_payment_webhook service_session 20 "pay_SECOND" 4200000 Demo.school)
        (snd (rpc (process_payment_webhook service_session 20 "pay_ABC123XYZ" 4000000
                     Demo.school) Demo.db))
    = (Returned pid2, db2)
    /\ find (fun f => Nat.eqb (sf_id f) 10 && Nat.eqb (sf_school_id f) Demo.school)
            (student_fees db2) = Some fee'
    /\ amount_paid fee' = Some (0 + 4000000 + 4200000)%Z
    /\ sf_status fee' = new_status (0 + 4000000 + 4200000) 8200000
    /\ List.length (payments db2) = 2 + 0
    /\ List.length (filter (has_transaction "pay_ABC123XYZ") (payments db2)) = 1
    /\ List.length (filter (has_transaction "pay_SECOND") (payments db2)) = 1.
Proof.
  apply (distinct_captures_add_up 20 "pay_ABC123XYZ" "pay_SECOND" 4000000 4200000
           Demo.school Demo.db Demo.intent Demo.fee 0);
    try reflexivity; try (simpl; lia).
  discriminate.
Defined.

(** ** The signature helper of the database *)

(** X7. [verify_razorpay_payment_signature] never reads the order, the payment
    or the signature it is given: its answer is the same for all of them,
    it never answers FALSE, and for the service role it answers TRUE
    exactly when [get_school_config] yields a webhook secret for the
    school. *)
Theorem signature_helper_checks_no_signature s o p g school db :
  (forall o' p' g',
      rpc (verify_razorpay_payment_signature s o' p' g' school) db
      = rpc (verify_razorpay_payment_signature s o p g school) db)
  /\ (forall b db',
        rpc (verify_razorpay_payment_signature s o p g school) db = (Returned b, db') ->
        b = true /\ db' = db)
  /\ (rpc (verify_razorpay_payment_signature s o p g school) db = (Returned true, db)
      <-> exists secret,
          rpc (get_school_config s school "razorpay_webhook_secret") db
          = (Returned (Some secret), db)).
Proof.
  split; [reflexivity|].
  unfold verify_razorpay_payment_signature, get_school_config, rpc, bind, query, raise,
    ret, lift; simpl.
  destruct (not_service_role (auth_role s)); simpl.
  { split; [intros b db' H; discriminate|].
    split; [discriminate | intros [x H]; discriminate]. }
  destruct (find _ (school_configurations db)) as [sc|] eqn:Hsc; simpl.
  - apply find_some in Hsc. destruct Hsc as [_ Hk].
    apply andb_prop in Hk. destruct Hk as [_ Hk]. apply String.eqb_eq in Hk.
    unfold sensitive_key. rewrite Hk. simpl.
    destruct (decrypt_config_value (config_value sc)) as [v|e]; simpl.
    + split; [intros b db' H; inversion H; auto|].
      split; [intros _; exists v; reflexivity | reflexivity].
    + split; [intros b db' H; discriminate|].
      split; [discriminate | intros [x H]; discriminate].
  - split; [intros b db' H; discriminate|].
    split; [discriminate | intros [x H]; discriminate].
Qed.

(** ** The digest in hexadecimal *)

Lemma below_16 (P : N -> Prop) :
  P 0%N -> P 1%N -> P 2%N -> P 3%N -> P 4%N -> P 5%N -> P 6%N -> P 7%N ->
  P 8%N -> P 9%N -> P 10%N -> P 11%N -> P 12%N -> P 13%N -> P 14%N -> P 15%N ->
  forall k, (k < 16)%N -> P k.
Proof.
  intros H0 H1 H2 H3 H4 H5 H6 H7 H8 H9 H10 H11 H12 H13 H14 H15 k Hk.
  destruct k as [|p]; [exact H0|].
  destruct p as [p|p|]; [| |exact H1];
    (destruct p as [p|p|]; [| |assumption]);
    (destruct p as [p|p|]; [| |assumption]);
    (destruct p as [p|p|]; [| |assumption]);
    exfalso; lia.
Qed.

Lemma hex_digit_injective (m n : N) :
  (m < 16)%N -> (n < 16)%N -> hex_digit m = hex_digit n -> m = n.
Proof.
  intros Hm Hn H.
  assert (Hc : forall k, (k < 16)%N ->
                 k = (let a := N_of_ascii (hex_digit k) in
                      if a <? 58 then a - 48 else a - 87)%N)
    by (apply below_16; reflexivity).
  rewrite (Hc m Hm), (Hc n Hn), H. reflexivity.
Qed.

Lemma hex_encode_cons (b : byte) (bs : list byte) :
  hex_encode (b :: bs)
  = String (hex_digit (Byte.to_N b / 16))
           (String (hex_digit (Byte.to_N b mod 16)) (hex_encode bs)).
Proof. unfold hex_encode. destruct bs; reflexivity. Qed.

Lemma hex_byte_injective (b b' : byte) :
  hex_digit (Byte.to_N b / 16) = hex_digit (Byte.to_N b' / 16) ->
  hex_digit (Byte.to_N b mod 16) = hex_digit (Byte.to_N b' mod 16) ->
  b = b'.
Proof.
  intros Hhi Hlo.
  pose proof (Byte.to_N_bounded b) as Hb. pose proof (Byte.to_N_bounded b') as Hb'.
  apply hex_digit_injective in Hhi;
    [|apply N.Div0.div_lt_upper_bound; lia | apply N.Div0.div_lt_upper_bound; lia].
  apply hex_digit_injective in Hlo; [|apply N.mod_lt; lia | apply N.mod_lt; lia].
  assert (Heq : Byte.to_N b = Byte.to_N b').
  { rewrite (N.div_mod (Byte.to_N b) 16), (N.div_mod (Byte.to_N b') 16) by lia.
    rewrite Hhi, Hlo. reflexivity. }
  pose proof (Byte.of_to_N b) as H1. rewrite Heq, Byte.of_to_N in H1. congruence.
Qed.

Lemma hex_digit_lower (n : N) :
  In (hex_digit n) (list_ascii_of_string "0123456789abcdef").
Proof.
  destruct (N.lt_ge_cases n 16) as [Hlt|Hge].
  - revert n Hlt. apply below_16; simpl; tauto.
  - assert (hex_digit n = "f"%char) as ->.
    { destruct n as [|p]; [lia|].
      do 4 (destruct p as [p|p|]; try lia); reflexivity. }
    simpl. tauto.
Qed.

(** X10. The hexadecimal text the verifier compares with the signature header
    is a faithful image of the digest: two digests have the same text only
    when they are the same bytes, the text has two characters for each
    byte, and all of them are decimal digits or lower-case letters from a
    to f (so a signature sent in upper case is never accepted). *)
Theorem hex_encode_faithful :
  (forall d d', hex_encode d = hex_encode d' <-> d = d')
  /\ (forall d, String.length (hex_encode d) = 2 * List.length d)
  /\ (forall d c, In c (list_ascii_of_string (hex_encode d)) ->
                  In c (list_ascii_of_string "0123456789abcdef")).
Proof.
  split; [|split].
  - intros d d'. split; [|intros ->; reflexivity].
    revert d'. induction d as [|b bs IH]; intros [|b' bs'] H.
    + reflexivity.
    + rewrite hex_encode_cons in H. discriminate.
    + rewrite hex_encode_cons in H. discriminate.
    + rewrite !hex_encode_cons in H. injection H as Hhi Hlo Hrest.
      rewrite (hex_byte_injective b b' Hhi Hlo), (IH bs' Hrest). reflexivity.
  - induction d as [|b bs IH]; [reflexivity|].
    rewrite hex_encode_cons. cbn [String.length List.length]. rewrite IH. lia.
  - induction d as [|b bs IH]; intros c Hc; [destruct Hc|].
    rewrite hex_encode_cons in Hc. cbn [list_ascii_of_string] in Hc.
    destruct Hc as [<-|[<-|Hc]]; [apply hex_digit_lower | apply hex_digit_lower | auto].
Qed.

(** ** The verifier against its description *)

Lemma hexadecimal_value_hex_digit (n : N) :
  (n < 16)%N -> hexadecimal_value (hex_digit n) = Some n.
Proof. revert n. apply below_16; reflexivity. Qed.

Lemma hexadecimal_value_inv (c : ascii) (n : N) :
  hexadecimal_value c = Some n -> (n < 16)%N /\ hex_digit n = c.
Proof.
  destruct c as [[] [] [] [] [] [] [] []]; vm_compute; intros H;
    try discriminate H; injection H as <-; split; reflexivity.
Qed.

(** [hex_encode] writes exactly the text that reads as the digest. *)
Lemma hex_encode_reads_back (digest : list byte) (t : TEXT) :
  hex_encode digest = t <-> digest_of_lowercase_hex t = Some digest.
Proof.
  split.
  - intros <-. induction digest as [|b bs IH]; [reflexivity|].
    rewrite hex_encode_cons. cbn [digest_of_lowercase_hex].
    pose proof (Byte.to_N_bounded b) as Hb.
    rewrite !hexadecimal_value_hex_digit
      by (try apply N.mod_lt; try apply N.Div0.div_lt_upper_bound; lia).
    rewrite IH.
    replace (Byte.to_N b / 16 * 16 + Byte.to_N b mod 16)%N with (Byte.to_N b)
      by (rewrite N.mul_comm; apply N.div_mod; lia).
    rewrite Byte.of_to_N. reflexivity.
  - revert t. induction digest as [|b bs IH]; intros t H.
    + destruct t as [|hi [|lo rest]]; [reflexivity | discriminate H |].
      cbn [digest_of_lowercase_hex] in H.
      destruct (hexadecimal_value hi), (hexadecimal_value lo),
        (digest_of_lowercase_hex rest); try discriminate H.
      destruct (Byte.of_N _); discriminate H.
    + destruct t as [|hi [|lo rest]]; [discriminate H | discriminate H |].
      cbn [digest_of_lowercase_hex] in H.
      destruct (hexadecimal_value hi) as [h|] eqn:Hh; [|discriminate H].
      destruct (hexadecimal_value lo) as [l|] eqn:Hl; [|discriminate H].
      destruct (digest_of_lowercase_hex rest) as [d|] eqn:Hr; [|discriminate H].
      destruct (Byte.of_N (h * 16 + l)) as [b'|] eqn:Hb; [|discriminate H].
      injection H as -> ->.
      apply hexadecimal_value_inv in Hh, Hl.
      destruct Hh as [Hh <-]. destruct Hl as [Hl <-].
      apply Byte.to_of_N in Hb.
      rewrite hex_encode_cons, (IH rest Hr), Hb.
      replace ((h * 16 + l) / 16)%N with h
        by (apply N.div_unique with l; lia).
      replace ((h * 16 + l) mod 16)%N with l
        by (apply N.mod_unique with h; lia).
      reflexivity.
Qed.

Section Verifier.

Variable JSON_parse : TEXT -> parsed RazorpayWebhookPayload.
Variable CryptoKey : Type.
Variable importKey : TEXT -> list byte -> algorithm -> option CryptoKey.
Variable sign : TEXT -> CryptoKey -> list byte -> option (list byte).
Variable rupees : Z -> NUMERIC.

Let verify := verifyWebhookSignature CryptoKey importKey sign.
Let handle := handleWebhook JSON_parse CryptoKey importKey sign rupees.

(** C8. The verifier answers [true] exactly when the runtime, asked for an
    HMAC with SHA-256 keyed by the bytes of the secret over the bytes of
    the payload, byte for byte, yields a digest and the presented signature
    reads as that digest in lower-case hexadecimal.  In every other case,
    a rejection by the runtime included, it answers [false]: nothing it
    does reaches the handler as an exception, and the handler answers a
    [false] with "Invalid webhook signature" whatever its cause.  The
    handler hands the verifier the text of the request as received, with
    the signature of the request header. *)
Theorem verifier_signs_raw_body_and_never_throws :
  (forall payload signature secret,
      verify payload signature secret = true
      <-> exists key digest,
          importKey "raw" (list_byte_of_string secret) (mk_algorithm "HMAC" "SHA-256")
          = Some key
          /\ sign "HMAC" key (list_byte_of_string payload) = Some digest
          /\ digest_of_lowercase_hex signature = Some digest)
  /\ (forall payload signature secret,
        verifyWebhookSignature_try CryptoKey importKey sign payload signature secret
        = None ->
        verify payload signature secret = false)
  /\ (forall s wl req db payload signature secret,
        In (Verify payload signature secret) (calls (handle s wl req db)) ->
        payload = text req
        /\ x_razorpay_signature req = Some signature
        /\ (verify payload signature secret = false ->
            response (handle s wl req db)
            = errorResponse "Invalid webhook signature" 400))
  /\ (forall s wl req db msg,
        response (handle s wl req db)
        = errorResponse ("Webhook processing failed: " ++ msg) 500 ->
        calls (handle s wl req db) = []).
Proof.
  split; [|split; [|split]].
  - intros payload signature secret.
    unfold verify, verifyWebhookSignature, verifyWebhookSignature_try, TextEncoder_encode.
    split.
    + destruct (importKey _ _ _) as [key|] eqn:Hk; [|discriminate].
      destruct (sign _ key _) as [digest|] eqn:Hd; [|discriminate].
      intros H. apply String.eqb_eq in H. exists key, digest.
      split; [reflexivity|]. split; [exact Hd|].
      apply hex_encode_reads_back. exact H.
    + intros (key & digest & Hk & Hd & Hh).
      rewrite Hk, Hd. apply String.eqb_eq. apply hex_encode_reads_back. exact Hh.
  - intros payload signature secret H.
    unfold verify, verifyWebhookSignature. rewrite H. reflexivity.
  - intros s wl req db payload signature secret.
    unfold handle, handleWebhook, webhook_thrown.
    destruct (JSON_parse (text req)) as [msg| |payload']; cbn [calls];
      [intros [] | |].
    { destruct (negb _); cbn [calls]; intros []. }
    destruct (x_razorpay_signature req) as [g|]; cbn [truthy negb calls];
      [|intros []].
    destruct (String.eqb g ""); cbn [negb calls]; [intros []|].
    destruct (extract_order payload') as [msg| |payment o]; cbn [calls];
      [intros [] | intros [] |].
    destruct (single _) as [intent|]; cbn [calls]; [|intros []].
    destruct (webhook_secret s (pi_school_id intent) db) as [secret'|]; cbn [calls];
      [|intros [H|[]]; discriminate H].
    fold verify.
    destruct (verify (text req) g secret') eqn:Hv; cbn [negb calls response].
    + rewrite (reconcile_calls rupees).
      intros [H|[H|[]]]; [discriminate H|].
      injection H as <- <- <-.
      split; [reflexivity|]. split; [reflexivity|]. congruence.
    + intros [H|[H|[]]]; [discriminate H|].
      injection H as <- <- <-. auto.
  - intros s wl req db msg.
    unfold handle, handleWebhook, webhook_thrown.
    destruct (JSON_parse (text req)) as [msg'| |payload']; cbn [calls response];
      [reflexivity | |].
    { destruct (negb _); reflexivity. }
    destruct (x_razorpay_signature req) as [g|]; cbn [truthy negb calls response];
      [|reflexivity].
    destruct (String.eqb g ""); cbn [negb calls response]; [reflexivity|].
    destruct (extract_order payload') as [msg'| |payment o]; cbn [calls response];
      [reflexivity | reflexivity |].
    destruct (single _) as [intent|]; cbn [calls response]; [|reflexivity].
    destruct (webhook_secret s (pi_school_id intent) db) as [secret'|];
      cbn [calls response]; [|intros H; discriminate H].
    destruct (verifyWebhookSignature _ _ _ _ _ _); cbn [negb calls response];
      [|intros H; discriminate H].
    unfold reconcile.
    repeat (break_match; cbn [response]; try (intros H; discriminate H)).
Qed.

End Verifier.

(** * The amount that is credited *)

Module Conversion.

Import Reals Lra SpecFloat FloatOps Binary64.
Local Open Scope R_scope.

Lemma bpow_gt_0 e : 0 < bpow e.
Proof. apply powerRZ_lt. lra. Qed.

Lemma bpow_add a b : bpow (a + b) = bpow a * bpow b.
Proof. apply powerRZ_add. lra. Qed.

Lemma bpow_IZR k : (0 <= k)%Z -> bpow k = IZR (2 ^ k).
Proof.
  intros H. unfold bpow. rewrite <- (Z2Nat.id k H).
  rewrite <- pow_powerRZ, pow_IZR. reflexivity.
Qed.

Lemma bpow_le a b : (a <= b)%Z -> bpow a <= bpow b.
Proof.
  intros H. replace b with (a + (b - a))%Z by lia. rewrite bpow_add.
  rewrite (bpow_IZR (b - a)) by lia.
  assert (H1 : (1 <= 2 ^ (b - a))%Z) by (apply Z.lt_pred_le, Z.pow_pos_nonneg; lia).
  apply IZR_le in H1. pose proof (bpow_gt_0 a). nra.
Qed.

Lemma bpow_succ a : bpow (a + 1) = 2 * bpow a.
Proof. rewrite bpow_add. unfold bpow at 2. simpl. lra. Qed.


Lemma bpow_le_inv a b : bpow a <= bpow b -> (a <= b)%Z.
Proof.
  intros H. destruct (Z_le_gt_dec a b) as [Hle|Hgt]; [exact Hle|].
  assert (H1 : (b + 1 <= a)%Z) by lia. apply bpow_le in H1.
  rewrite bpow_succ in H1. pose proof (bpow_gt_0 b). lra.
Qed.






































End Conversion.

(** The quotient itself is rounded: the double of 29 over 100 is not 0.29. *)
Remark quotient_is_rounded :
  FloatOps.Prim2SF (paise_to_rupees (js_integer 29))
  = SpecFloat.S754_finite false 5224175567749775 (-54)
  /\ (5224175567749775 * 100 <> 29 * 2 ^ 54)%Z.
Proof. split; [vm_compute; reflexivity | intros H; vm_compute in H; discriminate H]. Qed.

(** Texts read as the doubles next to them, at the ends of the format too. *)
Example texts_read_as_doubles :
  double_of_decimal (mk_decimal 1 (-1))
  = FloatOps.Prim2SF (PrimFloat.div (js_integer 1) (js_integer 10))
  /\ double_of_decimal (mk_decimal 28999999999999998 (-17))
     = FloatOps.Prim2SF (paise_to_rupees (js_integer 29))
  /\ double_of_decimal (mk_decimal 5 (-324)) = SpecFloat.S754_finite false 1 (-1074)
  /\ double_of_decimal (mk_decimal 2 (-324)) = SpecFloat.S754_zero false
  /\ double_of_decimal (mk_decimal 17976931348623157 292)
     = SpecFloat.S754_finite false 9007199254740991 971
  /\ double_of_decimal (mk_decimal 18 307) = SpecFloat.S754_infinity false
  /\ double_of_decimal (mk_decimal (-25) (-1))
     = SpecFloat.S754_finite true 5629499534213120 (-51).
Proof. repeat split; vm_compute; reflexivity. Qed.



(** * Further properties of the webhook handler *)

Lemma update_where_none {A} (c : A -> bool) (set : A -> A) (rows : list A) :
  (forall r, In r rows -> c r = false) -> update_where c set rows = rows.
Proof.
  intros H. unfold update_where. induction rows as [|r rs IH]; simpl; [reflexivity|].
  rewrite (H r) by (left; reflexivity). f_equal. apply IH.
  intros x Hx. apply H. right. exact Hx.
Qed.

Lemma fresh_id_matches_no_row (wl : UUID) (rows : list webhook_log) :
  ~ In wl (map wl_id rows) ->
  forall r, In r rows -> Nat.eqb (wl_id r) wl = false.
Proof.
  intros Hfresh r Hr. apply Nat.eqb_neq. intros <-.
  apply Hfresh. apply in_map. exact Hr.
Qed.

Lemma insert_webhook_log_fresh l db :
  ~ In (wl_id l) (map wl_id (webhook_logs db)) ->
  insert_webhook_log l db = with_webhook_logs db (webhook_logs db ++ [l]).
Proof.
  intros Hfresh. unfold insert_webhook_log.
  destruct (existsb _ (webhook_logs db)) eqn:E; [|reflexivity].
  apply existsb_exists in E. destruct E as (r & Hin & Heq).
  rewrite (fresh_id_matches_no_row _ _ Hfresh r Hin) in Heq. discriminate.
Qed.

(** The handler's entry, once marked, on top of the rows that were there. *)
Lemma update_webhook_log_entry wl st e db rows entry more :
  webhook_logs db = (rows ++ entry :: more)%list ->
  ~ In wl (map wl_id rows) ->
  wl_id entry = wl ->
  exists entry' more',
    webhook_logs (update_webhook_log wl st e db) = (rows ++ entry' :: more')%list
    /\ wl_status entry' = st
    /\ List.length more' = List.length more
    /\ (forall l, In l more' -> wl_status l = st \/ In l more).
Proof.
  intros Hlogs Hfresh Hid. unfold update_webhook_log; simpl. rewrite Hlogs.
  unfold update_where. rewrite map_app. fold (update_where (A:=webhook_log)).
  change (map (fun r => if Nat.eqb (wl_id r) wl then _ else r) rows)
    with (update_where (fun r => Nat.eqb (wl_id r) wl)
            (fun r => mk_log (wl_id r) (wl_school_id r) (webhook_event r)
                        (razorpay_signature r) (payload r) (signature_valid r) st
                        (match e with Some e => Some e | None => error_message r end))
            rows).
  rewrite (update_where_none _ _ rows (fresh_id_matches_no_row _ _ Hfresh)).
  simpl. rewrite Hid, Nat.eqb_refl.
  eexists _, _. split; [reflexivity|]. split; [reflexivity|].
  split; [apply length_map|].
  intros l Hl. apply in_map_iff in Hl. destruct Hl as (r & <- & Hr).
  destruct (Nat.eqb (wl_id r) wl); [left; reflexivity | right; exact Hr].
Qed.

Section WebhookOutcomes.

Variable JSON_parse : TEXT -> parsed RazorpayWebhookPayload.
Variable CryptoKey : Type.
Variable importKey : TEXT -> list byte -> algorithm -> option CryptoKey.
Variable sign : TEXT -> CryptoKey -> list byte -> option (list byte).
Variable rupees : Z -> NUMERIC.

Let verify := verifyWebhookSignature CryptoKey importKey sign.
Let handle := handleWebhook JSON_parse CryptoKey importKey sign rupees.
Let verified_by := verified_capture JSON_parse CryptoKey importKey sign.

(** A notification that does not reach the reconciliation is refused, and
    at most the audit log hears of it. *)
Lemma handleWebhook_unverified s wl req db :
  verified_by s req db = None ->
  ledger (final (handle s wl req db)) = ledger db
  /\ (status (response (handle s wl req db)) = 400
      \/ status (response (handle s wl req db)) = 500).
Proof.
  unfold verified_by, verified_capture, handle, handleWebhook.
  destruct (JSON_parse (text req)) as [msg| |payload]; simpl; auto.
  - destruct (negb _); simpl; auto.
  - destruct (x_razorpay_signature req) as [g|]; simpl; auto.
    destruct (String.eqb g ""); simpl; auto.
    destruct (extract_order payload) as [msg| |payment o]; simpl; auto.
    destruct (single _) as [intent|]; simpl; auto.
    destruct (webhook_secret s (pi_school_id intent) db) as [secret|]; simpl; auto.
    fold verify. destruct (verify (text req) g secret); simpl; [discriminate|].
    intros _. rewrite ledger_update_webhook_log, ledger_insert_webhook_log. auto.
Qed.

(** What the reconciliation answers, and when it touches the ledger. *)
Lemma reconcile_ledger role faults wl school payment db cs :
  let s := mk_session role faults (fun d => d) in
  let out := reconcile rupees s wl school payment db cs in
  (ledger (final out) = ledger db
   /\ In (response out)
         [already_processed; errorResponse "Payment intent not found" 400;
          errorResponse "Payment processing failed" 500])
  \/ exists pid,
      response out
      = successResponse
          (mk_data "Payment processed successfully" (Some (RecordId pid)) None).
Proof.
  intros s out. subst out. unfold reconcile.
  destruct (single (filter _ (payments db))); simpl.
  { left. split; [apply ledger_update_webhook_log | left; reflexivity]. }
  destruct (order_id payment) as [o|]; simpl;
    [|left; split; [apply ledger_update_webhook_log | right; left; reflexivity]].
  destruct (single (filter _ (payment_intents db))) as [intent|]; simpl;
    [|left; split; [apply ledger_update_webhook_log | right; left; reflexivity]].
  destruct (rpc _ db) as [[pid|m] db'] eqn:Hrpc; simpl.
  - right. exists pid. reflexivity.
  - left. apply process_payment_webhook_raised in Hrpc. simpl in Hrpc.
    assert (db' = db) as -> by tauto.
    split; [apply ledger_update_webhook_log | right; right; left; reflexivity].
Qed.

(** X11. Whatever the role of the caller and the failures of the store, the
    handler changes configurations, intents, fees and payments only when
    it answers "Payment processed successfully", which it does only for a
    notification that passed the verification; it answers 200 to no
    notification that did not, and every answer is a 200, a 400 or a
    500. *)
Theorem ledger_changes_only_with_a_processed_capture role faults wl req db :
  let s := mk_session role faults (fun d => d) in
  let out := handle s wl req db in
  (ledger (final out) = ledger db
   \/ exists v pid,
       verified_by s req db = Some v
       /\ response out
          = successResponse
              (mk_data "Payment processed successfully" (Some (RecordId pid)) None))
  /\ (status (response out) = 200 -> exists v, verified_by s req db = Some v)
  /\ In (status (response out)) [200; 400; 500].
Proof.
  intros s out. subst out.
  destruct (verified_by s req db) as [v|] eqn:Hv.
  - unfold handle, verified_by in *.
    rewrite (handleWebhook_verified _ _ _ _ rupees _ wl _ _ _ Hv).
    destruct (reconcile_ledger role faults wl (v_school v) (v_payment v)
                (insert_webhook_log (received_entry wl v) db)
                [VaultGet (v_school v) "razorpay_webhook_secret";
                 Verify (text req) (v_signature v) (v_secret v)])
      as [[Hl Hr]|[pid Hr]].
    + fold s in Hl, Hr.
      split; [left; rewrite Hl; apply ledger_insert_webhook_log|].
      split; [eauto|].
      destruct Hr as [<-|[<-|[<-|[]]]]; simpl; auto.
    + fold s in Hr.
      split; [right; exists v, pid; auto|].
      split; [eauto|]. rewrite Hr. simpl. auto.
  - destruct (handleWebhook_unverified s wl req db Hv) as [Hl Hs].
    split; [left; exact Hl|].
    split; [intros H200; destruct Hs as [Hs|Hs]; rewrite Hs in H200; discriminate|].
    destruct Hs as [-> | ->]; simpl; auto.
Qed.

(** The log after the reconciliation: the rows from before the
    notification, the entry of the handler, marked, and behind it the
    entry of the procedure when it committed. *)
Lemma reconcile_logs role faults wl school payment db cs rows entry :
  let s := mk_session role faults (fun d => d) in
  webhook_logs db = (rows ++ [entry])%list ->
  ~ In wl (map wl_id rows) ->
  wl_id entry = wl ->
  exists added,
    webhook_logs (final (reconcile rupees s wl school payment db cs))
    = (rows ++ added)%list
    /\ 1 <= List.length added <= 2
    /\ (forall l, In l added -> wl_status l <> received).
Proof.
  intros s Hlogs Hfresh Hid.
  assert (Hmark : forall st e,
             st <> received ->
             exists added,
               webhook_logs (update_webhook_log wl st e db) = (rows ++ added)%list
               /\ 1 <= List.length added <= 2
               /\ (forall l, In l added -> wl_status l <> received)).
  { intros st e Hst.
    destruct (update_webhook_log_entry wl st e db rows entry [] Hlogs Hfresh Hid)
      as (entry' & more' & Heq & Hs & Hlen & _).
    destruct more'; [|discriminate].
    exists [entry']. split; [exact Heq|]. split; [simpl; lia|].
    intros l [<-|[]]. congruence. }
  unfold reconcile.
  destruct (single (filter _ (payments db))); cbn [final];
    [apply Hmark; discriminate|].
  destruct (order_id payment) as [o|]; cbn [final]; [|apply Hmark; discriminate].
  destruct (single (filter _ (payment_intents db))) as [intent|]; cbn [final];
    [|apply Hmark; discriminate].
  destruct (rpc _ db) as [[pid|m] db'] eqn:Hrpc; cbn [final].
  - apply process_payment_webhook_returned in Hrpc.
    destruct Hrpc as (i & fee & cur & _ & _ & _ & _ & _ & _ & _ & _ & ->).
    cbn [lock_wait s].
    match goal with
    | |- context [update_webhook_log wl processed None ?d] =>
        destruct (update_webhook_log_entry wl processed None d rows entry
                    [mk_log (gen_random_uuid (map wl_id (webhook_logs db))) (Some school)
                       "payment.captured" None
                       (ProcessedPayment (id payment) (rupees (amount payment))
                          (pi_student_fee_id i))
                       (Some true) processed None])
          as (entry' & more' & Heq & Hs & Hlen & Hmore);
        [simpl; rewrite Hlogs, <- app_assoc; reflexivity | exact Hfresh | exact Hid |]
    end.
    exists (entry' :: more'). split; [exact Heq|].
    split; [simpl in *; lia|].
    intros l [<-|Hl]; [congruence|].
    destruct (Hmore l Hl) as [H|[<-|[]]]; [congruence | discriminate].
  - apply process_payment_webhook_raised in Hrpc. simpl in Hrpc.
    assert (db' = db) as -> by tauto.
    apply Hmark. discriminate.
Qed.

(** X12. With a log id no row carries yet, the handler only appends to the
    audit log: the rows from before are all there, unchanged and in
    place; it adds at most two rows and leaves none of them in the state
    [received]; and it adds a row exactly when it asked the vault, that
    is, when the order reference resolved to an intent. *)
Theorem audit_log_is_append_only role faults wl req db :
  let s := mk_session role faults (fun d => d) in
  let out := handle s wl req db in
  ~ In wl (map wl_id (webhook_logs db)) ->
  exists added,
    webhook_logs (final out) = (webhook_logs db ++ added)%list
    /\ List.length added <= 2
    /\ (forall l, In l added -> wl_status l <> received)
    /\ (added = [] <-> calls out = []).
Proof.
  intros s out Hfresh. subst out.
  assert (Hnone : forall r,
            exists added,
              webhook_logs (final (mk_outcome r db [])) = (webhook_logs db ++ added)%list
              /\ List.length added <= 2
              /\ (forall l, In l added -> wl_status l <> received)
              /\ (added = [] <-> calls (mk_outcome r db []) = [])).
  { intros r. exists []. simpl. rewrite app_nil_r.
    repeat split; auto; contradiction. }
  unfold handle, handleWebhook, webhook_thrown.
  destruct (JSON_parse (text req)) as [msg| |payload]; [apply Hnone | |].
  { destruct (negb _); apply Hnone. }
  destruct (x_razorpay_signature req) as [g|]; [|apply Hnone].
  cbn [truthy]. destruct (String.eqb g ""); cbn [negb]; [apply Hnone|].
  destruct (extract_order payload) as [msg| |payment o]; [apply Hnone | apply Hnone |].
  destruct (single _) as [intent|]; [|apply Hnone].
  destruct (webhook_secret s (pi_school_id intent) db) as [secret|].
  - rewrite insert_webhook_log_fresh by exact Hfresh.
    fold verify.
    destruct (verify (text req) g secret); cbn [negb].
    + match goal with
      | |- context [reconcile rupees s wl ?sc ?p ?d ?cs] =>
          destruct (reconcile_logs role faults wl sc p d cs (webhook_logs db)
                      (mk_log wl (Some sc) (event payload) (Some g)
                         (NotificationBody payload) (Some true) received None)
                      eq_refl Hfresh eq_refl)
            as (added & Heq & Hlen & Hst)
      end.
      fold s in Heq. exists added. split; [exact Heq|].
      split; [lia|]. split; [exact Hst|].
      rewrite reconcile_calls.
      split; [intros ->; simpl in Hlen; lia | discriminate].
    + cbn [final calls].
      match goal with
      | |- context [update_webhook_log wl failed ?e ?d] =>
          destruct (update_webhook_log_entry wl failed e d (webhook_logs db)
                      (mk_log wl (Some (pi_school_id intent)) (event payload) (Some g)
                         (NotificationBody payload) (Some false) received None)
                      [] eq_refl Hfresh eq_refl)
            as (entry' & more' & Heq & Hs & Hlen & _)
      end.
      destruct more'; [|discriminate].
      exists [entry']. split; [exact Heq|].
      split; [simpl; lia|].
      split; [intros l [<-|[]]; congruence|].
      split; discriminate.
  - cbn [final calls]. eexists [_]. split; [reflexivity|]. split; [simpl; lia|].
    split; [intros l [<-|[]]; discriminate|].
    split; discriminate.
Qed.

Lemma extract_order_Order payload payment o :
  extract_order payload = Order payment o ->
  event payload = "payment.captured" /\ order_id payment = Some o /\ o <> "".
Proof.
  unfold extract_order.
  destruct (String.eqb (event payload) "payment.captured") eqn:He; [|discriminate].
  apply String.eqb_eq in He.
  destruct (notification_payload payload) as [[p|]|]; try discriminate.
  destruct (order_id p) as [o'|] eqn:Ho; [|discriminate].
  destruct (String.eqb o' "") eqn:Hne; [discriminate|].
  intros [= <- <-]. apply String.eqb_neq in Hne. auto.
Qed.

(** What the verification stage established. *)
Lemma verified_capture_inv s req db v :
  verified_by s req db = Some v ->
  exists o intent,
    order_id (v_payment v) = Some o
    /\ single (filter (fun i => String.eqb (razorpay_order_id i) o) (payment_intents db))
       = Some intent
    /\ v_school v = pi_school_id intent
    /\ event (v_payload v) = "payment.captured"
    /\ webhook_secret s (v_school v) db = Some (v_secret v)
    /\ x_razorpay_signature req = Some (v_signature v)
    /\ verify (text req) (v_signature v) (v_secret v) = true.
Proof.
  unfold verified_by, verified_capture.
  destruct (JSON_parse (text req)) as [msg| |payload]; try discriminate.
  destruct (x_razorpay_signature req) as [g|]; [|discriminate].
  destruct (String.eqb g ""); [discriminate|].
  destruct (extract_order payload) as [msg| |payment o] eqn:He; try discriminate.
  destruct (single _) as [intent|] eqn:Hi; [|discriminate].
  destruct (webhook_secret s (pi_school_id intent) db) as [secret|] eqn:Hs; [|discriminate].
  fold verify. destruct (verify (text req) g secret) eqn:Hv; [|discriminate].
  intros [= <-]. simpl.
  apply extract_order_Order in He. destruct He as (He & Ho & _).
  exists o, intent. repeat split; auto.
Qed.

Lemma single_filter_In {A} (c : A -> bool) (l : list A) (x : A) :
  single (filter c l) = Some x -> In x l /\ c x = true.
Proof.
  intros H. apply filter_In. destruct (filter c l) as [|y [|z r]]; try discriminate.
  injection H as ->. left. reflexivity.
Qed.

(** Under the primary key, the row an id stands for is the row found. *)
Lemma find_by_primary_key (intent : payment_intent) (rows : list payment_intent) :
  NoDup (map pi_id rows) ->
  In intent rows ->
  find (fun i => Nat.eqb (pi_id i) (pi_id intent)
                 && Nat.eqb (pi_school_id i) (pi_school_id intent)) rows
  = Some intent.
Proof.
  induction rows as [|r rs IH]; simpl; [contradiction|].
  intros Hnd Hin. inversion Hnd as [|? ? Hnotin Hnd']; subst.
  destruct Hin as [->|Hin].
  - rewrite !Nat.eqb_refl. reflexivity.
  - destruct (Nat.eqb (pi_id r) (pi_id intent)) eqn:E; simpl; [|auto].
    apply Nat.eqb_eq in E. exfalso. apply Hnotin. rewrite E. apply in_map. exact Hin.
Qed.

(** X13. A verified capture whose transaction id is not recorded yet, for an
    intent with a fee of its school, is applied: the handler answers
    "Payment processed successfully", the fee holds the amount it held
    plus the captured amount, with the status that sum calls for, the
    intent is marked paid with the transaction id, and one webhook-verified
    payment record carries the transaction id and the captured amount. *)
Theorem verified_capture_is_applied wl req db v o intent fee cur :
  let t := id (v_payment v) in
  let a := rupees (amount (v_payment v)) in
  let out := handle service_session wl req db in
  verified_by service_session req db = Some v ->
  order_id (v_payment v) = Some o ->
  single (filter (fun i => String.eqb (razorpay_order_id i) o) (payment_intents db))
  = Some intent ->
  NoDup (map pi_id (payment_intents db)) ->
  existsb (has_transaction t) (payments db) = false ->
  find (fun f => Nat.eqb (sf_id f) (pi_student_fee_id intent)
                 && Nat.eqb (sf_school_id f) (pi_school_id intent))
       (student_fees db) = Some fee ->
  amount_paid fee = Some cur ->
  (Z.abs a < 10000000000)%Z ->
  (Z.abs (cur + a) < 10000000000)%Z ->
  exists pid fee' intent' p,
    response out
    = successResponse (mk_data "Payment processed successfully" (Some (RecordId pid)) None)
    /\ find (fun f => Nat.eqb (sf_id f) (pi_student_fee_id intent)
                      && Nat.eqb (sf_school_id f) (pi_school_id intent))
            (student_fees (final out)) = Some fee'
    /\ amount_paid fee' = Some (cur + a)%Z
    /\ sf_status fee' = new_status (cur + a) (total_due fee)
    /\ find (fun i => Nat.eqb (pi_id i) (pi_id intent)
                      && Nat.eqb (pi_school_id i) (pi_school_id intent))
            (payment_intents (final out)) = Some intent'
    /\ pi_status intent' = intent_paid
    /\ razorpay_payment_id intent' = Some t
    /\ filter (has_transaction t) (payments (final out)) = [p]
    /\ p_id p = pid /\ p_amount p = a /\ is_webhook_verified p = true
    /\ p_student_fee_id p = sf_id fee.
Proof.
  intros t a out Hv Ho Hint Hpk Hnew Hfee Hcur Ha Hsum. subst out.
  destruct (verified_capture_inv _ _ _ _ Hv)
    as (o' & intent0 & Ho' & Hint' & Hschool & _).
  rewrite Ho in Ho'. injection Ho' as <-. rewrite Hint in Hint'. injection Hint' as <-.
  unfold handle, verified_by in *.
  rewrite (handleWebhook_verified _ _ _ _ rupees _ wl _ _ _ Hv).
  set (db0 := insert_webhook_log (received_entry wl v) db).
  assert (Hl : ledger db0 = ledger db) by apply ledger_insert_webhook_log.
  unfold ledger in Hl. injection Hl as Hc0 Hi0 Hf0 Hp0.
  assert (Hfind : find (fun i => Nat.eqb (pi_id i) (pi_id intent)
                                 && Nat.eqb (pi_school_id i) (v_school v))
                       (payment_intents db0) = Some intent).
  { rewrite Hi0, Hschool. apply find_by_primary_key; [exact Hpk|].
    apply (single_filter_In _ _ _ Hint). }
  assert (Hfee0 : find (fun f => Nat.eqb (sf_id f) (pi_student_fee_id intent)
                                 && Nat.eqb (sf_school_id f) (v_school v))
                       (student_fees db0) = Some fee)
    by (rewrite Hf0, Hschool; exact Hfee).
  assert (Hnew0 : existsb (has_transaction t) (payments db0) = false)
    by (rewrite Hp0; exact Hnew).
  pose proof (process_payment_webhook_applies (pi_id intent) t a (v_school v) db0
                intent fee cur Hfind Hnew0 Hfee0 Hcur Hsum Ha) as Hrpc.
  assert (Hmiss : single (filter (has_transaction (id (v_payment v))) (payments db0)) = None)
    by (fold t; rewrite (existsb_false_filter _ _ Hnew0); reflexivity).
  assert (Hint0 : single (filter (fun i => String.eqb (razorpay_order_id i) o)
                                 (payment_intents db0)) = Some intent)
    by (rewrite Hi0; exact Hint).
  rewrite (reconcile_returned rupees service_session wl (v_school v) (v_payment v) db0 _
             o intent _ _ Hmiss Ho Hint0 Hrpc).
  cbn [response final].
  eexists _, _, _, _. split; [reflexivity|].
  split.
  { rewrite <- Hschool.
    apply (find_fee_committed db0 _ _ _ _ _ _ _ fee Hfee0). }
  split; [reflexivity|]. split; [reflexivity|].
  split.
  { rewrite <- Hschool.
    apply (find_intent_committed db0 _ _ _ _ _ _ _ intent Hfind). }
  split; [reflexivity|]. split; [reflexivity|].
  split.
  { unfold update_webhook_log, committed, with_webhook_logs. cbn [payments].
    rewrite filter_app, (existsb_false_filter _ _ Hnew0).
    cbn [filter app]. unfold has_transaction at 1. cbn [transaction_id].
    rewrite String.eqb_refl. reflexivity. }
  cbn [p_id p_amount is_webhook_verified p_student_fee_id]. repeat split; auto.
  apply find_some in Hfee. destruct Hfee as [_ Hc].
  apply andb_prop in Hc. destruct Hc as [Hid _]. apply Nat.eqb_eq in Hid. auto.
Qed.

End WebhookOutcomes.

Lemma audit_log_is_append_only_witness :
  let out := DemoRuntime.handle (mk_session (Some "service_role") lock_timeout (fun d => d)) 100
               Race.delivery Demo.db in
  exists added,
    webhook_logs (final out) = (webhook_logs Demo.db ++ added)%list
    /\ List.length added <= 2
    /\ (forall l, In l added -> wl_status l <> received)
    /\ (added = [] <-> calls out = []).
Proof.
  apply (audit_log_is_append_only DemoRuntime.JSON_parse DemoRuntime.CryptoKey
           DemoRuntime.importKey DemoRuntime.sign DemoRuntime.rupees
           (Some "service_role") lock_timeout 100 Race.delivery Demo.db).
  simpl. tauto.
Defined.

Lemma verified_capture_is_applied_witness :
  let out := DemoRuntime.handle service_session 100 Race.delivery Demo.db in
  exists pid fee' intent' p,
    response out
    = successResponse (mk_data "Payment processed successfully" (Some (RecordId pid)) None)
    /\ find (fun f => Nat.eqb (sf_id f) 10 && Nat.eqb (sf_school_id f) Demo.school)
            (student_fees (final out)) = Some fee'
    /\ amount_paid fee' = Some (0 + 4000000)%Z
    /\ sf_status fee' = new_status (0 + 4000000) 8200000
    /\ find (fun i => Nat.eqb (pi_id i) 20 && Nat.eqb (pi_school_id i) Demo.school)
            (payment_intents (final out)) = Some intent'
    /\ pi_status intent' = intent_paid
    /\ razorpay_payment_id intent' = Some "pay_ABC123XYZ"
    /\ filter (has_transaction "pay_ABC123XYZ") (payments (final out)) = [p]
    /\ p_id p = pid /\ p_amount p = 4000000%Z /\ is_webhook_verified p = true
    /\ p_student_fee_id p = 10.
Proof.
  apply (verified_capture_is_applied DemoRuntime.JSON_parse DemoRuntime.CryptoKey
           DemoRuntime.importKey DemoRuntime.sign DemoRuntime.rupees
           100 Race.delivery Demo.db
           (mk_verified DemoRuntime.capture_notification Demo.capture Demo.school
                        DemoRuntime.capture_signature Demo.webhook_secret_text)
           "order_DEF456UVW" Demo.intent Demo.fee 0).
  - vm_compute. reflexivity.
  - reflexivity.
  - reflexivity.
  - simpl. repeat constructor. simpl. tauto.
  - reflexivity.
  - reflexivity.
  - reflexivity.
  - simpl. unfold DemoRuntime.rupees. lia.
  - simpl. unfold DemoRuntime.rupees. lia.
Defined.

(** * Further properties of the entry point *)

Section Entry.

Variable JSON_parse : TEXT -> parsed RazorpayWebhookPayload.
Variable CryptoKey : Type.
Variable importKey : TEXT -> list byte -> algorithm -> option CryptoKey.
Variable sign : TEXT -> CryptoKey -> list byte -> option (list byte).
Variable rupees : Z -> NUMERIC.
Variable JSON_parse_request : TEXT -> parsed VerifyPaymentRequest.
Variable verifyRazorpaySignature : TEXT -> TEXT -> TEXT -> TEXT -> option bool.
Variable number : Type.
Variable of_numeric : NUMERIC -> number.
Variable js_add : number -> number -> number.
Variable js_ge : number -> number -> bool.
Variable js_gt0 : number -> bool.
Variable to_numeric : number -> option NUMERIC.

Let verify := verifyWebhookSignature CryptoKey importKey sign.
Let notify := handleWebhook JSON_parse CryptoKey importKey sign rupees.
Let verified_by := verified_capture JSON_parse CryptoKey importKey sign.
Let confirm :=
  handleDirectVerification JSON_parse_request verifyRazorpaySignature number
    of_numeric js_add js_ge js_gt0 to_numeric.
Let record :=
  record_directly number of_numeric js_add js_ge js_gt0 to_numeric.
Let entry :=
  serve JSON_parse CryptoKey importKey sign rupees JSON_parse_request
    verifyRazorpaySignature number of_numeric js_add js_ge js_gt0 to_numeric.

(** X14. A notification for a known order that cannot be verified is refused
    and kept in the audit log as a failure, with the flag
    [signature_valid] false.  Without a usable secret for the school (no
    row, an empty value, a value that does not decrypt, a caller that is
    not the service role) the handler answers 500 and the verifier is not
    run; with a secret under which the signature does not verify it
    answers 400.  In both cases the ledger is as before. *)
Theorem unverifiable_notification_is_logged_as_failure
        s wl req db payload g payment o intent :
  let out := notify s wl req db in
  let school := pi_school_id intent in
  JSON_parse (text req) = JsonValue payload ->
  x_razorpay_signature req = Some g ->
  g <> "" ->
  extract_order payload = Order payment o ->
  single (filter (fun i => String.eqb (razorpay_order_id i) o) (payment_intents db))
  = Some intent ->
  (webhook_secret s school db = None ->
   response out = errorResponse "Webhook secret configuration error" 500
   /\ ledger (final out) = ledger db
   /\ calls out = [VaultGet school "razorpay_webhook_secret"]
   /\ webhook_logs (final out)
      = (webhook_logs db ++
           [mk_log (gen_random_uuid (map wl_id (webhook_logs db))) (Some school)
                   (event payload) (Some g) (NotificationBody payload) (Some false)
                   failed (Some "Webhook secret not found")])%list)
  /\ (forall secret,
        webhook_secret s school db = Some secret ->
        verify (text req) g secret = false ->
        ~ In wl (map wl_id (webhook_logs db)) ->
        response out = errorResponse "Invalid webhook signature" 400
        /\ ledger (final out) = ledger db
        /\ webhook_logs (final out)
           = (webhook_logs db ++
                [mk_log wl (Some school) (event payload) (Some g)
                        (NotificationBody payload) (Some false) failed
                        (Some "Invalid webhook signature")])%list).
Proof.
  intros out school Hparse Hg Hne He Hint. subst out school.
  apply String.eqb_neq in Hne.
  unfold notify, handleWebhook. rewrite Hparse, Hg. simpl. rewrite Hne. simpl.
  rewrite He, Hint. split.
  - intros ->. simpl. repeat split.
  - intros secret -> Hv Hfresh. fold verify. rewrite Hv. simpl.
    split; [reflexivity|].
    split; [rewrite ledger_update_webhook_log; apply ledger_insert_webhook_log|].
    rewrite insert_webhook_log_fresh by exact Hfresh.
    unfold update_webhook_log; simpl.
    unfold update_where. rewrite map_app. simpl. rewrite Nat.eqb_refl.
    f_equal.
    apply (update_where_none (fun r => Nat.eqb (wl_id r) wl)).
    apply fresh_id_matches_no_row. exact Hfresh.
Qed.

(** ** The direct path, statement by statement *)

(** [INSERT INTO payments] on its own: refused without a trace, or one row
    behind the others. *)
Lemma insert_payment_outcome fee_id school t o a ver db :
  (exists e, rpc (insert_payment fee_id school t o a ver) db = (Raised e, db))
  \/ (existsb (has_transaction t) (payments db) = false
      /\ rpc (insert_payment fee_id school t o a ver) db
         = (Returned (gen_random_uuid (map p_id (payments db))),
            with_payments db
              (payments db ++
                 [mk_payment (gen_random_uuid (map p_id (payments db))) fee_id school
                             (Some t) o a "Online" ver]))).
Proof.
  unfold rpc, insert_payment, bind, query, write, ret, raise; simpl.
  destruct (numeric_10_2 a) as [a'|] eqn:Hn; simpl; [|left; eauto].
  apply numeric_10_2_Some in Hn. subst a'.
  destruct (existsb (has_transaction t) (payments db)) eqn:Hdup; simpl; [left; eauto|].
  right. auto.
Qed.

Lemma record_directly_outcome intent p db cs :
  let marked :=
    with_payment_intents db
      (update_where (fun i => Nat.eqb (pi_id i) (pi_id intent)) (marked_paid p)
                    (payment_intents db)) in
  let out := record intent p db cs in
  calls out = cs
  /\ school_configurations (final out) = school_configurations db
  /\ webhook_logs (final out) = webhook_logs db
  /\ payment_intents (final out) = payment_intents marked
  /\ ((response out = errorResponse "Failed to record payment" 400
       /\ final out = marked)
      \/ (exists row,
            response out
            = successResponse
                (mk_data "Payment verified and recorded successfully"
                         (Some (RecordId (p_id row))) (Some p))
            /\ existsb (has_transaction p) (payments db) = false
            /\ transaction_id row = Some p
            /\ payments (final out) = (payments db ++ [row])%list)).
Proof.
  intros marked out. subst out. unfold record, record_directly.
  fold (marked_paid p). fold marked.
  destruct (find _ (student_fees db)) as [fee|]; simpl;
    [|repeat split; left; split; reflexivity].
  destruct (to_numeric (of_numeric (pi_amount intent))) as [a|]; simpl;
    [|repeat split; left; split; reflexivity].
  destruct (insert_payment_outcome (pi_student_fee_id intent) (pi_school_id intent)
              p None a false marked) as [[e ->]|[Hnew ->]]; simpl;
    [repeat split; left; split; reflexivity|].
  destruct (to_numeric (js_add _ _)); simpl;
    (do 4 (split; [reflexivity|]); right;
     exists (mk_payment (gen_random_uuid (map p_id (payments db)))
                        (pi_student_fee_id intent) (pi_school_id intent)
                        (Some p) None a "Online" false);
     split; [reflexivity|]; split; [exact Hnew|]; split; reflexivity).
Qed.

(** A confirmation either stops before the first write, or reaches the
    three writes with an accepted signature and an intent not yet paid. *)
Lemma handleDirectVerification_cases req db :
  let out := confirm req db in
  (final out = db
   /\ response out <> errorResponse "Failed to record payment" 400
   /\ (forall pid t,
         response out
         <> successResponse (mk_data "Payment verified and recorded successfully" pid t))
   /\ (forall o p g secret,
         In (VerifyPayment o p g secret) (calls out) -> stored_key_secret db secret))
  \/ exists requestData o p g intent config,
      JSON_parse_request (text req) = JsonValue requestData
      /\ razorpayOrderId requestData = Some o
      /\ razorpayPaymentId requestData = Some p
      /\ razorpaySignature requestData = Some g
      /\ single (filter (fun i => String.eqb (razorpay_order_id i) o) (payment_intents db))
         = Some intent
      /\ find (fun c => Nat.eqb (sc_school_id c) (pi_school_id intent)
                        && String.eqb (config_key c) "razorpay_key_secret")
              (school_configurations db) = Some config
      /\ verifyRazorpaySignature o p g (config_value config) = Some true
      /\ pi_status intent <> intent_paid
      /\ out = record intent p db
                 [VaultGet (pi_school_id intent) "razorpay_key_secret";
                  VerifyPayment o p g (config_value config)].
Proof.
  intros out. subst out. unfold confirm, handleDirectVerification, verification_thrown.
  assert (Hstop : forall r cs,
             (forall o p g secret, In (VerifyPayment o p g secret) cs ->
                                   stored_key_secret db secret) ->
             r <> errorResponse "Failed to record payment" 400 ->
             (forall pid t,
                 r <> successResponse
                        (mk_data "Payment verified and recorded successfully" pid t)) ->
             final (mk_outcome r db cs) = db
             /\ response (mk_outcome r db cs) <> errorResponse "Failed to record payment" 400
             /\ (forall pid t,
                   response (mk_outcome r db cs)
                   <> successResponse
                        (mk_data "Payment verified and recorded successfully" pid t))
             /\ (forall o p g secret,
                   In (VerifyPayment o p g secret) (calls (mk_outcome r db cs)) ->
                   stored_key_secret db secret))
    by (intros; simpl; auto).
  assert (Hnil : forall o p g secret,
             In (VerifyPayment o p g secret) [] -> stored_key_secret db secret)
    by (intros ? ? ? ? []).
  destruct (JSON_parse_request (text req)) as [msg| |requestData] eqn:Hparse;
    [left; apply Hstop; [exact Hnil | discriminate | discriminate] ..|].
  destruct (razorpayOrderId requestData) as [o|] eqn:Ho;
    [|left; apply Hstop; [exact Hnil | discriminate | discriminate]].
  destruct (razorpayPaymentId requestData) as [p|] eqn:Hp;
    [|left; apply Hstop; [exact Hnil | discriminate | discriminate]].
  destruct (razorpaySignature requestData) as [g|] eqn:Hg;
    [|left; apply Hstop; [exact Hnil | discriminate | discriminate]].
  destruct (missingFields requestData) as [|m ms] eqn:Hmiss;
    [|left; apply Hstop; [exact Hnil | discriminate | discriminate]].
  destruct (single (filter _ (payment_intents db))) as [intent|] eqn:Hint;
    [|left; apply Hstop; [exact Hnil | discriminate | discriminate]].
  destruct (find _ (school_configurations db)) as [config|] eqn:Hconf;
    [|left; apply Hstop; [|discriminate | discriminate];
      intros ? ? ? ? [H|[]]; discriminate H].
  assert (Hcalls : forall o' p' g' secret,
             In (VerifyPayment o' p' g' secret)
                ([VaultGet (pi_school_id intent) "razorpay_key_secret"]
                   ++ [VerifyPayment o p g (config_value config)]) ->
             stored_key_secret db secret).
  { intros o' p' g' secret [H|[H|[]]]; [discriminate H|].
    injection H as _ _ _ <-.
    pose proof (find_some _ _ Hconf) as [Hin Hc].
    apply andb_prop in Hc. destruct Hc as [_ Hk]. apply String.eqb_eq in Hk.
    exists config. auto. }
  destruct (verifyRazorpaySignature o p g (config_value config)) as [[|]|] eqn:Hv;
    [|left; apply Hstop; [exact Hcalls | discriminate | discriminate] ..].
  destruct (pi_status intent) eqn:Hst;
    [ right
    | left; apply Hstop; [exact Hcalls | discriminate | discriminate]
    | right
    | right ];
    (exists requestData, o, p, g, intent, config;
     rewrite Hst; repeat split; try assumption; try reflexivity; discriminate).
Qed.

(** X16. For every request, the direct path leaves the configurations and the
    audit log alone, writes nothing unless the verifier accepted the
    signature, and runs the verifier only with the stored text of a
    [razorpay_key_secret] row: the row is not passed through
    [decrypt_config_value]. *)
Theorem direct_verification_writes_only_after_acceptance req db :
  let out := confirm req db in
  school_configurations (final out) = school_configurations db
  /\ webhook_logs (final out) = webhook_logs db
  /\ (final out = db
      \/ exists o p g secret,
          In (VerifyPayment o p g secret) (calls out)
          /\ verifyRazorpaySignature o p g secret = Some true)
  /\ (forall o p g secret,
        In (VerifyPayment o p g secret) (calls out) -> stored_key_secret db secret).
Proof.
  intros out. subst out.
  destruct (handleDirectVerification_cases req db)
    as [(Hdb & _ & _ & Hcalls)
       |(requestData & o & p & g & intent & config
         & _ & _ & _ & _ & _ & Hconf & Hv & _ & Hout)].
  - rewrite Hdb. auto.
  - rewrite Hout.
    destruct (record_directly_outcome intent p db
                [VaultGet (pi_school_id intent) "razorpay_key_secret";
                 VerifyPayment o p g (config_value config)])
      as (Hcs & Hc & Hl & _).
    split; [exact Hc|]. split; [exact Hl|]. rewrite Hcs. split.
    + right. exists o, p, g, (config_value config). split; [simpl; auto | exact Hv].
    + intros o' p' g' secret [H|[H|[]]]; [discriminate H|].
      injection H as _ _ _ <-.
      pose proof (find_some _ _ Hconf) as [Hin Hk].
      apply andb_prop in Hk. destruct Hk as [_ Hk]. apply String.eqb_eq in Hk.
      exists config. auto.
Qed.

(** X17. When the payment record is refused, the direct path has already
    marked the intent paid: the same confirmation sent again is answered
    "Payment already processed", and no payment record or fee update
    follows from either call. *)
Theorem refused_record_is_answered_processed_on_retry req db :
  let out := confirm req db in
  let again := confirm req (final out) in
  response out = errorResponse "Failed to record payment" 400 ->
  payments (final out) = payments db
  /\ student_fees (final out) = student_fees db
  /\ final again = final out
  /\ exists requestData p,
      JSON_parse_request (text req) = JsonValue requestData
      /\ razorpayPaymentId requestData = Some p
      /\ response again
         = successResponse
             (mk_data "Payment already processed" (Some (GatewayRef (Some p))) None).
Proof.
  intros out again Hresp. subst out again.
  destruct (handleDirectVerification_cases req db)
    as [(_ & Hne & _)
       |(requestData & o & p & g & intent & config
         & Hparse & Ho & Hp & Hg & Hint & Hconf & Hv & Hst & Hout)];
    [contradiction|].
  rewrite Hout in *.
  destruct (record_directly_outcome intent p db
              [VaultGet (pi_school_id intent) "razorpay_key_secret";
               VerifyPayment o p g (config_value config)])
    as (_ & _ & _ & _ & [[_ Hfinal]|(row & Hrow & _)]);
    [|fold record in Hrow; rewrite Hrow in Hresp; discriminate Hresp].
  fold record in Hfinal. rewrite Hfinal. simpl.
  split; [reflexivity|]. split; [reflexivity|].
  assert (Hmissing : missingFields requestData = []).
  { pose proof Hout as H. unfold confirm, handleDirectVerification in H.
    rewrite Hparse, Ho, Hp, Hg in H.
    destruct (missingFields requestData); [reflexivity|].
    rewrite <- H in Hresp. simpl in Hresp. discriminate Hresp. }
  assert (Hint' :
            single (filter (fun i => String.eqb (razorpay_order_id i) o)
                      (update_where (fun i => Nat.eqb (pi_id i) (pi_id intent))
                                    (marked_paid p) (payment_intents db)))
            = Some (marked_paid p intent)).
  { rewrite filter_update_where by reflexivity.
    rewrite single_update_where, Hint. simpl. rewrite Nat.eqb_refl. reflexivity. }
  unfold confirm, handleDirectVerification.
  rewrite Hparse, Ho, Hp, Hg, Hmissing. simpl.
  rewrite Hint'. simpl. rewrite Hconf, Hv.
  split; [reflexivity|]. exists requestData, p. auto.
Qed.

(** ** What no request can do *)

Lemma reconcile_unique s wl school payment db cs :
  (forall d, unique_transactions d -> unique_transactions (lock_wait s d)) ->
  unique_transactions db ->
  unique_transactions (final (reconcile rupees s wl school payment db cs)).
Proof.
  intros Hwait Hu. unfold reconcile.
  destruct (single (filter _ (payments db))); simpl; [exact Hu|].
  destruct (order_id payment) as [o|]; simpl; [|exact Hu].
  destruct (single (filter _ (payment_intents db))) as [intent|]; simpl; [|exact Hu].
  pose proof (process_payment_webhook_unique s (pi_id intent) (id payment)
                (rupees (amount payment)) school db Hu (Hwait db Hu)) as H.
  destruct (rpc _ db) as [[pid|m] db']; simpl in *; exact H.
Qed.

Lemma handleWebhook_unique s wl req db :
  (forall d, unique_transactions d -> unique_transactions (lock_wait s d)) ->
  unique_transactions db ->
  unique_transactions (final (notify s wl req db)).
Proof.
  intros Hwait Hu. unfold notify, handleWebhook.
  destruct (JSON_parse (text req)) as [msg| |payload]; simpl; auto.
  - destruct (negb _); simpl; auto.
  - destruct (x_razorpay_signature req) as [g|]; simpl; auto.
    destruct (String.eqb g ""); simpl; auto.
    destruct (extract_order payload) as [msg| |payment o]; simpl; auto.
    destruct (single _) as [intent|]; simpl; auto.
    destruct (webhook_secret s (pi_school_id intent) db) as [secret|]; simpl; auto.
    assert (Hu0 : forall l, unique_transactions (insert_webhook_log l db))
      by (intros l; unfold insert_webhook_log; destruct (existsb _ _); exact Hu).
    destruct (negb _); simpl; [apply Hu0|].
    apply reconcile_unique; auto.
Qed.

Lemma handleDirectVerification_unique req db :
  unique_transactions db -> unique_transactions (final (confirm req db)).
Proof.
  intros Hu.
  destruct (handleDirectVerification_cases req db)
    as [(Hdb & _)
       |(requestData & o & p & g & intent & config & _ & _ & _ & _ & _ & _ & _ & _ & Hout)].
  - rewrite Hdb. exact Hu.
  - rewrite Hout.
    destruct (record_directly_outcome intent p db
                [VaultGet (pi_school_id intent) "razorpay_key_secret";
                 VerifyPayment o p g (config_value config)])
      as (_ & _ & _ & _ & [[_ Hfinal]|(row & _ & Hnew & Hrow & Hpay)]).
    + rewrite Hfinal. exact Hu.
    + unfold unique_transactions. rewrite Hpay.
      apply (unique_transactions_insert p); auto.
Qed.

(** X18. No request to the edge function, of either kind, under any role,
    any failure of the store and any interleaving with transactions that
    themselves respect the unique index, leaves two payment records with
    the same transaction id. *)
Theorem entry_point_keeps_transactions_unique s wl req db :
  (forall d, unique_transactions d -> unique_transactions (lock_wait s d)) ->
  unique_transactions db ->
  unique_transactions (final (entry s wl req db)).
Proof.
  intros Hwait Hu. unfold entry, serve.
  destruct (String.eqb (http_method req) "OPTIONS"); [exact Hu|].
  destruct (negb (String.eqb (http_method req) "POST")); [exact Hu|].
  destruct (_ && _).
  - apply handleWebhook_unique; assumption.
  - apply handleDirectVerification_unique; assumption.
Qed.

Let appends_at_most_one (db : DB) (out : outcome) : Prop :=
  school_configurations (final out) = school_configurations db
  /\ exists added,
      payments (final out) = (payments db ++ added)%list
      /\ List.length added <= 1
      /\ (added <> [] -> status (response out) = 200)
      /\ (added = [] -> student_fees (final out) = student_fees db).

Lemma same_ledger_appends_nothing db out :
  ledger (final out) = ledger db -> appends_at_most_one db out.
Proof.
  unfold ledger. intros [= Hc Hi Hf Hp]. split; [exact Hc|].
  exists []. rewrite app_nil_r. repeat split; auto. intros H; contradiction.
Qed.

Lemma reconcile_appends role faults wl school payment db cs :
  appends_at_most_one db
    (reconcile rupees (mk_session role faults (fun d => d)) wl school payment db cs).
Proof.
  unfold reconcile.
  destruct (single (filter _ (payments db))); simpl;
    [apply same_ledger_appends_nothing; reflexivity|].
  destruct (order_id payment) as [o|]; simpl;
    [|apply same_ledger_appends_nothing; reflexivity].
  destruct (single (filter _ (payment_intents db))) as [intent|]; simpl;
    [|apply same_ledger_appends_nothing; reflexivity].
  destruct (rpc _ db) as [[pid|m] db'] eqn:Hrpc; simpl.
  - apply process_payment_webhook_returned in Hrpc.
    destruct Hrpc as (i & fee & cur & _ & _ & _ & _ & _ & _ & _ & _ & ->).
    split; [reflexivity|]. simpl.
    eexists [_]. split; [reflexivity|]. split; [simpl; lia|].
    split; [reflexivity | discriminate].
  - apply process_payment_webhook_raised in Hrpc. simpl in Hrpc.
    assert (db' = db) as -> by tauto.
    apply same_ledger_appends_nothing. reflexivity.
Qed.

Lemma handleWebhook_appends role faults wl req db :
  appends_at_most_one db (notify (mk_session role faults (fun d => d)) wl req db).
Proof.
  destruct (verified_by (mk_session role faults (fun d => d)) req db) as [v|] eqn:Hv.
  - unfold notify, verified_by in *.
    rewrite (handleWebhook_verified _ _ _ _ rupees _ wl _ _ _ Hv).
    destruct (reconcile_appends role faults wl (v_school v) (v_payment v)
                (insert_webhook_log (received_entry wl v) db)
                [VaultGet (v_school v) "razorpay_webhook_secret";
                 Verify (text req) (v_signature v) (v_secret v)])
      as (Hc & added & Hp & Hlen & H200 & Hfees).
    pose proof (ledger_insert_webhook_log (received_entry wl v) db) as Hl.
    unfold ledger in Hl. injection Hl as Hc0 Hi0 Hf0 Hp0.
    split; [congruence|]. exists added.
    split; [congruence|]. split; [exact Hlen|]. split; [exact H200|].
    intros Hnil. rewrite (Hfees Hnil). exact Hf0.
  - apply same_ledger_appends_nothing.
    apply (handleWebhook_unverified JSON_parse CryptoKey importKey sign rupees _ wl _ _ Hv).
Qed.

Lemma handleDirectVerification_appends req db :
  appends_at_most_one db (confirm req db).
Proof.
  destruct (handleDirectVerification_cases req db)
    as [(Hdb & _)
       |(requestData & o & p & g & intent & config & _ & _ & _ & _ & _ & _ & _ & _ & Hout)].
  - apply same_ledger_appends_nothing. rewrite Hdb. reflexivity.
  - rewrite Hout.
    destruct (record_directly_outcome intent p db
                [VaultGet (pi_school_id intent) "razorpay_key_secret";
                 VerifyPayment o p g (config_value config)])
      as (_ & Hc & _ & _ & [[_ Hfinal]|(row & Hresp & _ & _ & Hpay)]).
    + split; [exact Hc|]. exists []. rewrite Hfinal, app_nil_r. simpl.
      repeat split; auto. intros H; contradiction.
    + split; [exact Hc|]. exists [row]. split; [exact Hpay|].
      split; [simpl; lia|]. split; [intros _; rewrite Hresp; reflexivity | discriminate].
Qed.

(** X19. With no other transaction in between, a request to the edge function
    never removes or rewrites a payment record and adds at most one, which
    it does only when it answers 200; it credits no fee without adding a
    payment record; it never changes a configuration; and a request that
    is not a POST changes nothing and reaches neither the vault nor a
    verifier. *)
Theorem entry_point_appends_at_most_one_payment role faults wl req db :
  let out := entry (mk_session role faults (fun d => d)) wl req db in
  school_configurations (final out) = school_configurations db
  /\ (exists added,
        payments (final out) = (payments db ++ added)%list
        /\ List.length added <= 1
        /\ (added <> [] -> status (response out) = 200)
        /\ (added = [] -> student_fees (final out) = student_fees db))
  /\ (http_method req <> "POST" -> final out = db /\ calls out = []).
Proof.
  intros out. subst out.
  assert (H : appends_at_most_one db
                (entry (mk_session role faults (fun d => d)) wl req db)
              /\ (http_method req <> "POST" ->
                  final (entry (mk_session role faults (fun d => d)) wl req db) = db
                  /\ calls (entry (mk_session role faults (fun d => d)) wl req db) = [])).
  { unfold entry, serve.
    destruct (String.eqb (http_method req) "OPTIONS");
      [split; [apply same_ledger_appends_nothing; reflexivity | auto]|].
    destruct (String.eqb (http_method req) "POST") eqn:Hpost; simpl;
      [|split; [apply same_ledger_appends_nothing; reflexivity | auto]].
    apply String.eqb_eq in Hpost.
    split; [|intros Hne; contradiction].
    destruct (_ && _);
      [apply handleWebhook_appends | apply handleDirectVerification_appends]. }
  destruct H as [[Hc Hadded] Hpost]. auto.
Qed.

End Entry.

(** * The two paths on one capture *)

Section BothPaths.

Variable JSON_parse : TEXT -> parsed RazorpayWebhookPayload.
Variable CryptoKey : Type.
Variable importKey : TEXT -> list byte -> algorithm -> option CryptoKey.
Variable sign : TEXT -> CryptoKey -> list byte -> option (list byte).
Variable rupees : Z -> NUMERIC.
Variable JSON_parse_request : TEXT -> parsed VerifyPaymentRequest.
Variable verifyRazorpaySignature : TEXT -> TEXT -> TEXT -> TEXT -> option bool.
Variable number : Type.
Variable of_numeric : NUMERIC -> number.
Variable js_add : number -> number -> number.
Variable js_ge : number -> number -> bool.
Variable js_gt0 : number -> bool.
Variable to_numeric : number -> option NUMERIC.

Let notify := handleWebhook JSON_parse CryptoKey importKey sign rupees.
Let verified_by := verified_capture JSON_parse CryptoKey importKey sign.
Let confirm :=
  handleDirectVerification JSON_parse_request verifyRazorpaySignature number
    of_numeric js_add js_ge js_gt0 to_numeric.

(** X20. The notification first, the confirmation of the client after it: once
    the webhook path has applied a capture, a confirmation for the same
    order that passes the verifier is answered "Payment already processed"
    with the transaction id the notification carried, and changes
    nothing. *)
Theorem confirmation_after_notification_changes_nothing
        wl req db v pid o creq requestData p g config :
  let out := notify service_session wl req db in
  let after := confirm creq (final out) in
  verified_by service_session req db = Some v ->
  response out
  = successResponse (mk_data "Payment processed successfully" (Some (RecordId pid)) None) ->
  order_id (v_payment v) = Some o ->
  JSON_parse_request (text creq) = JsonValue requestData ->
  razorpayOrderId requestData = Some o ->
  razorpayPaymentId requestData = Some p ->
  razorpaySignature requestData = Some g ->
  missingFields requestData = [] ->
  find (fun c => Nat.eqb (sc_school_id c) (v_school v)
                 && String.eqb (config_key c) "razorpay_key_secret")
       (school_configurations db) = Some config ->
  verifyRazorpaySignature o p g (config_value config) = Some true ->
  response after
  = successResponse
      (mk_data "Payment already processed"
               (Some (GatewayRef (Some (id (v_payment v))))) None)
  /\ final after = final out.
Proof.
  intros out after Hv Hresp Ho Hparse Hro Hrp Hrg Hmiss Hconf Haccept.
  subst out after. unfold notify, verified_by in *.
  destruct (verified_capture_inv JSON_parse CryptoKey importKey sign _ _ _ _ Hv)
    as (o0 & intent0 & Ho0 & Hint0 & Hschool & _).
  rewrite Ho in Ho0. injection Ho0 as <-.
  destruct (handle_applied JSON_parse CryptoKey importKey sign rupees wl req db v pid
              Hv Hresp)
    as (o' & intent & i & fee & cur & Ho' & Hint & _ & _ & _ & _ & Hfinal).
  rewrite Ho in Ho'. injection Ho' as <-.
  rewrite Hint0 in Hint. injection Hint as <-.
  rewrite Hfinal.
  set (db0 := insert_webhook_log (received_entry wl v) db).
  pose proof (ledger_insert_webhook_log (received_entry wl v) db) as Hl.
  fold db0 in Hl. unfold ledger in Hl. injection Hl as Hc0 Hi0 Hf0 Hp0.
  unfold confirm, handleDirectVerification.
  rewrite Hparse, Hro, Hrp, Hrg, Hmiss. simpl.
  rewrite filter_update_where by reflexivity.
  rewrite single_update_where, Hi0, Hint0. simpl. rewrite Nat.eqb_refl. simpl.
  rewrite Hc0, <- Hschool, Hconf, Haccept. split; reflexivity.
Qed.

(** X21. The confirmation first, the notification after it: once the direct
    path has recorded a payment, a verified notification that carries the
    same transaction id is answered "Payment already processed" and leaves
    configurations, intents, fees and payments as they are. *)
Theorem notification_after_confirmation_changes_nothing
        wl req creq db pid p v :
  let out := confirm creq db in
  let after := notify service_session wl req (final out) in
  response out
  = successResponse
      (mk_data "Payment verified and recorded successfully" (Some (RecordId pid)) (Some p)) ->
  verified_by service_session req (final out) = Some v ->
  id (v_payment v) = p ->
  response after = already_processed
  /\ ledger (final after) = ledger (final out).
Proof.
  intros out after Hresp Hv Hid. subst out after.
  unfold notify, verified_by, confirm in *.
  destruct (handleDirectVerification_cases JSON_parse_request verifyRazorpaySignature
              number of_numeric js_add js_ge js_gt0 to_numeric creq db)
    as [(_ & _ & Hne & _)
       |(requestData & o & p' & g & intent & config
         & _ & _ & _ & _ & _ & _ & _ & _ & Hout)];
    [exfalso; exact (Hne _ _ Hresp)|].
  destruct (record_directly_outcome number of_numeric js_add js_ge js_gt0 to_numeric
              intent p' db
              [VaultGet (pi_school_id intent) "razorpay_key_secret";
               VerifyPayment o p' g (config_value config)])
    as (_ & _ & _ & _ & [[Hfail _]|(row & Hrow & Hnew & Ht & Hpay)]);
    rewrite <- Hout in *.
  - rewrite Hfail in Hresp. discriminate Hresp.
  - rewrite Hrow in Hresp. injection Hresp as _ <-.
    apply (handle_duplicate JSON_parse CryptoKey importKey sign rupees wl req _ v row Hv).
    rewrite Hid, Hpay, filter_app, (existsb_false_filter _ _ Hnew). simpl.
    unfold has_transaction. rewrite Ht, String.eqb_refl. reflexivity.
Qed.

End BothPaths.

(** * Notifications of other events *)

Section OtherEvents.

Variable JSON_parse : TEXT -> parsed RazorpayWebhookPayload.
Variable CryptoKey : Type.
Variable importKey : TEXT -> list byte -> algorithm -> option CryptoKey.
Variable sign : TEXT -> CryptoKey -> list byte -> option (list byte).
Variable rupees : Z -> NUMERIC.

Let handle := handleWebhook JSON_parse CryptoKey importKey sign rupees.

(** X15. The handler reads an order reference from [payment.captured] alone.
    A notification of any other event (a failed payment, a refund), and a
    capture without order reference, is answered 400 before the school is
    known: nothing is verified, nothing is logged, nothing changes. *)
Theorem other_events_are_refused s wl req db payload :
  let out := handle s wl req db in
  JSON_parse (text req) = JsonValue payload ->
  event payload <> "payment.captured"
  \/ (exists payment, notification_payload payload = Some (Some payment)
                      /\ truthy (order_id payment) = false)
  \/ notification_payload payload = Some None ->
  status (response out) = 400
  /\ (response out = errorResponse "Invalid webhook payload" 400
      <-> truthy (x_razorpay_signature req) = true)
  /\ final out = db
  /\ calls out = [].
Proof.
  intros out Hparse Hother. subst out.
  assert (Hno : extract_order payload = NoOrder).
  { unfold extract_order.
    destruct Hother as [Hev|[(payment & Hp & Ho)|Hp]].
    - apply String.eqb_neq in Hev. rewrite Hev. reflexivity.
    - rewrite Hp. destruct (String.eqb (event payload) "payment.captured"); [|reflexivity].
      unfold truthy in Ho. destruct (order_id payment) as [o|]; [|reflexivity].
      destruct (String.eqb o ""); [reflexivity | discriminate Ho].
    - rewrite Hp. destruct (String.eqb (event payload) "payment.captured"); reflexivity. }
  unfold handle, handleWebhook. rewrite Hparse.
  destruct (truthy (x_razorpay_signature req)); cbn [negb].
  - rewrite Hno. cbn [response final calls errorResponse status].
    repeat split; auto.
  - cbn [response final calls errorResponse status].
    repeat split; auto; discriminate.
Qed.

End OtherEvents.

(** * The envelope and the vault *)

Lemma envelope_of_plain (v : TEXT) :
  ~ In Pg.backslash (Pg.textout v) ->
  encrypt_config_value v
  = Returned ("ENCRYPTED:" ++ string_of_list_byte (Pg.base64_encode (Pg.textout v))).
Proof.
  intros Hno. unfold encrypt_config_value, Pg.text_to_bytea.
  rewrite (Envelope.byteain_plain _ Hno). reflexivity.
Qed.

Lemma decrypt_envelope (b : bytea) :
  decrypt_config_value ("ENCRYPTED:" ++ string_of_list_byte (Pg.base64_encode b))
  = match Pg.convert_from_utf8 b with
    | Some t => Returned t
    | None => Raised "invalid byte sequence for encoding UTF8"
    end.
Proof.
  unfold decrypt_config_value.
  replace (Pg.like_prefix "ENCRYPTED:" _) with true
    by (cbn; symmetry; apply Envelope.prefix_empty).
  rewrite Envelope.substring_after_prefix.
  unfold Pg.textout. rewrite list_byte_of_string_of_list_byte.
  rewrite Envelope.base64_decode_encode. reflexivity.
Qed.

Lemma length_string_of_list_byte (l : list byte) :
  String.length (string_of_list_byte l) = List.length l.
Proof.
  unfold string_of_list_byte.
  induction l as [|b l IH]; simpl; [reflexivity | rewrite IH; reflexivity].
Qed.

Lemma length_list_byte_of_string (t : TEXT) :
  List.length (list_byte_of_string t) = String.length t.
Proof.
  unfold list_byte_of_string.
  induction t as [|c t IH]; simpl; [reflexivity | rewrite IH; reflexivity].
Qed.

(** The base64 text is at least as long as the bytes it encodes. *)
Lemma length_base64_encode_from (n : nat) : forall (s : bytea) (col : nat),
  List.length s <= n ->
  List.length s <= List.length (Pg.base64_encode_from col s).
Proof.
  induction n as [|n IH]; intros s col Hlen.
  - destruct s; [simpl; lia | simpl in Hlen; lia].
  - destruct s as [|x [|y [|z rest]]]; try (simpl; lia).
    cbn [Pg.base64_encode_from List.length].
    assert (Hrest : List.length rest <= n) by (simpl in Hlen; lia).
    destruct (76 <=? col + 4)%nat; cbn [List.length].
    + pose proof (IH rest 0%nat Hrest). lia.
    + pose proof (IH rest (col + 4)%nat Hrest). lia.
Qed.

(** What the handler gets from the vault when the row of the school
    decrypts. *)
Lemma webhook_secret_decrypts school db sc v :
  find (fun c => Nat.eqb (sc_school_id c) school
                 && String.eqb (config_key c) "razorpay_webhook_secret")
       (school_configurations db) = Some sc ->
  decrypt_config_value (config_value sc) = Returned v ->
  v <> "" ->
  rpc (get_school_config service_session school "razorpay_webhook_secret") db
  = (Returned (Some v), db)
  /\ webhook_secret service_session school db = Some v.
Proof.
  intros Hsc Hdec Hne.
  assert (Hkey : config_key sc = "razorpay_webhook_secret").
  { apply find_some in Hsc. destruct Hsc as [_ Hc].
    apply andb_prop in Hc. destruct Hc as [_ Hk]. apply String.eqb_eq. exact Hk. }
  assert (Hrpc : rpc (get_school_config service_session school "razorpay_webhook_secret") db
                 = (Returned (Some v), db)).
  { unfold rpc, get_school_config, bind, query, ret, raise, lift. simpl.
    rewrite Hsc. simpl. rewrite Hkey. simpl. rewrite Hdec. reflexivity. }
  split; [exact Hrpc|].
  unfold webhook_secret. rewrite Hrpc. simpl.
  apply String.eqb_neq in Hne. rewrite Hne. reflexivity.
Qed.

(** X9. A webhook secret stored through [encrypt_config_value] is the secret
    the webhook handler verifies with: [get_school_config] hands the
    plaintext back, and the handler takes it as it comes.  The stored text
    itself is never the plaintext; it is what a reader of the row gets who
    does not go through [decrypt_config_value]. *)
Theorem enveloped_secret_reaches_the_webhook_verifier school db sc v :
  find (fun c => Nat.eqb (sc_school_id c) school
                 && String.eqb (config_key c) "razorpay_webhook_secret")
       (school_configurations db) = Some sc ->
  encrypt_config_value v = Returned (config_value sc) ->
  ~ In Pg.backslash (Pg.textout v) ->
  Pg.utf8_valid (Pg.textout v) = true ->
  v <> "" ->
  rpc (get_school_config service_session school "razorpay_webhook_secret") db
  = (Returned (Some v), db)
  /\ webhook_secret service_session school db = Some v
  /\ config_value sc <> v.
Proof.
  intros Hsc Henc Hno Hutf Hne.
  assert (Henv : config_value sc
                 = "ENCRYPTED:" ++ string_of_list_byte (Pg.base64_encode (Pg.textout v)))
    by (rewrite (envelope_of_plain v Hno) in Henc; congruence).
  clear Henc.
  assert (Hdec : decrypt_config_value (config_value sc) = Returned v).
  { rewrite Henv, decrypt_envelope. unfold Pg.convert_from_utf8. rewrite Hutf.
    unfold Pg.textout. rewrite string_of_list_byte_of_string. reflexivity. }
  destruct (webhook_secret_decrypts school db sc v Hsc Hdec Hne) as [Hrpc Hsecret].
  split; [exact Hrpc|]. split; [exact Hsecret|].
  intros Heq.
  assert (Hlen : String.length (config_value sc) = String.length v) by (rewrite Heq; reflexivity).
  rewrite Henv in Hlen. cbn [String.append String.length] in Hlen.
  rewrite length_string_of_list_byte in Hlen.
  pose proof (length_base64_encode_from (List.length (Pg.textout v)) (Pg.textout v) 0
                (le_n _)) as Hb.
  unfold Pg.textout in *. rewrite length_list_byte_of_string in Hb.
  unfold Pg.base64_encode in Hlen. lia.
Qed.

(** ** The secrets the migration generates *)

Lemma hex_digit_plain (n : N) :
  Pg.in_range 1 127 (byte_of_ascii (hex_digit n)) = true
  /\ byte_of_ascii (hex_digit n) <> Pg.backslash.
Proof.
  destruct (N.lt_ge_cases n 16) as [Hlt|Hge].
  - revert n Hlt. apply below_16; (split; [reflexivity | discriminate]).
  - assert (hex_digit n = "f"%char) as ->.
    { destruct n as [|p]; [lia|].
      do 4 (destruct p as [p|p|]; try lia); reflexivity. }
    split; [reflexivity | discriminate].
Qed.

Lemma plain_bytes (l : list byte) :
  Forall (fun c => Pg.in_range 1 127 c = true /\ c <> Pg.backslash) l ->
  Pg.utf8_valid l = true /\ ~ In Pg.backslash l.
Proof.
  induction 1 as [|c l [Hc Hb] _ [IHv IHb]]; [split; [reflexivity | intros []]|].
  split.
  - cbn [Pg.utf8_valid]. rewrite Hc. exact IHv.
  - intros [H|H]; [congruence | exact (IHb H)].
Qed.

Lemma hex_encode_plain (d : list byte) :
  Forall (fun c => Pg.in_range 1 127 c = true /\ c <> Pg.backslash)
         (list_byte_of_string (hex_encode d)).
Proof.
  induction d as [|b bs IH]; [constructor|].
  rewrite hex_encode_cons.
  change (list_byte_of_string (String ?a (String ?b ?s)))
    with (byte_of_ascii a :: byte_of_ascii b :: list_byte_of_string s).
  repeat constructor; try apply hex_digit_plain. exact IH.
Qed.

(** X22. Every secret the migration generates survives the envelope: whatever
    the random bytes, [encrypt_config_value] accepts the secret,
    [decrypt_config_value] gives it back from the stored text, and a
    school whose configuration row holds that text gets the secret from the
    vault.  The loss of backslashes cannot touch these secrets. *)
Theorem generated_secrets_survive_the_envelope (random : bytea) :
  let v := generated_webhook_secret random in
  exists e,
    encrypt_config_value v = Returned e
    /\ decrypt_config_value e = Returned v
    /\ forall school db sc,
        find (fun c => Nat.eqb (sc_school_id c) school
                       && String.eqb (config_key c) "razorpay_webhook_secret")
             (school_configurations db) = Some sc ->
        config_value sc = e ->
        webhook_secret service_session school db = Some v.
Proof.
  intros v.
  assert (Hplain : Pg.utf8_valid (Pg.textout v) = true /\ ~ In Pg.backslash (Pg.textout v)).
  { apply plain_bytes. subst v. unfold generated_webhook_secret, Pg.textout.
    change (list_byte_of_string ("whsec_" ++ hex_encode random))
      with (x77 :: x68 :: x73 :: x65 :: x63 :: x5f
                :: list_byte_of_string (hex_encode random)).
    repeat (constructor; [split; [reflexivity | discriminate]|]).
    apply hex_encode_plain. }
  destruct Hplain as [Hutf Hno].
  assert (Hdec : decrypt_config_value
                   ("ENCRYPTED:" ++ string_of_list_byte (Pg.base64_encode (Pg.textout v)))
                 = Returned v).
  { rewrite decrypt_envelope. unfold Pg.convert_from_utf8. rewrite Hutf.
    unfold Pg.textout. rewrite string_of_list_byte_of_string. reflexivity. }
  eexists. split; [apply (envelope_of_plain v Hno)|].
  split; [exact Hdec|].
  intros school db sc Hsc He.
  rewrite <- He in Hdec.
  apply (webhook_secret_decrypts school db sc v Hsc Hdec).
  subst v. discriminate.
Qed.

(** * The further properties at the example data *)

Lemma decrypt_encrypt_without_backslash_witness :
  exists e, encrypt_config_value Demo.webhook_secret_text = Returned e
            /\ Pg.like_prefix "ENCRYPTED:" e = true
            /\ decrypt_config_value e = Returned Demo.webhook_secret_text.
Proof.
  apply (Envelope.decrypt_encrypt_without_backslash Demo.webhook_secret_text).
  - vm_compute. intros H.
    repeat (destruct H as [H|H]; [discriminate H|]). exact H.
  - reflexivity.
Defined.

Lemma unverifiable_notification_is_logged_as_failure_witness :
  let out := DemoRuntime.handle service_session 100
               (DemoRuntime.delivery DemoRuntime.capture_body "0000") Demo.db in
  response out = errorResponse "Invalid webhook signature" 400
  /\ ledger (final out) = ledger Demo.db
  /\ webhook_logs (final out)
     = (webhook_logs Demo.db ++
          [mk_log 100 (Some Demo.school) "payment.captured" (Some "0000")
                  (NotificationBody DemoRuntime.capture_notification) (Some false)
                  failed (Some "Invalid webhook signature")])%list.
Proof.
  assert (Hne : "0000" <> "") by discriminate.
  destruct (unverifiable_notification_is_logged_as_failure
              DemoRuntime.JSON_parse DemoRuntime.CryptoKey DemoRuntime.importKey
              DemoRuntime.sign DemoRuntime.rupees service_session 100
              (DemoRuntime.delivery DemoRuntime.capture_body "0000") Demo.db
              DemoRuntime.capture_notification "0000" Demo.capture "order_DEF456UVW"
              Demo.intent eq_refl eq_refl Hne eq_refl eq_refl) as [_ H].
  apply (H Demo.webhook_secret_text).
  - vm_compute. reflexivity.
  - vm_compute. reflexivity.
  - simpl. tauto.
Defined.

Lemma refused_record_is_answered_processed_on_retry_witness :
  let db := mk_db Demo.configurations [Demo.intent] [Demo.fee]
              [mk_payment 1 10 Demo.school (Some "pay_ABC123XYZ") None 4000000
                          "Online" false] [] [Demo.school] in
  let out := DemoDirect.handle (DemoDirect.confirmation DemoDirect.first_body) db in
  let again := DemoDirect.handle (DemoDirect.confirmation DemoDirect.first_body)
                 (final out) in
  payments (final out) = payments db
  /\ student_fees (final out) = student_fees db
  /\ final again = final out
  /\ exists requestData p,
      DemoDirect.JSON_parse_request (text (DemoDirect.confirmation DemoDirect.first_body))
      = JsonValue requestData
      /\ razorpayPaymentId requestData = Some p
      /\ response again
         = successResponse
             (mk_data "Payment already processed" (Some (GatewayRef (Some p))) None).
Proof.
  apply (refused_record_is_answered_processed_on_retry
           DemoDirect.JSON_parse_request DemoDirect.verifyRazorpaySignature
           DemoDirect.number DemoDirect.of_numeric Z.add DemoDirect.js_ge
           DemoDirect.js_gt0 numeric_10_2
           (DemoDirect.confirmation DemoDirect.first_body)
           (mk_db Demo.configurations [Demo.intent] [Demo.fee]
              [mk_payment 1 10 Demo.school (Some "pay_ABC123XYZ") None 4000000
                          "Online" false] [] [Demo.school])).
  vm_compute. reflexivity.
Defined.

Lemma entry_point_keeps_transactions_unique_witness :
  unique_transactions
    (final (serve DemoRuntime.JSON_parse DemoRuntime.CryptoKey DemoRuntime.importKey
              DemoRuntime.sign DemoRuntime.rupees DemoDirect.JSON_parse_request
              DemoDirect.verifyRazorpaySignature DemoDirect.number DemoDirect.of_numeric
              Z.add DemoDirect.js_ge DemoDirect.js_gt0 numeric_10_2
              Race.racing 100 Race.delivery Demo.db)).
Proof.
  apply (entry_point_keeps_transactions_unique
           DemoRuntime.JSON_parse DemoRuntime.CryptoKey DemoRuntime.importKey
           DemoRuntime.sign DemoRuntime.rupees DemoDirect.JSON_parse_request
           DemoDirect.verifyRazorpaySignature DemoDirect.number DemoDirect.of_numeric
           Z.add DemoDirect.js_ge DemoDirect.js_gt0 numeric_10_2
           Race.racing 100 Race.delivery Demo.db).
  - intros d Hd.
    exact (process_payment_webhook_unique service_session 20 "pay_ABC123XYZ" 4000000
             Demo.school d Hd Hd).
  - unfold unique_transactions. simpl. constructor.
Defined.

Lemma confirmation_after_notification_changes_nothing_witness :
  let out := DemoRuntime.handle service_session 100 Race.delivery Demo.db in
  let after := DemoDirect.handle (DemoDirect.confirmation DemoDirect.first_body)
                 (final out) in
  response after
  = successResponse
      (mk_data "Payment already processed" (Some (GatewayRef (Some "pay_ABC123XYZ"))) None)
  /\ final after = final out.
Proof.
  apply (confirmation_after_notification_changes_nothing
           DemoRuntime.JSON_parse DemoRuntime.CryptoKey DemoRuntime.importKey
           DemoRuntime.sign DemoRuntime.rupees DemoDirect.JSON_parse_request
           DemoDirect.verifyRazorpaySignature DemoDirect.number DemoDirect.of_numeric
           Z.add DemoDirect.js_ge DemoDirect.js_gt0 numeric_10_2
           100 Race.delivery Demo.db
           (mk_verified DemoRuntime.capture_notification Demo.capture Demo.school
                        DemoRuntime.capture_signature Demo.webhook_secret_text)
           1 "order_DEF456UVW" (DemoDirect.confirmation DemoDirect.first_body)
           (mk_verify_request (Some "order_DEF456UVW") (Some "pay_ABC123XYZ")
                              (Some "1a87"))
           "pay_ABC123XYZ" "1a87"
           (mk_config 2 Demo.school "razorpay_key_secret" "ENCRYPTED_SECRET_VALUE"));
    vm_compute; reflexivity.
Defined.

Lemma notification_after_confirmation_changes_nothing_witness :
  let out := DemoDirect.handle (DemoDirect.confirmation DemoDirect.first_body) Demo.db in
  let after := DemoRuntime.handle service_session 100 Race.delivery (final out) in
  response after = already_processed
  /\ ledger (final after) = ledger (final out).
Proof.
  apply (notification_after_confirmation_changes_nothing
           DemoRuntime.JSON_parse DemoRuntime.CryptoKey DemoRuntime.importKey
           DemoRuntime.sign DemoRuntime.rupees DemoDirect.JSON_parse_request
           DemoDirect.verifyRazorpaySignature DemoDirect.number DemoDirect.of_numeric
           Z.add DemoDirect.js_ge DemoDirect.js_gt0 numeric_10_2
           100 Race.delivery (DemoDirect.confirmation DemoDirect.first_body) Demo.db
           1 "pay_ABC123XYZ"
           (mk_verified DemoRuntime.capture_notification Demo.capture Demo.school
                        DemoRuntime.capture_signature Demo.webhook_secret_text));
    vm_compute; reflexivity.
Defined.

Lemma enveloped_secret_reaches_the_webhook_verifier_witness :
  rpc (get_school_config service_session Demo.school "razorpay_webhook_secret") Demo.db
  = (Returned (Some Demo.webhook_secret_text), Demo.db)
  /\ webhook_secret service_session Demo.school Demo.db = Some Demo.webhook_secret_text
  /\ "ENCRYPTED:d2hzZWNfMDEyMzQ1Njc4OWFiY2RlZg==" <> Demo.webhook_secret_text.
Proof.
  apply (enveloped_secret_reaches_the_webhook_verifier Demo.school Demo.db
           (mk_config 3 Demo.school "razorpay_webhook_secret"
                      "ENCRYPTED:d2hzZWNfMDEyMzQ1Njc4OWFiY2RlZg==")
           Demo.webhook_secret_text).
  - reflexivity.
  - vm_compute. reflexivity.
  - vm_compute. intros H.
    repeat (destruct H as [H|H]; [discriminate H|]). exact H.
  - reflexivity.
  - discriminate.
Defined.

Lemma other_events_are_refused_witness :
  let JSON_parse := fun _ : TEXT =>
                      JsonValue (mk_notification "payment.failed" (Some (Some Demo.capture))) in
  let out := handleWebhook JSON_parse DemoRuntime.CryptoKey DemoRuntime.importKey
               DemoRuntime.sign DemoRuntime.rupees service_session 100 Race.delivery
               Demo.db in
  status (response out) = 400
  /\ (response out = errorResponse "Invalid webhook payload" 400
      <-> truthy (x_razorpay_signature Race.delivery) = true)
  /\ final out = Demo.db
  /\ calls out = [].
Proof.
  apply (other_events_are_refused
           (fun _ => JsonValue (mk_notification "payment.failed" (Some (Some Demo.capture))))
           DemoRuntime.CryptoKey DemoRuntime.importKey DemoRuntime.sign DemoRuntime.rupees
           service_session 100 Race.delivery Demo.db
           (mk_notification "payment.failed" (Some (Some Demo.capture)))).
  - reflexivity.
  - left. discriminate.
Defined.
